(** * Order pricing, FIFO stock costing, validation and settlement

    A shallow embedding of the order/ledger core of the fin-assist panel
    front-end, and the properties its specification states about it.

    Sources embedded here:
    - [components/forms/order/utils.ts]        (pricing and validation helpers)
    - [components/forms/order/product-details.tsx] (FIFO price estimate, quantity stepper)
    - [components/forms/order/create-order.tsx]    (form reset)
    - [components/modules/SingleEntityDetails.tsx] (order remaining, settlement)

    Numbers.  A JavaScript [number] is modelled as an exact rational or
    [NaN].  Binary64 rounding and the two infinities are outside the model:
    arithmetic on finite values is exact.  Values that reach the client in a
    JSON response (stock lots, prices, balances, order totals) are finite,
    since JSON has no NaN, so they are rationals; values that come from
    form input or from an arbitrary caller are [number]s. *)

From Stdlib Require Import QArith Qround Qminmax Qabs Lqa ZArith Lia List String Ascii Bool.
From Stdlib Require Import DecimalString.
From Stdlib Require Import Sorted Permutation OrderedTypeEx.
From stdpp Require Import gmap strings.
Import ListNotations.

Local Open Scope Q_scope.

(** ** JavaScript numbers *)

Module Js.

Inductive number : Type :=
| NaN
| Num (q : Q).

Definition isNaN (x : number) : bool :=
  match x with NaN => true | Num _ => false end.

Definition lift2 (f : Q -> Q -> Q) (a b : number) : number :=
  match a, b with
  | Num x, Num y => Num (f x y)
  | _, _ => NaN
  end.

Definition add : number -> number -> number := lift2 Qplus.
Definition sub : number -> number -> number := lift2 Qminus.
Definition mul : number -> number -> number := lift2 Qmult.

(** [a / b].  The modelled code divides by the literal 100 or by a
    quantity already checked to be positive; a zero divisor (an infinity
    or NaN in JavaScript) is mapped to [NaN]. *)
Definition div (a b : number) : number :=
  match a, b with
  | Num x, Num y => if Qeq_bool y 0 then NaN else Num (x / y)
  | _, _ => NaN
  end.

(** Comparisons: every comparison with [NaN] is false. *)
Definition le (a b : number) : bool :=
  match a, b with
  | Num x, Num y => Qle_bool x y
  | _, _ => false
  end.

Definition lt (a b : number) : bool :=
  match a, b with
  | Num x, Num y => negb (Qle_bool y x)
  | _, _ => false
  end.

Definition gt (a b : number) : bool := lt b a.
Definition ge (a b : number) : bool := le b a.

(** [Math.max] and [Math.min] return [NaN] when an argument is [NaN]. *)
Definition Math_max (a b : number) : number :=
  match a, b with
  | Num x, Num y => Num (if Qle_bool x y then y else x)
  | _, _ => NaN
  end.

Definition Math_min (a b : number) : number :=
  match a, b with
  | Num x, Num y => Num (if Qle_bool x y then x else y)
  | _, _ => NaN
  end.

(** Truthiness of a number: [NaN] and zero are falsy. *)
Definition truthy (x : number) : bool :=
  match x with
  | NaN => false
  | Num q => negb (Qeq_bool q 0)
  end.

(** [x || d] on numbers. *)
Definition or_else (x d : number) : number :=
  if truthy x then x else d.

(** The integer [n] for which [n / 1] is closest to [x], the one of
    larger magnitude on a tie: the digit selection of [toFixed], which
    works on the absolute value and restores the sign. *)
Definition roundHalfAway (x : Q) : Z :=
  if Qle_bool 0 x then Qfloor (x + (1 # 2))
  else (- Qfloor (- x + (1 # 2)))%Z.

Definition pow10 (digits : nat) : Q := inject_Z (10 ^ Z.of_nat digits).

(** [parseFloat(x.toFixed(digits))]: [x] rounded to [digits] decimals;
    ["NaN"] parses back to [NaN]. *)
Definition parseFloat_toFixed (digits : nat) (x : number) : number :=
  match x with
  | NaN => NaN
  | Num q => Num (inject_Z (roundHalfAway (q * pow10 digits)) / pow10 digits)
  end.

Definition zero : number := Num 0.
Definition one : number := Num 1.
Definition hundred : number := Num 100.

Definition ofNat (n : nat) : number := Num (inject_Z (Z.of_nat n)).

(** [array.forEach((item, index) => ...)] on a body that updates a
    captured variable: the variable is threaded through as state. *)
Fixpoint forEach_from {A S : Type} (body : S -> A -> nat -> S)
    (l : list A) (index : nat) (s : S) : S :=
  match l with
  | [] => s
  | item :: rest => forEach_from body rest (Datatypes.S index) (body s item index)
  end.

Definition forEach {A S : Type} (body : S -> A -> nat -> S) (l : list A) (s : S) : S :=
  forEach_from body l 0%nat s.

(** [new Map(entries)]: entries are inserted in order, a later entry
    replaces an earlier one with the same key. *)
Definition Map_new {V : Type} (entries : list (string * V)) : gmap string V :=
  fold_left (fun m kv => <[kv.1 := kv.2]> m) entries ∅.

(** [array.sort(compare)]: the sort is stable; [compare a b <= 0] keeps
    [a] before [b]. *)
Fixpoint sort_insert {A : Type} (compare : A -> A -> Z) (x : A) (sorted : list A) : list A :=
  match sorted with
  | [] => [x]
  | y :: rest =>
      if (compare x y <=? 0)%Z then x :: y :: rest
      else y :: sort_insert compare x rest
  end.

Definition sort {A : Type} (compare : A -> A -> Z) (l : list A) : list A :=
  fold_right (sort_insert compare) [] l.

(** [array.filter((_, i) => keep i)] *)
Fixpoint filteri_from {A : Type} (keep : nat -> bool) (l : list A) (i : nat) : list A :=
  match l with
  | [] => []
  | x :: rest =>
      if keep i then x :: filteri_from keep rest (Datatypes.S i)
      else filteri_from keep rest (Datatypes.S i)
  end.

Definition filteri {A : Type} (keep : nat -> bool) (l : list A) : list A :=
  filteri_from keep l 0%nat.

(** [array.findIndex(test)]; [None] stands for [-1]. *)
Fixpoint findIndex_from {A : Type} (test : A -> bool) (l : list A) (i : nat) : option nat :=
  match l with
  | [] => None
  | x :: rest => if test x then Some i else findIndex_from test rest (Datatypes.S i)
  end.

Definition findIndex {A : Type} (test : A -> bool) (l : list A) : option nat :=
  findIndex_from test l 0%nat.

(** [array.join(sep)] on strings. *)
Fixpoint join (sep : string) (l : list string) : string :=
  match l with
  | [] => ""
  | [x] => x
  | x :: rest => x +:+ sep +:+ join sep rest
  end.

(** [a !== b] on numbers: [NaN] differs from everything. *)
Definition strict_ne (a b : number) : bool :=
  match a, b with
  | Num x, Num y => negb (Qeq_bool x y)
  | _, _ => true
  end.


(** Truthiness of a string-or-null: [null], [undefined] and [""] are falsy. *)
Definition truthyText (x : option string) : bool :=
  match x with
  | Some text => negb (String.eqb text "")
  | None => false
  end.


(** Equality of numbers up to the representation of the rational. *)
Definition eqv (a b : number) : Prop :=
  match a, b with
  | NaN, NaN => True
  | Num x, Num y => x == y
  | _, _ => False
  end.

End Js.

Import Js (number, NaN, Num).

(** ** Data types ([data/types] and [forms/order/types.ts]) *)

Inductive OrderType : Type := BUY | SELL | MISC.

Definition OrderType_eqb (a b : OrderType) : bool :=
  match a, b with
  | BUY, BUY | SELL, SELL | MISC, MISC => true
  | _, _ => false
  end.

Inductive AmountKind : Type := Fixed | Percentage.

Inductive FormStep : Type := details | payment | summary.

(** A [Date], as milliseconds since the epoch. *)
Definition Date : Type := Z.

Module StockFiFoQueue.
Record t : Type := mk {
  id : string;
  estimatedPrice : Q;
  originalStock : Q;
  availableStock : Q
}.
End StockFiFoQueue.

Module ProductVariant.
Record t : Type := mk {
  id : string;
  name : string;
  price : Q;
  buyPrice : Q;
  stock_fifo_queue : option (list StockFiFoQueue.t)
}.
End ProductVariant.

Module Product.
Record t : Type := mk {
  id : string;
  name : string;
  variants : option (list ProductVariant.t)
}.
End Product.

Module Account.
Record t : Type := mk {
  id : string;
  name : string;
  balance : Q
}.
End Account.

Module Order.
Record t : Type := mk {
  id : string;
  type : OrderType;
  totalAmount : Q;
  paidTillNow : option Q;
  createdAt : string
}.
End Order.

Module Entity.
Record t : Type := mk {
  id : string;
  organizationId : string;
  isDefault : bool;
  orders : option (list Order.t)
}.
End Entity.

Module OrderProduct.
Record t : Type := mk {
  productId : string;
  variantId : string;
  rate : number;
  quantity : number;
  description : string
}.
End OrderProduct.

Module OrderCharge.
Record t : Type := mk {
  id : string;
  name : string;
  amount : number;
  type : AmountKind;
  percentage : number;
  isPaidByBusiness : bool
}.
End OrderCharge.

Module OrderPayment.
Record t : Type := mk {
  accountId : string;
  amount : number
}.
End OrderPayment.

Module OrderFormState.
Record t : Type := mk {
  entity : option Entity.t;
  products : list OrderProduct.t;
  discount : number;
  discountType : AmountKind;
  discountPercentage : number;
  charges : list OrderCharge.t;
  tax : number;
  taxType : AmountKind;
  taxPercentage : number;
  description : string;
  orderDate : Date;
  payments : list OrderPayment.t;
  isPublic : bool
}.
End OrderFormState.

Module ValidationResult.
Record t : Type := mk {
  isValid : bool;
  errors : list string
}.
End ValidationResult.

(** [CreateOrderPayload] and its parts. *)
Module PayloadProduct.
Record t : Type := mk {
  variantId : string;
  quantity : number;
  rate : number;
  description : option string
}.
End PayloadProduct.

Module PayloadPayment.
Record t : Type := mk {
  accountId : string;
  amount : number
}.
End PayloadPayment.

Module PayloadCharge.
Record t : Type := mk {
  name : string;
  amount : number;
  isPaidByBusiness : bool
}.
End PayloadCharge.

Module CreateOrderPayload.
Record t : Type := mk {
  type : OrderType;
  entityId : option string;
  description : option string;
  products : list PayloadProduct.t;
  payments : list PayloadPayment.t;
  discount : option number;
  tax : option number;
  charges : option (list PayloadCharge.t);
  orderDate : string
}.
End CreateOrderPayload.

Module OrderCalculations.
Record t : Type := mk {
  subTotal : number;
  discountAmount : number;
  taxAmount : number;
  chargeAmount : number;
  vendorCharges : number;
  grandTotal : number;
  totalPaid : number;
  remainingAmount : number
}.
End OrderCalculations.

Inductive PaymentStatus : Type :=
  | PAID | PENDING | FAILED | CANCELLED | PARTIAL.

(** ** Pricing and validation helpers ([forms/order/utils.ts]) *)

Module Utils.

Definition calculateSubTotal (products : list OrderProduct.t) : number :=
  fold_left
    (fun sum product =>
       let amount := Js.mul (OrderProduct.rate product) (OrderProduct.quantity product) in
       Js.add sum (if Js.isNaN amount then Js.zero else amount))
    products Js.zero.

Definition calculateChargeAmount (subTotal discount : number)
    (charges : list OrderCharge.t) : number :=
  let baseAmount := Js.sub subTotal discount in
  fold_left
    (fun sum charge =>
       let chargeAmount :=
         match OrderCharge.type charge with
         | Percentage => Js.div (Js.mul baseAmount (OrderCharge.percentage charge)) Js.hundred
         | Fixed => OrderCharge.amount charge
         end in
       Js.add sum (if Js.isNaN chargeAmount then Js.zero else chargeAmount))
    (List.filter (fun charge => negb (OrderCharge.isPaidByBusiness charge)) charges)
    Js.zero.

Definition calculateVendorCharges (subTotal : number)
    (charges : list OrderCharge.t) : number :=
  fold_left
    (fun sum charge =>
       let chargeAmount :=
         match OrderCharge.type charge with
         | Percentage => Js.div (Js.mul subTotal (OrderCharge.percentage charge)) Js.hundred
         | Fixed => OrderCharge.amount charge
         end in
       Js.add sum (if Js.isNaN chargeAmount then Js.zero else chargeAmount))
    (List.filter (fun charge => OrderCharge.isPaidByBusiness charge) charges)
    Js.zero.

Definition calculateGrandTotal (subTotal discount tax : number)
    (charges : list OrderCharge.t) : number :=
  let chargeAmount := calculateChargeAmount subTotal discount charges in
  let total := Js.add (Js.add (Js.sub subTotal discount) tax) chargeAmount in
  Js.Math_max total Js.zero.

(** The local [getVariantStock] of [validateProductQuantities]. *)
Definition getVariantStock (variant : ProductVariant.t) : number :=
  match ProductVariant.stock_fifo_queue variant with
  | None => Js.zero
  | Some queue =>
      fold_left
        (fun total entry => Js.add total (Num (StockFiFoQueue.availableStock entry)))
        queue Js.zero
  end.

(** [new Map(products.flatMap((p) => p.variants?.map((v) => [v.id, v]) ?? []))] *)
Definition variantMap (products : list Product.t) : gmap string ProductVariant.t :=
  Js.Map_new
    (flat_map
       (fun p =>
          match Product.variants p with
          | Some vs => map (fun v => (ProductVariant.id v, v)) vs
          | None => []
          end)
       products).

(** [new Map(products.map((p) => [p.id, p]))] *)
Definition productMap (products : list Product.t) : gmap string Product.t :=
  Js.Map_new (map (fun p => (Product.id p, p)) products).

(** [new Map(accounts.map((acc) => [acc.id, acc]))] *)
Definition accountMap (accounts : list Account.t) : gmap string Account.t :=
  Js.Map_new (map (fun acc => (Account.id acc, acc)) accounts).

Section Rendering.

(** How the runtime prints a number in a template literal, and
    [toFixed]: the digits depend on the binary64 value, so both
    renderings are parameters of the model. *)
Variable Number_toString : number -> string.
Variable Number_toFixed : nat -> number -> string.

(** [${product?.name}] *)
Definition productLabel (product : option Product.t) : string :=
  match product with
  | Some p => Product.name p
  | None => "undefined"
  end.

Definition stockErrorMessage (index : nat) (product : option Product.t)
    (variant : ProductVariant.t) (item : OrderProduct.t) : string :=
  "Item #" +:+ Number_toString (Js.ofNat (index + 1)) +:+
  " (" +:+ productLabel product +:+ " - " +:+ ProductVariant.name variant +:+
  "): Quantity (" +:+ Number_toString (OrderProduct.quantity item) +:+
  ") exceeds available stock (" +:+ Number_toString (getVariantStock variant) +:+ ").".

Definition validateProductQuantities (type : OrderType) (products : list Product.t)
    (addedProducts : list OrderProduct.t) : ValidationResult.t :=
  if negb (OrderType_eqb type SELL) then ValidationResult.mk true []
  else
    let variantMap := variantMap products in
    let productMap := productMap products in
    let errors :=
      Js.forEach
        (fun (errors : list string) item index =>
           match variantMap !! OrderProduct.variantId item with
           | Some variant =>
               if Js.gt (OrderProduct.quantity item) (getVariantStock variant) then
                 let product := productMap !! OrderProduct.productId item in
                 errors ++ [stockErrorMessage index product variant item]
               else errors
           | None => errors
           end)
        addedProducts [] in
    ValidationResult.mk (Nat.eqb (length errors) 0) errors.

Definition balanceErrorMessage (index : nat) (account : Account.t)
    (payment : OrderPayment.t) : string :=
  "Payment #" +:+ Number_toString (Js.ofNat (index + 1)) +:+
  " (" +:+ Account.name account +:+
  "): Amount (" +:+ Number_toFixed 2 (OrderPayment.amount payment) +:+
  ") exceeds balance (" +:+ Number_toFixed 2 (Num (Account.balance account)) +:+ ")".

Definition validateAccountBalances (payments : list OrderPayment.t)
    (accounts : list Account.t) (type : OrderType) : ValidationResult.t :=
  if negb (OrderType_eqb type BUY) then ValidationResult.mk true []
  else
    let accountMap := accountMap accounts in
    let errors :=
      Js.forEach
        (fun (errors : list string) payment index =>
           match accountMap !! OrderPayment.accountId payment with
           | Some account =>
               if Js.gt (OrderPayment.amount payment) (Num (Account.balance account)) then
                 errors ++ [balanceErrorMessage index account payment]
               else errors
           | None => errors
           end)
        payments [] in
    ValidationResult.mk (Nat.eqb (length errors) 0) errors.

End Rendering.

Definition calculateTotalPaid (payments : list OrderPayment.t) : number :=
  fold_left
    (fun sum payment => Js.add sum (Js.or_else (OrderPayment.amount payment) Js.zero))
    payments Js.zero.

Definition calculateRemainingAmount (grandTotal totalPaid : number) : number :=
  Js.Math_max (Js.sub grandTotal totalPaid) Js.zero.

Section Payload.

(** [acc.type === "CASH_COUNTER"], a test on a field the [Account] record
    above does not carry, and [Date.prototype.toISOString]. *)
Variable isCashCounter : Account.t -> bool.
Variable Date_toISOString : Date -> string.

(** [text || undefined] *)
Definition textOrUndefined (text : string) : option string :=
  if String.eqb text "" then None else Some text.

(** [value || undefined] *)
Definition numberOrUndefined (value : number) : option number :=
  if Js.truthy value then Some value else None.

Definition isValidProduct (p : OrderProduct.t) : bool :=
  negb (String.eqb (OrderProduct.productId p) "")
  && negb (String.eqb (OrderProduct.variantId p) "").

Definition convertToPayload (formState : OrderFormState.t) (type : OrderType)
    (accounts : list Account.t) : CreateOrderPayload.t :=
  let validProducts := List.filter isValidProduct (OrderFormState.products formState) in
  let grandTotal :=
    calculateGrandTotal (calculateSubTotal validProducts)
      (OrderFormState.discount formState) (OrderFormState.tax formState)
      (OrderFormState.charges formState) in
  let finalPayments :=
    if match OrderFormState.entity formState with
       | Some entity => Entity.isDefault entity
       | None => false
       end
       && OrderType_eqb type SELL
       && match List.find isCashCounter accounts with Some _ => true | None => false end
    then
      [OrderPayment.mk
         match List.find isCashCounter accounts with
         | Some acc => Account.id acc
         | None => ""
         end
         grandTotal]
    else OrderFormState.payments formState in
  let entityCharges :=
    map (fun charge => PayloadCharge.mk (OrderCharge.name charge) (OrderCharge.amount charge) false)
      (List.filter
         (fun charge =>
            negb (OrderCharge.isPaidByBusiness charge)
            && Js.gt (OrderCharge.amount charge) Js.zero)
         (OrderFormState.charges formState)) in
  CreateOrderPayload.mk
    type
    match OrderFormState.entity formState with
    | Some entity => Some (Entity.id entity)
    | None => None
    end
    (textOrUndefined (OrderFormState.description formState))
    (map
       (fun p =>
          PayloadProduct.mk (OrderProduct.variantId p) (OrderProduct.quantity p)
            (OrderProduct.rate p) (textOrUndefined (OrderProduct.description p)))
       validProducts)
    (map (fun p => PayloadPayment.mk (OrderPayment.accountId p) (OrderPayment.amount p))
       finalPayments)
    (numberOrUndefined (OrderFormState.discount formState))
    (numberOrUndefined (OrderFormState.tax formState))
    (if (0 <? length entityCharges)%nat then Some entityCharges else None)
    (Date_toISOString (OrderFormState.orderDate formState)).

End Payload.

End Utils.

(** ** FIFO price estimate and quantity stepper ([forms/order/product-details.tsx]) *)

Module ProductDetails.

Definition getVariantStock (variant : option ProductVariant.t) : number :=
  match variant with
  | None => Js.zero
  | Some v =>
      match ProductVariant.stock_fifo_queue v with
      | None => Js.zero
      | Some queue =>
          fold_left
            (fun total entry => Js.add total (Num (StockFiFoQueue.availableStock entry)))
            queue Js.zero
      end
  end.

(** The [for ... of] loop of [getVariantEstimatedPrice], on the pair
    [(remainingQty, totalPrice)] it updates. *)
Fixpoint priceLoop (queue : list StockFiFoQueue.t) (remainingQty totalPrice : number)
    : number * number :=
  match queue with
  | [] => (remainingQty, totalPrice)
  | entry :: rest =>
      let available := Num (StockFiFoQueue.availableStock entry) in
      if Js.le available Js.zero then priceLoop rest remainingQty totalPrice
      else
        let qtyToUse := Js.Math_min available remainingQty in
        let totalPrice :=
          Js.add totalPrice (Js.mul qtyToUse (Num (StockFiFoQueue.estimatedPrice entry))) in
        let remainingQty := Js.sub remainingQty qtyToUse in
        if Js.le remainingQty Js.zero then (remainingQty, totalPrice)
        else priceLoop rest remainingQty totalPrice
  end.

Definition getVariantEstimatedPrice (variant : ProductVariant.t) (quantity : number) : number :=
  let totalStock := getVariantStock (Some variant) in
  match ProductVariant.stock_fifo_queue variant with
  | None => Js.zero
  | Some queue =>
      if Js.le quantity Js.zero || Js.gt quantity totalStock then Js.zero
      else
        let '(_, totalPrice) := priceLoop queue quantity Js.zero in
        Js.or_else (Js.parseFloat_toFixed 4 (Js.div totalPrice quantity)) Js.zero
  end.

(** The "Price Breakdown" tooltip of a row: the [for ... of] loop on
    [(remainingQty, breakdown)], each entry a pair [(qty, price)]; the
    tooltip is rendered for [item.quantity > 0]. *)
Fixpoint breakdownLoop (queue : list StockFiFoQueue.t) (remainingQty : number)
    (breakdown : list (number * Q)) : list (number * Q) :=
  match queue with
  | [] => breakdown
  | entry :: rest =>
      let available := Num (StockFiFoQueue.availableStock entry) in
      if Js.le available Js.zero || Js.le remainingQty Js.zero
      then breakdownLoop rest remainingQty breakdown
      else
        let qtyToUse := Js.Math_min available remainingQty in
        breakdownLoop rest (Js.sub remainingQty qtyToUse)
          (breakdown ++ [(qtyToUse, StockFiFoQueue.estimatedPrice entry)])
  end.

(** [Partial<OrderProduct>]: the fields an update carries. *)
Module Updates.
Record t : Type := mk {
  productId : option string;
  variantId : option string;
  rate : option number;
  quantity : option number;
  description : option string
}.
Definition empty : t := mk None None None None None.
End Updates.

(** [{ ...item, ...updates }] *)
Definition spread (item : OrderProduct.t) (updates : Updates.t) : OrderProduct.t :=
  OrderProduct.mk
    (default (OrderProduct.productId item) (Updates.productId updates))
    (default (OrderProduct.variantId item) (Updates.variantId updates))
    (default (OrderProduct.rate item) (Updates.rate updates))
    (default (OrderProduct.quantity item) (Updates.quantity updates))
    (default (OrderProduct.description item) (Updates.description updates)).

Fixpoint mapi_from {A B : Type} (f : A -> nat -> B) (l : list A) (i : nat) : list B :=
  match l with
  | [] => []
  | x :: rest => f x i :: mapi_from f rest (S i)
  end.

(** The list handed to [onUpdateProducts]. *)
Definition updateProductAtIndex (addedProducts : list OrderProduct.t)
    (index : nat) (updates : Updates.t) : list OrderProduct.t :=
  mapi_from (fun item i => if Nat.eqb i index then spread item updates else item)
    addedProducts 0%nat.

(** The updates [handleQuantityChange] of a row passes to [onUpdate];
    [variant] is the row's [variantMap.get(item.variantId)]. *)
Definition quantityUpdates (type : OrderType) (variant : option ProductVariant.t)
    (newQuantity : number) : Updates.t :=
  let stock := getVariantStock variant in
  let quantity := Js.Math_max Js.one (Js.or_else newQuantity Js.one) in
  match type, variant with
  | SELL, Some v =>
      let quantity := Js.Math_min quantity stock in
      Updates.mk None None (Some (Num (ProductVariant.price v))) (Some quantity) None
  | _, _ => Updates.mk None None None (Some quantity) None
  end.

Definition handleQuantityChange (type : OrderType) (variant : option ProductVariant.t)
    (addedProducts : list OrderProduct.t) (index : nat) (newQuantity : number)
    : list OrderProduct.t :=
  updateProductAtIndex addedProducts index (quantityUpdates type variant newQuantity).

Definition emptySlot : OrderProduct.t :=
  OrderProduct.mk "" "" (Num 0) (Num 1) "".

Definition handleAddEmptySlot (addedProducts : list OrderProduct.t) : list OrderProduct.t :=
  addedProducts ++ [emptySlot].

Definition handleRemoveProduct (addedProducts : list OrderProduct.t) (index : nat)
    : list OrderProduct.t :=
  if Nat.eqb (length addedProducts) 1 then [emptySlot]
  else Js.filteri (fun i => negb (Nat.eqb i index)) addedProducts.

(** An update that carries every field of a line. *)
Definition allFields (line : OrderProduct.t) : Updates.t :=
  Updates.mk (Some (OrderProduct.productId line)) (Some (OrderProduct.variantId line))
    (Some (OrderProduct.rate line)) (Some (OrderProduct.quantity line))
    (Some (OrderProduct.description line)).

(** [handleGlobalSelect]; the cart is returned unchanged when the handler
    returns without calling [onUpdateProducts]. *)
Definition handleGlobalSelect (type : OrderType) (addedProducts : list OrderProduct.t)
    (product : Product.t) (variant : option ProductVariant.t) : list OrderProduct.t :=
  let myVar :=
    match variant with
    | Some v => Some v
    | None =>
        match Product.variants product with
        | Some (v :: _) => Some v
        | _ => None
        end
    end in
  match myVar with
  | None => addedProducts
  | Some myVar =>
      let price :=
        if OrderType_eqb type BUY
        then Js.or_else (Num (ProductVariant.buyPrice myVar)) Js.zero
        else Js.or_else (Num (ProductVariant.price myVar)) Js.zero in
      let newProduct :=
        OrderProduct.mk (Product.id product) (ProductVariant.id myVar) price (Num 1) "" in
      match Js.findIndex (fun p => String.eqb (OrderProduct.productId p) "") addedProducts with
      | Some emptySlotIndex =>
          updateProductAtIndex addedProducts emptySlotIndex (allFields newProduct)
      | None => addedProducts ++ [newProduct]
      end
  end.

(** [handleRateChange] of a row. *)
Definition handleRateChange (addedProducts : list OrderProduct.t) (index : nat)
    (newRate : number) : list OrderProduct.t :=
  updateProductAtIndex addedProducts index
    (Updates.mk None None (Some (Js.Math_max Js.zero (Js.or_else newRate Js.zero))) None None).

(** The "Total" of the product card: a reduce with no NaN guard. *)
Definition totalAmount (addedProducts : list OrderProduct.t) : number :=
  fold_left
    (fun total item =>
       Js.add total (Js.mul (OrderProduct.quantity item) (OrderProduct.rate item)))
    addedProducts Js.zero.

(** The maps the card builds from the catalogue, as the pair
    [(productMap, variantMap)]: each product and each of its variants is
    [set] in catalogue order. *)
Definition maps (products : list Product.t)
    : gmap string Product.t * gmap string ProductVariant.t :=
  fold_left
    (fun '(pMap, vMap) product =>
       (<[Product.id product := product]> pMap,
        fold_left (fun vMap variant => <[ProductVariant.id variant := variant]> vMap)
          (default [] (Product.variants product)) vMap))
    products (∅, ∅).

Definition productMap (products : list Product.t) : gmap string Product.t :=
  fst (maps products).

Definition variantMap (products : list Product.t) : gmap string ProductVariant.t :=
  snd (maps products).

(** [hasStockError] of a row; [variant] is the row's
    [variantMap.get(item.variantId)]. *)
Definition hasStockError (type : OrderType) (item : OrderProduct.t)
    (variant : option ProductVariant.t) : bool :=
  OrderType_eqb type SELL && Js.gt (OrderProduct.quantity item) (getVariantStock variant).

(** Whether the row of [item] shows "Exceeds stock!":
    [hasStockError && product], with the [product] and [variant] the
    card hands to the row. *)
Definition exceedsStockShown (type : OrderType) (products : list Product.t)
    (item : OrderProduct.t) : bool :=
  hasStockError type item (variantMap products !! OrderProduct.variantId item)
  && match productMap products !! OrderProduct.productId item with
     | Some _ => true
     | None => false
     end.

(** [handleProductSelect] of the row at [index]; the cart is returned
    unchanged when the handler returns without calling [onUpdate]. *)
Definition handleProductSelect (type : OrderType) (products : list Product.t)
    (addedProducts : list OrderProduct.t) (index : nat) (productId : string)
    : list OrderProduct.t :=
  let selectedProduct :=
    List.find (fun p => String.eqb (Product.id p) productId) products in
  let firstVariant :=
    match selectedProduct with
    | Some p =>
        match Product.variants p with
        | Some (v :: _) => Some v
        | _ => None
        end
    | None => None
    end in
  match firstVariant with
  | None => addedProducts
  | Some firstVariant =>
      let rate :=
        if OrderType_eqb type BUY then ProductVariant.buyPrice firstVariant
        else ProductVariant.price firstVariant in
      updateProductAtIndex addedProducts index
        (Updates.mk (Some productId) (Some (ProductVariant.id firstVariant))
           (Some (Num rate)) None None)
  end.

(** [handleVariantSelect] of the row at [index]; [product] is the row's
    [productMap.get(item.productId)]. *)
Definition handleVariantSelect (type : OrderType) (product : option Product.t)
    (addedProducts : list OrderProduct.t) (index : nat) (variantId : string)
    : list OrderProduct.t :=
  let selectedVariant :=
    match product with
    | Some p =>
        match Product.variants p with
        | Some variants =>
            List.find (fun v => String.eqb (ProductVariant.id v) variantId) variants
        | None => None
        end
    | None => None
    end in
  match selectedVariant with
  | None => addedProducts
  | Some selectedVariant =>
      let rate :=
        if OrderType_eqb type BUY then ProductVariant.buyPrice selectedVariant
        else ProductVariant.price selectedVariant in
      updateProductAtIndex addedProducts index
        (Updates.mk None (Some variantId) (Some (Num rate)) None None)
  end.

End ProductDetails.

(** ** Discount, tax and charges ([forms/order/calculation-selector.tsx]) *)

Module CalculationSelector.

(** The grand total shown in the summary bar. *)
Definition grandTotal (subTotal discount tax : number) (charges : list OrderCharge.t) : number :=
  let chargesTotal :=
    fold_left (fun sum c => Js.add sum (OrderCharge.amount c))
      (List.filter (fun charge => negb (OrderCharge.isPaidByBusiness charge)) charges)
      Js.zero in
  Js.Math_max (Js.add (Js.add (Js.sub subTotal discount) tax) chargesTotal) Js.zero.

Definition syncCharge (subTotal : number) (charge : OrderCharge.t) : OrderCharge.t :=
  match OrderCharge.type charge with
  | Percentage =>
      if Js.gt (OrderCharge.percentage charge) Js.zero then
        OrderCharge.mk (OrderCharge.id charge) (OrderCharge.name charge)
          (Js.div (Js.mul subTotal (OrderCharge.percentage charge)) Js.hundred)
          (OrderCharge.type charge) (OrderCharge.percentage charge)
          (OrderCharge.isPaidByBusiness charge)
      else charge
  | Fixed =>
      if Js.gt (OrderCharge.amount charge) Js.zero then
        OrderCharge.mk (OrderCharge.id charge) (OrderCharge.name charge)
          (OrderCharge.amount charge) (OrderCharge.type charge)
          (Js.mul (Js.div (OrderCharge.amount charge) subTotal) Js.hundred)
          (OrderCharge.isPaidByBusiness charge)
      else charge
  end.

(** The effect that runs when the subtotal changes: the form state and
    [prevSubTotalRef.current] after it.  The setters it calls each replace
    one field of the form state. *)
Definition syncOnSubTotal (prevSubTotal subTotal : number) (st : OrderFormState.t)
    : OrderFormState.t * number :=
  if Js.strict_ne prevSubTotal subTotal && Js.gt subTotal Js.zero then
    let discount := OrderFormState.discount st in
    let discountPercentage := OrderFormState.discountPercentage st in
    let tax := OrderFormState.tax st in
    let taxPercentage := OrderFormState.taxPercentage st in
    let charges := OrderFormState.charges st in
    let '(discount', discountPercentage') :=
      match OrderFormState.discountType st with
      | Fixed =>
          if Js.gt discount Js.zero
          then (discount, Js.mul (Js.div discount subTotal) Js.hundred)
          else (discount, discountPercentage)
      | Percentage =>
          if Js.gt discountPercentage Js.zero
          then (Js.div (Js.mul subTotal discountPercentage) Js.hundred, discountPercentage)
          else (discount, discountPercentage)
      end in
    let '(tax', taxPercentage') :=
      match OrderFormState.taxType st with
      | Fixed =>
          if Js.gt tax Js.zero
          then (tax, Js.mul (Js.div tax subTotal) Js.hundred)
          else (tax, taxPercentage)
      | Percentage =>
          if Js.gt taxPercentage Js.zero
          then (Js.div (Js.mul subTotal taxPercentage) Js.hundred, taxPercentage)
          else (tax, taxPercentage)
      end in
    let charges' :=
      if (0 <? length charges)%nat then map (syncCharge subTotal) charges else charges in
    (OrderFormState.mk (OrderFormState.entity st) (OrderFormState.products st)
       discount' (OrderFormState.discountType st) discountPercentage'
       charges' tax' (OrderFormState.taxType st) taxPercentage'
       (OrderFormState.description st) (OrderFormState.orderDate st)
       (OrderFormState.payments st) (OrderFormState.isPublic st),
     subTotal)
  else (st, prevSubTotal).




(** [Partial<OrderCharge>] *)
Module ChargeUpdates.
Record t : Type := mk {
  name : option string;
  amount : option number;
  type : option AmountKind;
  percentage : option number;
  isPaidByBusiness : option bool
}.
End ChargeUpdates.

Definition handleChargeChange (charges : list OrderCharge.t) (id : string)
    (updatedFields : ChargeUpdates.t) : list OrderCharge.t :=
  map
    (fun charge =>
       if String.eqb (OrderCharge.id charge) id then
         OrderCharge.mk (OrderCharge.id charge)
           (default (OrderCharge.name charge) (ChargeUpdates.name updatedFields))
           (default (OrderCharge.amount charge) (ChargeUpdates.amount updatedFields))
           (default (OrderCharge.type charge) (ChargeUpdates.type updatedFields))
           (default (OrderCharge.percentage charge) (ChargeUpdates.percentage updatedFields))
           (default (OrderCharge.isPaidByBusiness charge)
              (ChargeUpdates.isPaidByBusiness updatedFields))
       else charge)
    charges.

Definition handleRemoveCharge (charges : list OrderCharge.t) (id : string)
    : list OrderCharge.t :=
  List.filter (fun charge => negb (String.eqb (OrderCharge.id charge) id)) charges.

(** [handleAddCharge]; [id] is the text [charge-${Date.now()}]. *)
Definition handleAddCharge (charges : list OrderCharge.t) (id : string) : list OrderCharge.t :=
  charges ++ [OrderCharge.mk id "" (Num 0) Fixed (Num 0) false].

End CalculationSelector.

(** ** Payments of an order ([forms/order/payment-selector.tsx]) *)

Module PaymentSelector.

(** The total of the header: a reduce with no guard. *)
Definition totalPaid (selectedPayments : list OrderPayment.t) : number :=
  fold_left (fun acc p => Js.add acc (OrderPayment.amount p)) selectedPayments Js.zero.

Definition removePayment (selectedPayments : list OrderPayment.t) (index : nat)
    : list OrderPayment.t :=
  Js.filteri (fun i => negb (Nat.eqb i index)) selectedPayments.

Definition handleAddPayment (selectedPayments : list OrderPayment.t) (amount : number)
    (accountId : string) : list OrderPayment.t :=
  selectedPayments ++ [OrderPayment.mk accountId amount].

Definition insufficientBalancePayments (type : OrderType)
    (selectedPayments : list OrderPayment.t) (accounts : list Account.t)
    : list OrderPayment.t :=
  if negb (OrderType_eqb type BUY) then []
  else
    List.filter
      (fun payment =>
         match List.find (fun acc => String.eqb (Account.id acc) (OrderPayment.accountId payment))
                 accounts with
         | Some account => Js.gt (OrderPayment.amount payment) (Num (Account.balance account))
         | None => false
         end)
      selectedPayments.

End PaymentSelector.

(** ** Entity ledger page ([modules/SingleEntityDetails.tsx]) *)

Module EntityPage.

(** [order.paidTillNow || 0]; the field is optional. *)
Definition calculateOrderPaidAmount (order : Order.t) : number :=
  match Order.paidTillNow order with
  | Some paid => Js.or_else (Num paid) Js.zero
  | None => Js.zero
  end.

Definition calculateOrderRemaining (order : Order.t) : number :=
  let paidAmount := calculateOrderPaidAmount order in
  Js.sub (Num (Order.totalAmount order)) paidAmount.

(** One entry of [toPayOrders], posted as a transaction of its order. *)
Module Allocation.
Record t : Type := mk {
  orderId : string;
  accountId : string;
  amount : number
}.
End Allocation.

Section Settlement.

(** [String.prototype.localeCompare], whose result depends on the
    locale's collation: negative, zero or positive. *)
Variable localeCompare : string -> string -> Z.

(** The comparator handed to [sort]. *)
Definition compareOrders (a b : Order.t) : Z :=
  if OrderType_eqb (Order.type a) BUY && negb (OrderType_eqb (Order.type b) BUY) then (-1)%Z
  else if OrderType_eqb (Order.type b) BUY && negb (OrderType_eqb (Order.type a) BUY) then 1%Z
  else localeCompare (Order.createdAt a) (Order.createdAt b).

Definition ordersToProcess (entity : Entity.t) : list Order.t :=
  match Entity.orders entity with
  | Some orders =>
      Js.sort compareOrders
        (List.filter (fun order => Js.gt (calculateOrderRemaining order) Js.zero) orders)
  | None => []
  end.

(** The [for ... of] loop of [handleAddPayment], on the pair
    [(remainingAmount, toPayOrders)] it updates. *)
Fixpoint paymentLoop (accountId : string) (orders : list Order.t)
    (remainingAmount : number) (toPayOrders : list Allocation.t)
    : number * list Allocation.t :=
  match orders with
  | [] => (remainingAmount, toPayOrders)
  | order :: rest =>
      if Js.le remainingAmount Js.zero then (remainingAmount, toPayOrders)
      else
        let toPay := calculateOrderRemaining order in
        if Js.le toPay Js.zero then paymentLoop accountId rest remainingAmount toPayOrders
        else
          let remaining := Js.Math_min remainingAmount toPay in
          let remainingAmount := Js.sub remainingAmount remaining in
          let toPayOrders :=
            if Js.gt remaining Js.zero
            then toPayOrders ++ [Allocation.mk (Order.id order) accountId remaining]
            else toPayOrders in
          paymentLoop accountId rest remainingAmount toPayOrders
  end.

(** The transactions [handleAddPayment] posts; [None] when it returns
    at once because [amount <= 0]. *)
Definition handleAddPayment (entity : Entity.t) (amount : number) (accountId : string)
    : option (list Allocation.t) :=
  if Js.le amount Js.zero then None
  else Some (snd (paymentLoop accountId (ordersToProcess entity) amount [])).

End Settlement.

Module Stats.
Record t : Type := mk {
  totalOrders : nat;
  totalBuyAmount : number;
  totalBuyPaid : number;
  totalBuyRemaining : number;
  totalSellAmount : number;
  totalSellPaid : number;
  totalSellRemaining : number;
  netBalance : number;
  paidOrders : nat;
  pendingOrders : nat
}.
End Stats.

Section Statistics.

(** [order.paymentStatus], a field the [Order] record above does not carry. *)
Variable paymentStatus : Order.t -> PaymentStatus.




End Statistics.

End EntityPage.

(** ** Order form ([forms/order/create-order.tsx]) *)

Module CreateOrder.

(** The component's state hooks. *)
Record State : Type := mkState {
  formState : OrderFormState.t;
  currentStep : FormStep;
  error : option string;
  loading : bool
}.

Definition emptyProduct : OrderProduct.t :=
  OrderProduct.mk "" "" (Num 0) (Num 1) "".

(** [resetForm]; [now] is what [new Date()] reads from the clock. *)
Definition resetForm (now : Date) (st : State) : State :=
  let resetState :=
    OrderFormState.mk
      None                (* entity *)
      [emptyProduct]      (* products *)
      (Num 0)             (* discount *)
      Fixed               (* discountType *)
      (Num 0)             (* discountPercentage *)
      []                  (* charges *)
      (Num 0)             (* tax *)
      Fixed               (* taxType *)
      (Num 0)             (* taxPercentage *)
      ""                  (* description *)
      now                 (* orderDate *)
      []                  (* payments *)
      false               (* isPublic *) in
  mkState resetState details None (loading st).

(** The memoized [calculations]. *)
Definition calculations (formState : OrderFormState.t) : OrderCalculations.t :=
  let subTotal := Utils.calculateSubTotal (OrderFormState.products formState) in
  let discountAmount := OrderFormState.discount formState in
  let taxAmount := OrderFormState.tax formState in
  let chargeAmount :=
    Utils.calculateChargeAmount subTotal (OrderFormState.discount formState)
      (OrderFormState.charges formState) in
  let vendorCharges := Utils.calculateVendorCharges subTotal (OrderFormState.charges formState) in
  let grandTotal :=
    Utils.calculateGrandTotal subTotal (OrderFormState.discount formState)
      (OrderFormState.tax formState) (OrderFormState.charges formState) in
  let totalPaid := Utils.calculateTotalPaid (OrderFormState.payments formState) in
  let remainingAmount := Utils.calculateRemainingAmount grandTotal totalPaid in
  OrderCalculations.mk subTotal discountAmount taxAmount chargeAmount vendorCharges
    grandTotal totalPaid remainingAmount.

Section Steps.

Variable Number_toString : number -> string.
Variable Number_toFixed : nat -> number -> string.

(** [type], [products] and [accounts] are props of the component. *)
Definition validateOrderDetails (type : OrderType) (products : list Product.t)
    (formState : OrderFormState.t) : option string :=
  let validProducts :=
    List.filter
      (fun p =>
         negb (String.eqb (OrderProduct.productId p) "")
         && negb (String.eqb (OrderProduct.variantId p) ""))
      (OrderFormState.products formState) in
  if Nat.eqb (length validProducts) 0 then Some "Please add at least one product."
  else if OrderType_eqb type SELL then
    let stockValidation :=
      Utils.validateProductQuantities Number_toString type products
        (OrderFormState.products formState) in
    if negb (ValidationResult.isValid stockValidation)
    then Some ("Stock validation failed: "
               +:+ Js.join ", " (ValidationResult.errors stockValidation))
    else None
  else None.

Definition validatePaymentDetails (type : OrderType) (accounts : list Account.t)
    (formState : OrderFormState.t) : option string :=
  if match OrderFormState.entity formState with Some _ => false | None => true end
     && Js.gt (OrderCalculations.remainingAmount (calculations formState)) Js.zero
  then Some "Select Entity for unpaid order."
  else if OrderType_eqb type BUY then
    let balanceValidation :=
      Utils.validateAccountBalances Number_toString Number_toFixed
        (OrderFormState.payments formState) accounts type in
    if negb (ValidationResult.isValid balanceValidation)
    then hd_error (ValidationResult.errors balanceValidation)
    else None
  else None.

Definition handleContinueToPayment (type : OrderType) (products : list Product.t)
    (st : State) : State :=
  let validationError := validateOrderDetails type products (formState st) in
  if Js.truthyText validationError
  then mkState (formState st) (currentStep st) validationError (loading st)
  else mkState (formState st) payment None (loading st).

Definition handleContinueToSummary (type : OrderType) (accounts : list Account.t)
    (st : State) : State :=
  let validationError := validatePaymentDetails type accounts (formState st) in
  if Js.truthyText validationError
  then mkState (formState st) (currentStep st) validationError (loading st)
  else mkState (formState st) summary None (loading st).

End Steps.

End CreateOrder.

(** ** The earlier order form ([forms/BuyOrderForm.tsx]) *)

Module BuyOrderForm.

Module LocalOrderCharge.
Record t : Type := mk {
  id : string;
  name : string;
  amount : number;
  type : AmountKind;
  percentage : number;
  isPaidByBusiness : bool;
  isVat : option bool
}.
End LocalOrderCharge.

(** The charge format of the calculation card this form talks to. *)
Module LegacyCharge.
Record t : Type := mk {
  id : string;
  amount : number;
  label : string;
  type : AmountKind;
  percentage : number;
  isVat : option bool;
  bearedByEntity : bool
}.
End LegacyCharge.

Module OrderFormState.
Record t : Type := mk {
  entity : option Entity.t;
  products : list OrderProduct.t;
  discount : number;
  charges : list LocalOrderCharge.t;
  description : string;
  orderDate : Date;
  payments : list OrderPayment.t;
  tax : number;
  isPublic : bool
}.
End OrderFormState.

Module OrderCalculations.
Record t : Type := mk {
  subTotal : number;
  chargeAmount : number;
  vendorCharges : number;
  grandTotal : number;
  totalPaid : number;
  remainingAmount : number
}.
End OrderCalculations.

Definition calculateSubTotal (products : list OrderProduct.t) : number :=
  fold_left
    (fun sum product =>
       let amount := Js.mul (OrderProduct.rate product) (OrderProduct.quantity product) in
       Js.add sum (if Js.isNaN amount then Js.zero else amount))
    products Js.zero.

Definition calculateChargeAmount (subTotal discount : number)
    (charges : list LocalOrderCharge.t) : number :=
  let baseAmount := Js.sub subTotal discount in
  fold_left
    (fun sum charge =>
       let chargeAmount :=
         match LocalOrderCharge.type charge with
         | Percentage =>
             Js.div (Js.mul baseAmount (LocalOrderCharge.percentage charge)) Js.hundred
         | Fixed => LocalOrderCharge.amount charge
         end in
       Js.add sum (if Js.isNaN chargeAmount then Js.zero else chargeAmount))
    (List.filter (fun charge => negb (LocalOrderCharge.isPaidByBusiness charge)) charges)
    Js.zero.

Definition calculateVendorCharges (subTotal : number)
    (charges : list LocalOrderCharge.t) : number :=
  fold_left
    (fun sum charge =>
       let chargeAmount :=
         match LocalOrderCharge.type charge with
         | Percentage =>
             Js.div (Js.mul subTotal (LocalOrderCharge.percentage charge)) Js.hundred
         | Fixed => LocalOrderCharge.amount charge
         end in
       Js.add sum (if Js.isNaN chargeAmount then Js.zero else chargeAmount))
    (List.filter (fun charge => LocalOrderCharge.isPaidByBusiness charge) charges)
    Js.zero.

(** The grand total of this form takes no tax. *)
Definition calculateGrandTotal (subTotal discount : number)
    (charges : list LocalOrderCharge.t) : number :=
  let chargeAmount := calculateChargeAmount subTotal discount charges in
  let total := Js.add (Js.sub subTotal discount) chargeAmount in
  Js.Math_max total Js.zero.

Definition calculateTotalPaid (payments : list OrderPayment.t) : number :=
  fold_left
    (fun sum payment => Js.add sum (Js.or_else (OrderPayment.amount payment) Js.zero))
    payments Js.zero.

Definition calculateRemainingAmount (grandTotal totalPaid : number) : number :=
  Js.Math_max (Js.sub grandTotal totalPaid) Js.zero.

Definition convertLegacyChargesToLocal (legacyCharges : list LegacyCharge.t)
    : list LocalOrderCharge.t :=
  map
    (fun charge =>
       LocalOrderCharge.mk (LegacyCharge.id charge) (LegacyCharge.label charge)
         (LegacyCharge.amount charge) (LegacyCharge.type charge)
         (LegacyCharge.percentage charge) (negb (LegacyCharge.bearedByEntity charge))
         (LegacyCharge.isVat charge))
    legacyCharges.

Definition convertLocalChargesToLegacy (localCharges : list LocalOrderCharge.t)
    : list LegacyCharge.t :=
  map
    (fun charge =>
       LegacyCharge.mk (LocalOrderCharge.id charge) (LocalOrderCharge.amount charge)
         (LocalOrderCharge.name charge) (LocalOrderCharge.type charge)
         (LocalOrderCharge.percentage charge) (LocalOrderCharge.isVat charge)
         (negb (LocalOrderCharge.isPaidByBusiness charge)))
    localCharges.

(** The memoized [calculations]. *)
Definition calculations (formState : OrderFormState.t) : OrderCalculations.t :=
  let subTotal := calculateSubTotal (OrderFormState.products formState) in
  let chargeAmount :=
    calculateChargeAmount subTotal (OrderFormState.discount formState)
      (OrderFormState.charges formState) in
  let vendorCharges := calculateVendorCharges subTotal (OrderFormState.charges formState) in
  let grandTotal :=
    calculateGrandTotal subTotal (OrderFormState.discount formState)
      (OrderFormState.charges formState) in
  let totalPaid := calculateTotalPaid (OrderFormState.payments formState) in
  let remainingAmount := calculateRemainingAmount grandTotal totalPaid in
  OrderCalculations.mk subTotal chargeAmount vendorCharges grandTotal totalPaid
    remainingAmount.

(** The component's state hooks. *)
Record State : Type := mkState {
  formState : OrderFormState.t;
  currentStep : FormStep;
  error : option string;
  loading : bool;
  isAccountSelectionActive : bool;
  selectedVendorAccount : option Account.t
}.

Definition handleChargesUpdate (charges : list LocalOrderCharge.t) (st : State) : State :=
  let prev := formState st in
  mkState
    (OrderFormState.mk (OrderFormState.entity prev) (OrderFormState.products prev)
       (OrderFormState.discount prev) charges (OrderFormState.description prev)
       (OrderFormState.orderDate prev) (OrderFormState.payments prev)
       (OrderFormState.tax prev) (OrderFormState.isPublic prev))
    (currentStep st) None (loading st) (isAccountSelectionActive st)
    (selectedVendorAccount st).

Definition handleLegacyChargesUpdate (legacyCharges : list LegacyCharge.t) (st : State)
    : State :=
  let localCharges := convertLegacyChargesToLocal legacyCharges in
  handleChargesUpdate localCharges st.


Section Submission.

Variable Number_toFixed : nat -> number -> string.

(** [type] is a prop of the component. *)
Definition validateSubmission (type : OrderType) (st : State) : option string :=
  let vendorCharges := OrderCalculations.vendorCharges (calculations (formState st)) in
  if OrderType_eqb type BUY && Js.gt vendorCharges Js.zero then
    match selectedVendorAccount st with
    | None => Some "Please select an account for vendor charges."
    | Some account =>
        if Js.lt (Num (Account.balance account)) vendorCharges then
          Some ("Insufficient balance in " +:+ Account.name account
                +:+ " for vendor charges. "
                +:+ "Available: Rs " +:+ Number_toFixed 2 (Num (Account.balance account))
                +:+ ", "
                +:+ "Required: Rs " +:+ Number_toFixed 2 vendorCharges)
        else None
    end
  else None.

(** [handleSubmit] up to the request: the state it leaves, and whether
    the request for the order is sent. *)
Definition handleSubmit_request (type : OrderType) (st : State) : State * bool :=
  let vendorCharges := OrderCalculations.vendorCharges (calculations (formState st)) in
  match currentStep st with
  | summary =>
      if OrderType_eqb type BUY && Js.gt vendorCharges Js.zero
         && match selectedVendorAccount st with Some _ => false | None => true end
      then
        (mkState (formState st) (currentStep st) (error st) (loading st) true
           (selectedVendorAccount st), false)
      else
        let validationError := validateSubmission type st in
        if Js.truthyText validationError then
          (mkState (formState st) (currentStep st) validationError (loading st)
             (isAccountSelectionActive st) (selectedVendorAccount st), false)
        else
          (mkState (formState st) (currentStep st) None true
             (isAccountSelectionActive st) (selectedVendorAccount st), true)
  | _ => (st, false)
  end.

(** The transaction for the vendor charges that [handleSubmit] posts
    once the order is created, as [(account id, amount)]; [created]
    tells whether [onSubmit] gave an order back. *)
Definition vendorChargesTransaction (created : bool) (st : State)
    : option (string * number) :=
  let vendorCharges := OrderCalculations.vendorCharges (calculations (formState st)) in
  match selectedVendorAccount st with
  | Some account =>
      if created && Js.gt vendorCharges Js.zero
      then Some (Account.id account, vendorCharges)
      else None
  | None => None
  end.

End Submission.

End BuyOrderForm.

(** ** Balance summary of the payments ([BalanceSummary]) *)

Module BalanceSummary.

Module AccountSummary.
Record t : Type := mk {
  account : Account.t;
  totalRequired : number;
  balance : Q;
  shortfall : number;
  hasInsufficientBalance : bool
}.
End AccountSummary.

(** The [Map] from account ids to amounts, kept as the list of its
    entries in insertion order, the order in which [forEach] visits
    them. *)
Definition Map_get (entries : list (string * number)) (key : string) : option number :=
  match List.find (fun kv => String.eqb kv.1 key) entries with
  | Some kv => Some kv.2
  | None => None
  end.

(** [set] replaces the value of a key already present, which keeps its
    place, and adds a new key at the end. *)
Fixpoint Map_set (entries : list (string * number)) (key : string) (value : number)
    : list (string * number) :=
  match entries with
  | [] => [(key, value)]
  | (k, v) :: rest =>
      if String.eqb k key then (k, value) :: rest
      else (k, v) :: Map_set rest key value
  end.

(** Group payments by account. *)
Definition accountPayments (payments : list OrderPayment.t) : list (string * number) :=
  Js.forEach
    (fun (accountPayments : list (string * number)) payment (_ : nat) =>
       let current :=
         match Map_get accountPayments (OrderPayment.accountId payment) with
         | Some total => Js.or_else total Js.zero
         | None => Js.zero
         end in
       Map_set accountPayments (OrderPayment.accountId payment)
         (Js.add current (OrderPayment.amount payment)))
    payments [].

Section Sorting.

Variable localeCompare : string -> string -> Z.

(** The comparator handed to [sort]: accounts short of funds first,
    then by account name. *)
Definition compareSummaries (a b : AccountSummary.t) : Z :=
  if negb (Bool.eqb (AccountSummary.hasInsufficientBalance a)
             (AccountSummary.hasInsufficientBalance b))
  then (if AccountSummary.hasInsufficientBalance a then (-1)%Z else 1%Z)
  else localeCompare (Account.name (AccountSummary.account a))
         (Account.name (AccountSummary.account b)).

Definition accountSummaries (orderType : OrderType) (payments : list OrderPayment.t)
    (accounts : list Account.t) : list AccountSummary.t :=
  if negb (OrderType_eqb orderType BUY) || Nat.eqb (length payments) 0 then []
  else
    let summaries :=
      Js.forEach
        (fun (summaries : list AccountSummary.t) (entry : string * number) (_ : nat) =>
           let '(accountId, totalRequired) := entry in
           match List.find (fun acc => String.eqb (Account.id acc) accountId) accounts with
           | Some account =>
               let shortfall :=
                 Js.Math_max Js.zero
                   (Js.sub totalRequired (Num (Account.balance account))) in
               summaries ++
               [AccountSummary.mk account totalRequired (Account.balance account)
                  shortfall (Js.gt shortfall Js.zero)]
           | None => summaries
           end)
        (accountPayments payments) [] in
    Js.sort compareSummaries summaries.

End Sorting.

Definition totalShortfall (accountSummaries : list AccountSummary.t) : number :=
  fold_left (fun sum summary => Js.add sum (AccountSummary.shortfall summary))
    accountSummaries Js.zero.

Definition hasAnyInsufficientBalance (accountSummaries : list AccountSummary.t) : bool :=
  existsb AccountSummary.hasInsufficientBalance accountSummaries.

End BalanceSummary.

(** ** Specification-side notions *)

Module Spec.

(** *** Money arithmetic *)

(** What a term adds to a NaN-safe sum: a NaN term counts as zero. *)
Definition term (x : number) : Q :=
  match x with NaN => 0 | Num q => q end.

(** [sumSafe] *)
Definition sumSafe (values : list number) : Q :=
  fold_right (fun x acc => term x + acc) 0 values.

(** *** Order pricing *)

Definition lineAmount (li : OrderProduct.t) : number :=
  match OrderProduct.quantity li, OrderProduct.rate li with
  | Num quantity, Num rate => Num (quantity * rate)
  | _, _ => NaN
  end.

(** What one counterparty-absorbed charge is worth: a percentage of
    [subTotal - discount], or its fixed amount. *)
Definition counterpartyTerm (subTotal discount : number) (c : OrderCharge.t) : number :=
  match OrderCharge.type c with
  | Percentage =>
      match subTotal, discount, OrderCharge.percentage c with
      | Num s, Num d, Num p => Num ((s - d) * p / 100)
      | _, _, _ => NaN
      end
  | Fixed => OrderCharge.amount c
  end.

(** What one business-absorbed charge is worth: a percentage of the
    raw [subTotal], or its fixed amount. *)
Definition businessTerm (subTotal : number) (c : OrderCharge.t) : number :=
  match OrderCharge.type c with
  | Percentage =>
      match subTotal, OrderCharge.percentage c with
      | Num s, Num p => Num (s * p / 100)
      | _, _ => NaN
      end
  | Fixed => OrderCharge.amount c
  end.

Definition absorbedByCounterparty (charges : list OrderCharge.t) : list OrderCharge.t :=
  List.filter (fun c => negb (OrderCharge.isPaidByBusiness c)) charges.

Definition absorbedByBusiness (charges : list OrderCharge.t) : list OrderCharge.t :=
  List.filter OrderCharge.isPaidByBusiness charges.

Definition subTotal (lineItems : list OrderProduct.t) : Q :=
  sumSafe (map lineAmount lineItems).

Definition chargeAmount (subTotal discount : number) (charges : list OrderCharge.t) : Q :=
  sumSafe (map (counterpartyTerm subTotal discount) (absorbedByCounterparty charges)).

Definition vendorCharges (subTotal : number) (charges : list OrderCharge.t) : Q :=
  sumSafe (map (businessTerm subTotal) (absorbedByBusiness charges)).

(** *** FIFO stock ledger *)

(** [availableStock]: the sum of what is available over a variant's lots. *)
Definition lotsAvailable (lots : list StockFiFoQueue.t) : Q :=
  fold_right (fun lot acc => StockFiFoQueue.availableStock lot + acc) 0 lots.

Definition availableStock (variant : ProductVariant.t) : Q :=
  match ProductVariant.stock_fifo_queue variant with
  | Some lots => lotsAvailable lots
  | None => 0
  end.

(** What can be consumed from a lot: its available quantity, nothing
    when that is not positive. *)
Definition usable (lot : StockFiFoQueue.t) : Q :=
  Qmax (StockFiFoQueue.availableStock lot) 0.

Fixpoint totalUsable (lots : list StockFiFoQueue.t) : Q :=
  match lots with
  | [] => 0
  | lot :: rest => usable lot + totalUsable rest
  end.

(** [allocate]: walk the lots oldest-first, taking from each lot up to
    what it has available, until [needed] units are covered. *)
Fixpoint walk (lots : list StockFiFoQueue.t) (needed : Q) : list (StockFiFoQueue.t * Q) :=
  match lots with
  | [] => []
  | lot :: rest =>
      if Qle_bool needed 0 then []
      else
        let take := Qmin (usable lot) needed in
        (lot, take) :: walk rest (needed - take)
  end.

Definition cost (allocation : list (StockFiFoQueue.t * Q)) : Q :=
  fold_right (fun a acc => a.2 * StockFiFoQueue.estimatedPrice a.1 + acc) 0 allocation.

Definition taken {A : Type} (allocation : list (A * Q)) : Q :=
  fold_right (fun a acc => a.2 + acc) 0 allocation.

(** [r] is [exact] rounded to [digits] decimal places: a multiple of
    [10^-digits] at most half a unit away from [exact]. *)
Definition roundedTo (digits : nat) (exact r : Q) : Prop :=
  exists n : Z,
    r == inject_Z n / Js.pow10 digits
    /\ - (1 # 2) <= inject_Z n - exact * Js.pow10 digits <= 1 # 2.

(** The lots [priceLoop] draws on, with the quantity [qtyToUse] it takes
    from each: the loop of [getVariantEstimatedPrice] with its additions
    to [totalPrice] recorded instead of summed. *)
Fixpoint consumed (queue : list StockFiFoQueue.t) (remainingQty : number)
    : list (StockFiFoQueue.t * number) :=
  match queue with
  | [] => []
  | entry :: rest =>
      let available := Num (StockFiFoQueue.availableStock entry) in
      if Js.le available Js.zero then consumed rest remainingQty
      else
        let qtyToUse := Js.Math_min available remainingQty in
        let remainingQty := Js.sub remainingQty qtyToUse in
        (entry, qtyToUse) ::
        (if Js.le remainingQty Js.zero then [] else consumed rest remainingQty)
  end.

(** What [getVariantEstimatedPrice] consumes for a quantity: nothing
    when it returns before the loop. *)
Definition consumption (variant : ProductVariant.t) (quantity : number)
    : list (StockFiFoQueue.t * number) :=
  match ProductVariant.stock_fifo_queue variant with
  | None => []
  | Some queue =>
      if Js.le quantity Js.zero
         || Js.gt quantity (ProductDetails.getVariantStock (Some variant))
      then []
      else consumed queue quantity
  end.

(** The [totalPrice] a sequence of consumptions adds up to. *)
Definition priced (trace : list (StockFiFoQueue.t * number)) (totalPrice : number) : number :=
  fold_left
    (fun total c => Js.add total (Js.mul c.2 (Num (StockFiFoQueue.estimatedPrice c.1))))
    trace totalPrice.

(** [small] reuses the lots of [large] as a prefix: the same lots in the
    same order with the same quantities, except that the last lot of
    [small] may be taken for less. *)
Inductive reusesPrefix
    : list (StockFiFoQueue.t * number) -> list (StockFiFoQueue.t * number) -> Prop :=
| reuse_none large : reusesPrefix [] large
| reuse_last lot t1 t2 rest :
    Js.le t1 t2 = true -> reusesPrefix [(lot, t1)] ((lot, t2) :: rest)
| reuse_same c small large :
    reusesPrefix small large -> reusesPrefix (c :: small) (c :: large).

(** The lots with something available. *)
Definition stocked (queue : list StockFiFoQueue.t) : list StockFiFoQueue.t :=
  List.filter (fun lot => negb (Qle_bool (StockFiFoQueue.availableStock lot) 0)) queue.

(** The variant of the specification's example: five units at 10,
    then ten units at 12. *)
Definition example_variant : ProductVariant.t :=
  ProductVariant.mk "v1" "Blue" 15 10
    (Some [StockFiFoQueue.mk "lot1" 10 5 5; StockFiFoQueue.mk "lot2" 12 10 10]).

(** *** Validation *)

Fixpoint indexed_from {A : Type} (l : list A) (i : nat) : list (nat * A) :=
  match l with
  | [] => []
  | x :: rest => (i, x) :: indexed_from rest (S i)
  end.

(** The lines of a list with their positions, from 0. *)
Definition indexed {A : Type} (l : list A) : list (nat * A) := indexed_from l 0.

(** [text] contains [part]. *)
Definition mentions (text part : string) : Prop :=
  exists before after : string, text = before +:+ part +:+ after.

(** The last value bound to [key] in a list of entries. *)
Definition lastBinding {V : Type} (key : string) (entries : list (string * V)) : option V :=
  fold_left (fun found kv => if String.eqb kv.1 key then Some kv.2 else found) entries None.

(** The variant a line item resolves to: the last variant of the
    catalogue that carries the line's variant id. *)
Definition resolvedVariant (products : list Product.t) (item : OrderProduct.t)
    : option ProductVariant.t :=
  lastBinding (OrderProduct.variantId item)
    (flat_map
       (fun p => map (fun v => (ProductVariant.id v, v)) (default [] (Product.variants p)))
       products).

(** A line asks for strictly more than its variant has available. *)
Definition exceedsStock (products : list Product.t) (item : OrderProduct.t) : Prop :=
  exists (variant : ProductVariant.t) (quantity : Q),
    resolvedVariant products item = Some variant
    /\ OrderProduct.quantity item = Num quantity
    /\ availableStock variant < quantity.

Definition exceedsStockb (products : list Product.t) (item : OrderProduct.t) : bool :=
  match resolvedVariant products item, OrderProduct.quantity item with
  | Some variant, Num quantity => negb (Qle_bool quantity (availableStock variant))
  | _, _ => false
  end.

Definition offendingLines (products : list Product.t) (cart : list OrderProduct.t)
    : list (nat * OrderProduct.t) :=
  List.filter (fun line => exceedsStockb products line.2) (indexed cart).

(** The product a line item names: the last product carrying its id. *)
Definition resolvedProduct (products : list Product.t) (item : OrderProduct.t)
    : option Product.t :=
  lastBinding (OrderProduct.productId item) (map (fun p => (Product.id p, p)) products).

(** An error text that refers to a cart line: its position (from 1),
    the name of the line's product, the name of its variant, the
    quantity asked for and the quantity available.  A line whose product
    id is that of no product of the catalogue has no product name: the
    text then reads "undefined" in its place. *)
Definition refersToLine (render : number -> string) (products : list Product.t)
    (line : nat * OrderProduct.t) (err : string) : Prop :=
  exists variant : ProductVariant.t,
    resolvedVariant products line.2 = Some variant
    /\ mentions err (render (Js.ofNat (line.1 + 1)))
    /\ match resolvedProduct products line.2 with
       | Some product => mentions err (Product.name product)
       | None => mentions err "undefined"
       end
    /\ mentions err (ProductVariant.name variant)
    /\ mentions err (render (OrderProduct.quantity line.2))
    /\ mentions err (render (Utils.getVariantStock variant)).

(** [part] occurs in [text], as a test. *)
Fixpoint occurs (part text : string) : bool :=
  String.prefix part text
  || match text with
     | EmptyString => false
     | String _ rest => occurs part rest
     end.

(** A rendering of numbers for the examples: a whole number (below
    10^21) prints as its decimal digits, the way the runtime prints it,
    and NaN prints as "NaN".  It is applied to whole numbers only: for
    a number with a fractional part it is not what the runtime prints. *)
Definition wholeNumber (x : number) : string :=
  match x with
  | NaN => "NaN"
  | Num q => NilZero.string_of_int (Z.to_int (Qfloor q))
  end.

(** The account a payment draws on: the last account carrying its id. *)
Definition paymentAccount (accounts : list Account.t) (payment : OrderPayment.t)
    : option Account.t :=
  lastBinding (OrderPayment.accountId payment) (map (fun acc => (Account.id acc, acc)) accounts).

(** A payment asks for strictly more than its account holds. *)
Definition exceedsBalance (accounts : list Account.t) (payment : OrderPayment.t) : Prop :=
  exists (account : Account.t) (amount : Q),
    paymentAccount accounts payment = Some account
    /\ OrderPayment.amount payment = Num amount
    /\ Account.balance account < amount.

Definition exceedsBalanceb (accounts : list Account.t) (payment : OrderPayment.t) : bool :=
  match paymentAccount accounts payment, OrderPayment.amount payment with
  | Some account, Num amount => negb (Qle_bool amount (Account.balance account))
  | _, _ => false
  end.

(** An error text that refers to a payment: its position (from 1), the
    account name, the amount asked for and the balance, both to two
    decimals. *)
Definition refersToPayment (render : number -> string) (fixed : nat -> number -> string)
    (accounts : list Account.t) (line : nat * OrderPayment.t) (err : string) : Prop :=
  exists account : Account.t,
    paymentAccount accounts line.2 = Some account
    /\ mentions err (render (Js.ofNat (line.1 + 1)))
    /\ mentions err (Account.name account)
    /\ mentions err (fixed 2%nat (OrderPayment.amount line.2))
    /\ mentions err (fixed 2%nat (Num (Account.balance account))).

Definition offendingPayments (accounts : list Account.t) (payments : list OrderPayment.t)
    : list (nat * OrderPayment.t) :=
  List.filter (fun line => exceedsBalanceb accounts line.2) (indexed payments).

(** *** Entity ledger *)

(** What has been paid on an order; a missing [paidTillNow] is zero. *)
Definition paid (order : Order.t) : Q :=
  match Order.paidTillNow order with Some p => p | None => 0 end.

(** The remaining amount of an order, as the ledger page computes it. *)
Definition remaining (order : Order.t) : Q :=
  term (EntityPage.calculateOrderRemaining order).

(** *** Settlement *)



Definition isBuy (order : Order.t) : bool := OrderType_eqb (Order.type order) BUY.


(** [a] is settled no later than [b]: BUY orders come first, and within
    the same class the order created earlier comes first. *)
Definition before (localeCompare : string -> string -> Z) (a b : Order.t) : Prop :=
  (isBuy a = true /\ isBuy b = false)
  \/ (isBuy a = isBuy b
      /\ (localeCompare (Order.createdAt a) (Order.createdAt b) <= 0)%Z).




(** Comparison of strings by code units, as a stand-in collation. *)
Definition codeUnitCompare (a b : string) : Z :=
  match String.compare a b with
  | Lt => (-1)%Z
  | Eq => 0%Z
  | Gt => 1%Z
  end.

(** The scenario of the specification: two BUY orders with 300 and 500
    remaining, the older one first. *)
Definition example_entity : Entity.t :=
  Entity.mk "e1" "org1" false
    (Some [Order.mk "A" BUY 300 None "2024-01-01T00:00:00.000Z";
           Order.mk "B" BUY 800 (Some 300) "2024-02-01T00:00:00.000Z"]).

(** *** Quantity stepper *)

(** The quantity asked of the stepper: [newQuantity || 1]. *)
Definition requested (newQuantity : number) : Q :=
  match newQuantity with
  | NaN => 1
  | Num x => if Qeq_bool x 0 then 1 else x
  end.

(** Two line items that differ at most in quantity and rate. *)
Definition sameLine (a b : OrderProduct.t) : Prop :=
  OrderProduct.productId a = OrderProduct.productId b
  /\ OrderProduct.variantId a = OrderProduct.variantId b
  /\ OrderProduct.description a = OrderProduct.description b.

(** *** Order form *)

(** The empty cart: no entity, one blank row (no product, no variant,
    rate 0, quantity 1), no discount and no tax, both fixed, no charges,
    no payments, no description, not public.  The order date is left
    aside. *)
Definition emptyCart (cart : OrderFormState.t) : Prop :=
  OrderFormState.entity cart = None
  /\ OrderFormState.products cart = [OrderProduct.mk "" "" (Num 0) (Num 1) ""]
  /\ OrderFormState.discount cart = Num 0
  /\ OrderFormState.discountType cart = Fixed
  /\ OrderFormState.discountPercentage cart = Num 0
  /\ OrderFormState.tax cart = Num 0
  /\ OrderFormState.taxType cart = Fixed
  /\ OrderFormState.taxPercentage cart = Num 0
  /\ OrderFormState.charges cart = []
  /\ OrderFormState.payments cart = []
  /\ OrderFormState.description cart = ""
  /\ OrderFormState.isPublic cart = false.

(** Two carts that agree on every field other than the order date. *)
Definition sameCartButDate (a b : OrderFormState.t) : Prop :=
  OrderFormState.entity a = OrderFormState.entity b
  /\ OrderFormState.products a = OrderFormState.products b
  /\ OrderFormState.discount a = OrderFormState.discount b
  /\ OrderFormState.discountType a = OrderFormState.discountType b
  /\ OrderFormState.discountPercentage a = OrderFormState.discountPercentage b
  /\ OrderFormState.tax a = OrderFormState.tax b
  /\ OrderFormState.taxType a = OrderFormState.taxType b
  /\ OrderFormState.taxPercentage a = OrderFormState.taxPercentage b
  /\ OrderFormState.charges a = OrderFormState.charges b
  /\ OrderFormState.payments a = OrderFormState.payments b
  /\ OrderFormState.description a = OrderFormState.description b
  /\ OrderFormState.isPublic a = OrderFormState.isPublic b.

(** *** Payload *)




(** What the parts of a payload add up to: its lines, less the discount,
    plus the tax and the charges; an absent discount or tax counts as zero. *)
Definition payloadTotal (payload : CreateOrderPayload.t) : Q :=
  sumSafe
    (map (fun p => Js.mul (PayloadProduct.quantity p) (PayloadProduct.rate p))
       (CreateOrderPayload.products payload))
  - term (default (Num 0) (CreateOrderPayload.discount payload))
  + term (default (Num 0) (CreateOrderPayload.tax payload))
  + sumSafe (map PayloadCharge.amount (default [] (CreateOrderPayload.charges payload))).

(** A form state for examples: one selected line and one empty slot, a
    fixed discount and two fixed charges. *)
Definition example_form : OrderFormState.t :=
  OrderFormState.mk
    (Some (Entity.mk "walk-in" "org1" true None))
    [OrderProduct.mk "p1" "v1" (Num 120) (Num 2) ""; OrderProduct.mk "" "" (Num 0) (Num 1) ""]
    (Num 40) Fixed (Num 0)
    [OrderCharge.mk "c1" "delivery" (Num 25) Fixed (Num 0) false;
     OrderCharge.mk "c2" "packing" (Num 10) Fixed (Num 0) true]
    (Num 13) Fixed (Num 0) "" 0%Z
    [OrderPayment.mk "bank1" (Num 100)] false.

(** *** Amounts and their percentages *)

(** The field of an amount the user edits: the amount when it is fixed,
    the percentage otherwise. *)
Definition active (kind : AmountKind) (amount percentage : number) : number :=
  match kind with Fixed => amount | Percentage => percentage end.

(** [amount] is [percentage] percent of [subTotal]. *)
Definition mirrors (subTotal : Q) (amount percentage : number) : Prop :=
  exists a p : Q, amount = Num a /\ percentage = Num p /\ a * 100 == p * subTotal.

(** An amount and its percentage after they were brought in step with
    [subTotal]: the edited field is kept, and the other one follows it
    when the edited field is above zero. *)
Definition synced (subTotal : Q) (kind : AmountKind)
    (amount percentage amount' percentage' : number) : Prop :=
  active kind amount' percentage' = active kind amount percentage
  /\ if Js.gt (active kind amount percentage) Js.zero
     then mirrors subTotal amount' percentage'
     else amount' = amount /\ percentage' = percentage.



(** *** Charges of the earlier form *)

(** A charge of the earlier form as a charge of the order form: the
    VAT mark is left out. *)
Definition withoutVat (charge : BuyOrderForm.LocalOrderCharge.t) : OrderCharge.t :=
  OrderCharge.mk (BuyOrderForm.LocalOrderCharge.id charge)
    (BuyOrderForm.LocalOrderCharge.name charge)
    (BuyOrderForm.LocalOrderCharge.amount charge)
    (BuyOrderForm.LocalOrderCharge.type charge)
    (BuyOrderForm.LocalOrderCharge.percentage charge)
    (BuyOrderForm.LocalOrderCharge.isPaidByBusiness charge).

(** *** Payments by account *)

(** What the payments ask of the account [accountId] in all. *)
Definition requiredOn (accountId : string) (payments : list OrderPayment.t) : Q :=
  sumSafe
    (map OrderPayment.amount
       (List.filter (fun p => String.eqb (OrderPayment.accountId p) accountId) payments)).

(** A payment of an amount that is a number and not negative. *)
Definition properAmount (payment : OrderPayment.t) : Prop :=
  exists a : Q, OrderPayment.amount payment = Num a /\ 0 <= a.

(** The entries of the map after the payments [seen] were grouped: one
    entry per account, whose amount is what [seen] asks of the account,
    and an entry for the account of every payment of [seen]. *)
Definition grouped (entries : list (string * number)) (seen : list OrderPayment.t) : Prop :=
  List.NoDup (map fst entries)
  /\ (forall key total,
         BalanceSummary.Map_get entries key = Some total ->
         exists t : Q, total = Num t /\ t == requiredOn key seen)
  /\ (forall p, In p seen ->
                BalanceSummary.Map_get entries (OrderPayment.accountId p) <> None).

(** *** Rows of the cart *)

(** [x] is the first element of [l] with the property [P]. *)
Definition firstWith {A : Type} (P : A -> Prop) (l : list A) (x : A) : Prop :=
  exists before after : list A,
    l = before ++ x :: after /\ Forall (fun y => ~ P y) before /\ P x.

(** The price of a variant on an order: its buy price on a BUY order,
    its sell price otherwise. *)
Definition priceFor (type : OrderType) (variant : ProductVariant.t) : Q :=
  match type with
  | BUY => ProductVariant.buyPrice variant
  | _ => ProductVariant.price variant
  end.

(** *** Settlement order *)




End Spec.

(** * Properties *)

(** ** Numbers *)

Section NumberFacts.

Lemma eqv_refl x : Js.eqv x x.
Proof. destruct x; simpl; [exact I | reflexivity]. Qed.

Lemma term_eqv x y : Js.eqv x y -> Spec.term x == Spec.term y.
Proof. destruct x, y; simpl; try contradiction; auto. reflexivity. Qed.

Lemma sumSafe_eqv {A} (f g : A -> number) (l : list A) :
  (forall x, Js.eqv (f x) (g x)) ->
  Spec.sumSafe (map f l) == Spec.sumSafe (map g l).
Proof.
  intros H. induction l as [|x l IH]; simpl; [reflexivity|].
  rewrite IH, (term_eqv _ _ (H x)). reflexivity.
Qed.

(** A reduce that adds NaN-guarded terms, started from a finite
    accumulator, ends on a finite value: the accumulator plus the safe
    sum of the terms. *)
Lemma reduce_guarded {A} (f : A -> number) (l : list A) :
  forall a : Q,
    exists r : Q,
      fold_left (fun sum x => Js.add sum (if Js.isNaN (f x) then Js.zero else f x)) l (Num a)
      = Num r
      /\ r == a + Spec.sumSafe (map f l).
Proof.
  induction l as [|x l IH]; intros a; simpl.
  - exists a. split; [reflexivity | ring].
  - destruct (f x) as [|q] eqn:E; simpl.
    + destruct (IH (a + 0)) as [r [Hr Hq]]. exists r. split; [exact Hr|].
      rewrite Hq. ring.
    + destruct (IH (a + q)) as [r [Hr Hq]]. exists r. split; [exact Hr|].
      rewrite Hq. ring.
Qed.

Lemma fold_left_pointwise {A S} (f g : S -> A -> S) (l : list A) :
  (forall s x, f s x = g s x) -> forall s, fold_left f l s = fold_left g l s.
Proof.
  intros H. induction l as [|x l IH]; intros s; simpl; [reflexivity|].
  rewrite H. apply IH.
Qed.

Lemma Math_max_zero (x : Q) :
  exists m : Q, Js.Math_max (Num x) Js.zero = Num m /\ m == Qmax x 0 /\ 0 <= m.
Proof.
  unfold Js.Math_max, Js.zero.
  destruct (Qle_bool x 0) eqn:E.
  - exists 0. apply Qle_bool_iff in E. split; [reflexivity|]. split; [|lra].
    symmetry. apply Q.max_r. exact E.
  - exists x. assert (H : ~ x <= 0) by (rewrite <- Qle_bool_iff, E; discriminate).
    split; [reflexivity|]. split; [|lra].
    symmetry. apply Q.max_l. lra.
Qed.

End NumberFacts.

(** ** Order pricing *)

Section Pricing.

Lemma lineAmount_mul (li : OrderProduct.t) :
  Js.eqv (Js.mul (OrderProduct.rate li) (OrderProduct.quantity li)) (Spec.lineAmount li).
Proof.
  unfold Spec.lineAmount.
  destruct (OrderProduct.rate li), (OrderProduct.quantity li); simpl; auto. ring.
Qed.

Lemma calculateSubTotal_sum (products : list OrderProduct.t) :
  exists s : Q,
    Utils.calculateSubTotal products = Num s /\ s == Spec.subTotal products.
Proof.
  unfold Utils.calculateSubTotal, Spec.subTotal.
  destruct (reduce_guarded
              (fun p => Js.mul (OrderProduct.rate p) (OrderProduct.quantity p)) products 0)
    as [r [Hr Hq]].
  exists r. split; [exact Hr|].
  rewrite Hq, (sumSafe_eqv _ Spec.lineAmount products lineAmount_mul). ring.
Qed.

Lemma counterpartyTerm_code (subTotal discount : number) (c : OrderCharge.t) :
  match OrderCharge.type c with
  | Percentage =>
      Js.div (Js.mul (Js.sub subTotal discount) (OrderCharge.percentage c)) Js.hundred
  | Fixed => OrderCharge.amount c
  end = Spec.counterpartyTerm subTotal discount c.
Proof.
  unfold Spec.counterpartyTerm.
  destruct (OrderCharge.type c); [reflexivity|].
  destruct subTotal, discount, (OrderCharge.percentage c); reflexivity.
Qed.

Lemma businessTerm_code (subTotal : number) (c : OrderCharge.t) :
  match OrderCharge.type c with
  | Percentage => Js.div (Js.mul subTotal (OrderCharge.percentage c)) Js.hundred
  | Fixed => OrderCharge.amount c
  end = Spec.businessTerm subTotal c.
Proof.
  unfold Spec.businessTerm.
  destruct (OrderCharge.type c); [reflexivity|].
  destruct subTotal, (OrderCharge.percentage c); reflexivity.
Qed.

Lemma calculateChargeAmount_sum (subTotal discount : number) (charges : list OrderCharge.t) :
  exists a : Q,
    Utils.calculateChargeAmount subTotal discount charges = Num a
    /\ a == Spec.chargeAmount subTotal discount charges.
Proof.
  unfold Utils.calculateChargeAmount, Spec.chargeAmount, Spec.absorbedByCounterparty.
  set (l := List.filter _ charges).
  destruct (reduce_guarded (Spec.counterpartyTerm subTotal discount) l 0) as [r [Hr Hq]].
  exists r. split; [|rewrite Hq; ring].
  rewrite <- Hr. apply fold_left_pointwise. intros sum c.
  rewrite counterpartyTerm_code. reflexivity.
Qed.

Lemma calculateVendorCharges_sum (subTotal : number) (charges : list OrderCharge.t) :
  exists a : Q,
    Utils.calculateVendorCharges subTotal charges = Num a
    /\ a == Spec.vendorCharges subTotal charges.
Proof.
  unfold Utils.calculateVendorCharges, Spec.vendorCharges, Spec.absorbedByBusiness.
  set (l := List.filter _ charges).
  destruct (reduce_guarded (Spec.businessTerm subTotal) l 0) as [r [Hr Hq]].
  exists r. split; [|rewrite Hq; ring].
  rewrite <- Hr. apply fold_left_pointwise. intros sum c.
  rewrite businessTerm_code. reflexivity.
Qed.

End Pricing.

Section GrandTotal.

Lemma counterpartyTerm_eqv (s s' d : Q) (c : OrderCharge.t) :
  s == s' ->
  Js.eqv (Spec.counterpartyTerm (Num s) (Num d) c) (Spec.counterpartyTerm (Num s') (Num d) c).
Proof.
  intros H. unfold Spec.counterpartyTerm.
  destruct (OrderCharge.type c); [apply eqv_refl|].
  destruct (OrderCharge.percentage c); simpl; [exact I|].
  rewrite H. reflexivity.
Qed.

Lemma chargeAmount_eqv (s s' d : Q) (charges : list OrderCharge.t) :
  s == s' ->
  Spec.chargeAmount (Num s) (Num d) charges == Spec.chargeAmount (Num s') (Num d) charges.
Proof.
  intros H. unfold Spec.chargeAmount. apply sumSafe_eqv.
  intros c. apply counterpartyTerm_eqv. exact H.
Qed.

(** C1, as amended: for every list of line items, every charge list and
    every discount and tax that are numbers (not NaN), the grand total is
    the number [max(subTotal - discount + tax + chargeAmount, 0)], where
    [subTotal] is the NaN-safe sum of quantity * rate over the line items
    and [chargeAmount] the counterparty-absorbed charge total; it is
    therefore never below zero, also when the discount exceeds the
    subtotal. *)
Theorem grand_total_floor (products : list OrderProduct.t) (discount tax : Q)
    (charges : list OrderCharge.t) :
  let subTotal := Spec.subTotal products in
  let chargeAmount := Spec.chargeAmount (Num subTotal) (Num discount) charges in
  exists grandTotal : Q,
    Utils.calculateGrandTotal (Utils.calculateSubTotal products) (Num discount) (Num tax) charges
    = Num grandTotal
    /\ grandTotal == Qmax (subTotal - discount + tax + chargeAmount) 0
    /\ 0 <= grandTotal.
Proof.
  intros subTotal chargeAmount.
  destruct (calculateSubTotal_sum products) as [s [Hs Hseq]].
  destruct (calculateChargeAmount_sum (Num s) (Num discount) charges) as [a [Ha Haeq]].
  destruct (Math_max_zero (s - discount + tax + a)) as [m [Hm [Hmax Hpos]]].
  exists m. unfold Utils.calculateGrandTotal. rewrite Hs, Ha. simpl.
  split; [exact Hm|]. split; [|exact Hpos].
  rewrite Hmax. apply Q.max_compat; [|reflexivity].
  rewrite Haeq, (chargeAmount_eqv s subTotal discount charges Hseq).
  fold chargeAmount. unfold subTotal. rewrite Hseq. reflexivity.
Qed.

(** C1, counterexample: a NaN discount is not guarded; the grand total
    is then NaN, and [NaN >= 0] is false. *)
Lemma grand_total_nan_discount :
  let products := [OrderProduct.mk "p" "v" (Num 10) (Num 2) ""] in
  Utils.calculateGrandTotal (Utils.calculateSubTotal products) NaN (Num 0) [] = NaN
  /\ Js.ge (Utils.calculateGrandTotal (Utils.calculateSubTotal products) NaN (Num 0) [])
           Js.zero = false.
Proof. split; reflexivity. Qed.

(** C5: the counterparty-absorbed total is the NaN-safe sum, over the
    charges not absorbed by the business, of
    [(subTotal - discount) * percentage / 100] for a percentage charge
    and of the amount for a fixed one; the business-absorbed total is the
    NaN-safe sum, over the charges absorbed by the business, of
    [subTotal * percentage / 100] (no discount) for a percentage charge
    and of the amount for a fixed one.  A NaN term adds zero. *)
Theorem charge_buckets (subTotal discount : number) (charges : list OrderCharge.t) :
  (exists chargeAmount : Q,
      Utils.calculateChargeAmount subTotal discount charges = Num chargeAmount
      /\ chargeAmount ==
         Spec.sumSafe (map (Spec.counterpartyTerm subTotal discount)
                           (Spec.absorbedByCounterparty charges)))
  /\ (exists vendorCharges : Q,
      Utils.calculateVendorCharges subTotal charges = Num vendorCharges
      /\ vendorCharges ==
         Spec.sumSafe (map (Spec.businessTerm subTotal) (Spec.absorbedByBusiness charges))).
Proof.
  split.
  - apply calculateChargeAmount_sum.
  - apply calculateVendorCharges_sum.
Qed.

End GrandTotal.

(** ** Entity ledger: what remains on an order *)

Section OrderRemaining.

Lemma calculateOrderPaidAmount_paid (order : Order.t) :
  exists p : Q,
    EntityPage.calculateOrderPaidAmount order = Num p /\ p == Spec.paid order.
Proof.
  unfold EntityPage.calculateOrderPaidAmount, Spec.paid.
  destruct (Order.paidTillNow order) as [p|].
  - unfold Js.or_else, Js.truthy. destruct (Qeq_bool p 0) eqn:E; simpl.
    + exists 0. split; [reflexivity|]. apply Qeq_bool_iff in E. symmetry. exact E.
    + exists p. split; reflexivity.
  - exists 0. split; reflexivity.
Qed.

Lemma calculateOrderRemaining_value (order : Order.t) :
  exists remaining : Q,
    EntityPage.calculateOrderRemaining order = Num remaining
    /\ remaining == Order.totalAmount order - Spec.paid order.
Proof.
  unfold EntityPage.calculateOrderRemaining.
  destruct (calculateOrderPaidAmount_paid order) as [p [Hp Hq]].
  rewrite Hp. simpl. eexists. split; [reflexivity|]. rewrite Hq. reflexivity.
Qed.

(** C8, as amended: the remaining amount of an order is
    [totalAmount - paidTillNow] (a missing [paidTillNow] counting as
    zero) and is not clamped: it is negative exactly when more has been
    paid than the order's total, and it equals the clamped value
    [max(totalAmount - paidTillNow, 0)] exactly when the paid amount does
    not exceed the total. *)
Theorem order_remaining_unclamped (order : Order.t) :
  exists remaining : Q,
    EntityPage.calculateOrderRemaining order = Num remaining
    /\ remaining == Order.totalAmount order - Spec.paid order
    /\ (remaining < 0 <-> Order.totalAmount order < Spec.paid order)
    /\ (remaining == Qmax (Order.totalAmount order - Spec.paid order) 0
        <-> Spec.paid order <= Order.totalAmount order).
Proof.
  destruct (calculateOrderRemaining_value order) as [r [Hr Hq]].
  exists r. split; [exact Hr|]. split; [exact Hq|]. split.
  - rewrite Hq. split; intros H; lra.
  - rewrite Hq. split; intros H.
    + symmetry in H. apply Q.max_l_iff in H. lra.
    + symmetry. apply Q.max_l. lra.
Qed.

(** C8, counterexample: an order of total 100 on which 150 has been
    paid has remaining -50, not 0. *)
Lemma order_remaining_negative :
  let order := Order.mk "o1" BUY 100 (Some 150) "2024-01-01T00:00:00.000Z" in
  EntityPage.calculateOrderRemaining order = Num (100 - 150)
  /\ Js.lt (EntityPage.calculateOrderRemaining order) Js.zero = true
  /\ ~ Js.eqv (EntityPage.calculateOrderRemaining order)
              (Num (Qmax (Order.totalAmount order - Spec.paid order) 0)).
Proof.
  split; [reflexivity|]. split; [reflexivity|].
  simpl. intros H. vm_compute in H. discriminate H.
Qed.

End OrderRemaining.

(** ** Order form: reset *)

Section Reset.

Import CreateOrder.

(** C9, as amended: for any starting state, the cart after one reset
    and the cart after two are both the empty cart (no entity, one blank
    row, discount and tax zero and fixed, no charges, no payments, no
    description, not public), so they agree on entity, products,
    discount, discount type and percentage, tax, tax type and
    percentage, charges, payments, description and the isPublic flag,
    with the form-level error cleared and the step back at details; the
    order date is read from the clock at each reset, so it is that of the
    latest reset, and the two carts are identical exactly when both
    resets read the same instant. *)
Theorem reset_twice (t1 t2 : Date) (st : State) :
  let once := resetForm t1 st in
  let twice := resetForm t2 once in
  Spec.emptyCart (formState once)
  /\ Spec.emptyCart (formState twice)
  /\ Spec.sameCartButDate (formState twice) (formState once)
  /\ OrderFormState.orderDate (formState once) = t1
  /\ OrderFormState.orderDate (formState twice) = t2
  /\ error once = None /\ error twice = None
  /\ currentStep once = details /\ currentStep twice = details
  /\ (t1 = t2 <-> twice = once).
Proof.
  simpl. unfold Spec.emptyCart, Spec.sameCartButDate. simpl.
  do 9 (split; [repeat split; reflexivity|]).
  split.
  - intros ->. reflexivity.
  - intros H. injection H as H. symmetry. exact H.
Qed.

(** C9, counterexample: two resets at different instants leave carts
    with different order dates. *)
Lemma reset_twice_differs :
  let st := mkState
              (OrderFormState.mk None [] (Num 5) Percentage (Num 1) [] (Num 0)
                 Percentage (Num 13) "draft" 0%Z [] true)
              summary (Some "Failed to create order. Please try again.") false in
  resetForm 1000%Z (resetForm 0%Z st) <> resetForm 0%Z st
  /\ OrderFormState.orderDate (formState (resetForm 1000%Z (resetForm 0%Z st)))
     <> OrderFormState.orderDate (formState (resetForm 0%Z st)).
Proof. split; simpl; intros H; discriminate H. Qed.

End Reset.

(** ** Available stock *)

Section Stock.

Lemma stock_reduce (queue : list StockFiFoQueue.t) :
  forall a : Q,
    exists r : Q,
      fold_left (fun total entry => Js.add total (Num (StockFiFoQueue.availableStock entry)))
        queue (Num a) = Num r
      /\ r == a + Spec.lotsAvailable queue.
Proof.
  induction queue as [|e queue IH]; intros a; simpl.
  - exists a. split; [reflexivity|ring].
  - destruct (IH (a + StockFiFoQueue.availableStock e)) as [r [Hr Hq]].
    exists r. split; [exact Hr|]. rewrite Hq. ring.
Qed.

Lemma getVariantStock_some (variant : ProductVariant.t) :
  exists stock : Q,
    ProductDetails.getVariantStock (Some variant) = Num stock
    /\ stock == Spec.availableStock variant.
Proof.
  unfold ProductDetails.getVariantStock, Spec.availableStock.
  destruct (ProductVariant.stock_fifo_queue variant) as [queue|].
  - destruct (stock_reduce queue 0) as [r [Hr Hq]].
    exists r. split; [exact Hr|]. rewrite Hq. ring.
  - exists 0. split; reflexivity.
Qed.

Lemma utils_getVariantStock (variant : ProductVariant.t) :
  Utils.getVariantStock variant = ProductDetails.getVariantStock (Some variant).
Proof. reflexivity. Qed.

End Stock.

(** ** Quantity stepper *)

Section QuantityChange.

Import ProductDetails.

Lemma mapi_from_nth {A B} (f : A -> nat -> B) (l : list A) :
  forall i j, nth_error (mapi_from f l i) j
              = option_map (fun x => f x (i + j)%nat) (nth_error l j).
Proof.
  induction l as [|x l IH]; intros i j; destruct j; simpl; try reflexivity.
  - rewrite Nat.add_0_r. reflexivity.
  - rewrite IH. replace (S i + j)%nat with (i + S j)%nat by lia. reflexivity.
Qed.

Lemma mapi_from_length {A B} (f : A -> nat -> B) (l : list A) :
  forall i, length (mapi_from f l i) = length l.
Proof. induction l as [|x l IH]; intros i; simpl; [reflexivity|]. rewrite IH. reflexivity. Qed.

Lemma updateProductAtIndex_same addedProducts index updates item :
  nth_error addedProducts index = Some item ->
  nth_error (updateProductAtIndex addedProducts index updates) index
  = Some (spread item updates).
Proof.
  intros H. unfold updateProductAtIndex. rewrite mapi_from_nth, H. simpl.
  rewrite Nat.eqb_refl. reflexivity.
Qed.

Lemma updateProductAtIndex_other addedProducts index updates j :
  j <> index ->
  nth_error (updateProductAtIndex addedProducts index updates) j
  = nth_error addedProducts j.
Proof.
  intros H. unfold updateProductAtIndex. rewrite mapi_from_nth. simpl.
  destruct (nth_error addedProducts j); simpl; [|reflexivity].
  apply Nat.eqb_neq in H. rewrite H. reflexivity.
Qed.

(** The quantity before the stock cap: [Math.max(1, newQuantity || 1)]. *)
Lemma floor_at_one (newQuantity : number) :
  exists q : Q,
    Js.Math_max Js.one (Js.or_else newQuantity Js.one) = Num q
    /\ q == Qmax 1 (Spec.requested newQuantity) /\ 1 <= q.
Proof.
  assert (Hmax : forall x : Q, exists q : Q,
             Js.Math_max Js.one (Num x) = Num q /\ q == Qmax 1 x /\ 1 <= q).
  { intros x. unfold Js.Math_max, Js.one. destruct (Qle_bool 1 x) eqn:E.
    - apply Qle_bool_iff in E. exists x. split; [reflexivity|]. split; [|exact E].
      symmetry. apply Q.max_r. exact E.
    - assert (H : ~ 1 <= x) by (rewrite <- Qle_bool_iff, E; discriminate).
      exists 1. split; [reflexivity|]. split; [|lra].
      symmetry. apply Q.max_l. lra. }
  unfold Js.or_else, Js.truthy, Spec.requested.
  destruct newQuantity as [|x]; simpl.
  - apply (Hmax 1).
  - destruct (Qeq_bool x 0); simpl; [apply (Hmax 1) | apply (Hmax x)].
Qed.

Lemma Math_min_Qmin (x y : Q) :
  exists m : Q, Js.Math_min (Num x) (Num y) = Num m /\ m == Qmin x y
                /\ m <= x /\ m <= y /\ (m = x \/ m = y).
Proof.
  unfold Js.Math_min. destruct (Qle_bool x y) eqn:E.
  - apply Qle_bool_iff in E. exists x. split; [reflexivity|].
    split; [symmetry; apply Q.min_l; exact E|]. split; [lra|]. split; [exact E|]. left; reflexivity.
  - assert (H : ~ x <= y) by (rewrite <- Qle_bool_iff, E; discriminate).
    exists y. split; [reflexivity|].
    split; [symmetry; apply Q.min_r; lra|]. split; [lra|]. split; [lra|]. right; reflexivity.
Qed.

(** C10, as amended: on a SELL line with a resolved variant the handler
    sets the quantity to [min(max(1, newQuantity || 1), stock)], which
    lies in [1, stock] when the stock is at least 1 and is the stock
    itself when the stock is below 1, and it overwrites the rate with the
    variant's sell price whatever the rate was; on any other line (a BUY
    order, or no resolved variant) it only raises the quantity to at
    least 1 and keeps the rate.  Product, variant and description of the
    line, and all other lines, are unchanged. *)
Theorem quantity_change_frame (type : OrderType) (variant : option ProductVariant.t)
    (addedProducts : list OrderProduct.t) (index : nat) (item : OrderProduct.t)
    (newQuantity : number) :
  nth_error addedProducts index = Some item ->
  let updated := handleQuantityChange type variant addedProducts index newQuantity in
  length updated = length addedProducts
  /\ (forall j, j <> index -> nth_error updated j = nth_error addedProducts j)
  /\ exists (item' : OrderProduct.t) (q : Q),
       nth_error updated index = Some item'
       /\ Spec.sameLine item' item
       /\ OrderProduct.quantity item' = Num q
       /\ match type, variant with
          | SELL, Some v =>
              OrderProduct.rate item' = Num (ProductVariant.price v)
              /\ q == Qmin (Qmax 1 (Spec.requested newQuantity)) (Spec.availableStock v)
              /\ (1 <= Spec.availableStock v -> 1 <= q <= Spec.availableStock v)
              /\ (Spec.availableStock v < 1 -> q == Spec.availableStock v)
          | _, _ =>
              OrderProduct.rate item' = OrderProduct.rate item
              /\ q == Qmax 1 (Spec.requested newQuantity)
              /\ 1 <= q
          end.
Proof.
  intros Hitem updated. unfold updated, handleQuantityChange.
  split; [apply mapi_from_length|].
  split; [intros j Hj; apply updateProductAtIndex_other; exact Hj|].
  rewrite (updateProductAtIndex_same _ _ _ _ Hitem).
  destruct (floor_at_one newQuantity) as [q0 [Hq0 [Hmax Hone]]].
  assert (Hother :
    forall u, u = Updates.mk None None None (Some (Num q0)) None ->
      exists (item' : OrderProduct.t) (q : Q),
        Some (spread item u) = Some item' /\ Spec.sameLine item' item
        /\ OrderProduct.quantity item' = Num q
        /\ OrderProduct.rate item' = OrderProduct.rate item
           /\ q == Qmax 1 (Spec.requested newQuantity) /\ 1 <= q).
  { intros u ->. exists (spread item (Updates.mk None None None (Some (Num q0)) None)), q0.
    repeat split; auto. }
  unfold quantityUpdates. rewrite Hq0.
  destruct type; try (apply Hother; destruct variant; reflexivity).
  destruct variant as [v|]; [|apply Hother; reflexivity].
  destruct (getVariantStock_some v) as [stock [Hstock Hseq]]. rewrite Hstock.
  destruct (Math_min_Qmin q0 stock) as [m [Hm [Hmin [Hle1 [Hle2 Hcase]]]]]. rewrite Hm.
  eexists; exists m. split; [reflexivity|]. split; [repeat split|].
  split; [reflexivity|]. split; [reflexivity|].
  split; [rewrite Hmin, Hmax, Hseq; reflexivity|].
  rewrite <- Hseq. split.
  - intros H1. split; [|exact Hle2]. destruct Hcase as [-> | ->]; assumption.
  - intros H1. destruct Hcase as [-> | ->]; [lra | reflexivity].
Qed.

(** An instance: a SELL line of the example variant asked for 40 units
    is capped at the 15 in stock and re-priced at the sell price. *)
Lemma quantity_change_frame_witness :
  let item := OrderProduct.mk "p1" "v1" (Num 99) (Num 2) "gift" in
  nth_error [item] 0 = Some item
  /\ exists (item' : OrderProduct.t) (q : Q),
       nth_error (handleQuantityChange SELL (Some Spec.example_variant) [item] 0 (Num 40)) 0
       = Some item'
       /\ OrderProduct.quantity item' = Num q
       /\ OrderProduct.rate item' = Num (ProductVariant.price Spec.example_variant)
       /\ 1 <= q <= Spec.availableStock Spec.example_variant.
Proof.
  intros item.
  assert (H : nth_error [item] 0 = Some item) by reflexivity.
  split; [exact H|].
  destruct (quantity_change_frame SELL (Some Spec.example_variant) [item] 0 item (Num 40) H)
    as [_ [_ [item' [q [Hnth [_ [Hq [Hrate [_ [Hrange _]]]]]]]]]].
  exists item', q. split; [exact Hnth|]. split; [exact Hq|]. split; [exact Hrate|].
  apply Hrange. vm_compute. discriminate.
Defined.

(** C10, counterexample: on a SELL line whose variant has no stock left,
    asking for quantity 1 sets the quantity to 0, below 1. *)
Lemma quantity_change_no_stock :
  let v := ProductVariant.mk "v1" "Red" 120 90
             (Some [StockFiFoQueue.mk "lot1" 90 5 0]) in
  let item := OrderProduct.mk "p1" "v1" (Num 120) (Num 1) "" in
  match handleQuantityChange SELL (Some v) [item] 0 (Num 1) with
  | [line] =>
      Js.eqv (OrderProduct.quantity line) (Num 0)
      /\ Js.ge (OrderProduct.quantity line) Js.one = false
  | _ => False
  end.
Proof. simpl. split; reflexivity. Qed.

End QuantityChange.

(** ** Stock and balance validation *)

Section Validation.

Lemma Map_new_lookup {V} (entries : list (string * V)) (key : string) :
  Js.Map_new entries !! key = Spec.lastBinding key entries.
Proof.
  unfold Js.Map_new, Spec.lastBinding.
  assert (H : forall (m : gmap string V),
             fold_left (fun m kv => <[kv.1:=kv.2]> m) entries m !! key
             = fold_left (fun found kv => if String.eqb kv.1 key then Some kv.2 else found)
                 entries (m !! key)).
  { induction entries as [|[k v] entries IH]; intros m; simpl; [reflexivity|].
    rewrite IH. f_equal. rewrite lookup_insert.
    destruct (String.eqb_spec k key); destruct (decide (k = key)); congruence. }
  rewrite H. rewrite lookup_empty. reflexivity.
Qed.

Lemma variantMap_lookup products item :
  Utils.variantMap products !! OrderProduct.variantId item
  = Spec.resolvedVariant products item.
Proof.
  unfold Utils.variantMap, Spec.resolvedVariant. rewrite Map_new_lookup.
  f_equal. apply flat_map_ext. intros p. destruct (Product.variants p); reflexivity.
Qed.

Lemma productMap_lookup products item :
  Utils.productMap products !! OrderProduct.productId item
  = Spec.resolvedProduct products item.
Proof. apply Map_new_lookup. Qed.

Lemma accountMap_lookup accounts pay :
  Utils.accountMap accounts !! OrderPayment.accountId pay
  = Spec.paymentAccount accounts pay.
Proof. apply Map_new_lookup. Qed.

Lemma forEach_from_pointwise {A S} (f g : S -> A -> nat -> S) (l : list A) :
  (forall s x i, f s x i = g s x i) ->
  forall i s, Js.forEach_from f l i s = Js.forEach_from g l i s.
Proof.
  intros H. induction l as [|x l IH]; intros i s; simpl; [reflexivity|].
  rewrite H. apply IH.
Qed.

(** A [forEach] that pushes a message for the items that fail a test
    collects the messages of the failing items, in order. *)
Lemma forEach_from_push {A} (test : nat * A -> bool) (msg : nat * A -> string)
    (l : list A) :
  forall i (acc : list string),
    Js.forEach_from
      (fun errors item index =>
         if test (index, item) then errors ++ [msg (index, item)] else errors) l i acc
    = acc ++ map msg (List.filter test (Spec.indexed_from l i)).
Proof.
  induction l as [|x l IH]; intros i acc; simpl.
  - rewrite app_nil_r. reflexivity.
  - rewrite IH. destruct (test (i, x)); simpl; [|reflexivity].
    rewrite <- app_assoc. reflexivity.
Qed.

Lemma indexed_from_Exists {A} (P : A -> Prop) (l : list A) :
  forall i, Exists (fun line => P line.2) (Spec.indexed_from l i) <-> Exists P l.
Proof.
  induction l as [|x l IH]; intros i; simpl.
  - split; intros H; inversion H.
  - rewrite !Exists_cons, IH. reflexivity.
Qed.

Lemma filter_nonempty_Exists {A} (test : A -> bool) (l : list A) :
  List.filter test l <> [] <-> Exists (fun x => test x = true) l.
Proof.
  induction l as [|x l IH]; simpl.
  - split; [congruence | intros H; inversion H].
  - rewrite Exists_cons. destruct (test x); [|rewrite IH].
    + split; [intros _; left; reflexivity | intros _; discriminate].
    + split; [intros H; right; exact H | intros [H|H]; [discriminate|exact H]].
Qed.

Lemma no_errors_iff {A} (msg : A -> string) (test : A -> bool) (l : list A) :
  Nat.eqb (length (map msg (List.filter test l))) 0 = false
  <-> Exists (fun x => test x = true) l.
Proof.
  rewrite <- filter_nonempty_Exists, length_map.
  destruct (List.filter test l); simpl; split; congruence.
Qed.

Lemma append_assoc (a b c : string) : (a +:+ b) +:+ c = a +:+ b +:+ c.
Proof.
  induction a as [|ch a IH]; [reflexivity|].
  change (String ch ((a +:+ b) +:+ c) = String ch (a +:+ b +:+ c)).
  rewrite IH. reflexivity.
Qed.

Lemma mentions_here part after : Spec.mentions (part +:+ after) part.
Proof. exists "", after. reflexivity. Qed.

Lemma mentions_later text part before :
  Spec.mentions text part -> Spec.mentions (before +:+ text) part.
Proof.
  intros [b [a ->]]. exists (before +:+ b), a. rewrite append_assoc. reflexivity.
Qed.

End Validation.

Ltac find_mention :=
  repeat first [apply mentions_here | apply mentions_later].

Section ValidationFacts.

Lemma indexed_from_In {A} (l : list A) :
  forall k i x, In (i, x) (Spec.indexed_from l k)
                <-> (k <= i)%nat /\ nth_error l (i - k) = Some x.
Proof.
  induction l as [|y l IH]; intros k i x; simpl.
  - split; [intros [] | intros [_ H]]. destruct (i - k)%nat; discriminate.
  - rewrite IH. split.
    + intros [H | [Hle Hnth]].
      * injection H as <- <-. split; [lia|]. rewrite Nat.sub_diag. reflexivity.
      * split; [lia|]. replace (i - k)%nat with (S (i - S k)) by lia. exact Hnth.
    + intros [Hle Hnth]. destruct (Nat.eq_dec i k) as [-> | Hne].
      * left. rewrite Nat.sub_diag in Hnth. simpl in Hnth. congruence.
      * right. split; [lia|].
        replace (i - k)%nat with (S (i - S k)) in Hnth by lia. exact Hnth.
Qed.

Lemma indexed_In {A} (l : list A) i x :
  In (i, x) (Spec.indexed l) <-> nth_error l i = Some x.
Proof.
  unfold Spec.indexed. rewrite indexed_from_In, Nat.sub_0_r.
  split; [intros [_ H]; exact H | intros H; split; [lia | exact H]].
Qed.

Lemma Forall2_map_same {A B} (R : A -> B -> Prop) (f : A -> B) (l : list A) :
  Forall (fun x => R x (f x)) l -> Forall2 R l (map f l).
Proof. induction 1; simpl; constructor; assumption. Qed.

Lemma negb_Qle_bool (x y : Q) : negb (Qle_bool x y) = true <-> y < x.
Proof.
  destruct (Qle_bool x y) eqn:E; simpl.
  - apply Qle_bool_iff in E. split; [discriminate | intros H; lra].
  - assert (H : ~ x <= y) by (rewrite <- Qle_bool_iff, E; discriminate).
    split; [intros _; lra | reflexivity].
Qed.

Lemma Qle_bool_eqv (x y y' : Q) : y == y' -> Qle_bool x y = Qle_bool x y'.
Proof.
  intros H. destruct (Qle_bool x y) eqn:E1, (Qle_bool x y') eqn:E2; try reflexivity.
  - apply Qle_bool_iff in E1. rewrite H in E1. apply Qle_bool_iff in E1. congruence.
  - apply Qle_bool_iff in E2. rewrite <- H in E2. apply Qle_bool_iff in E2. congruence.
Qed.

Lemma gt_stock (quantity : number) (variant : ProductVariant.t) :
  Js.gt quantity (Utils.getVariantStock variant)
  = match quantity with
    | Num q => negb (Qle_bool q (Spec.availableStock variant))
    | NaN => false
    end.
Proof.
  rewrite utils_getVariantStock.
  destruct (getVariantStock_some variant) as [r [Hr Hq]]. rewrite Hr.
  destruct quantity as [|q]; simpl; [reflexivity|].
  rewrite (Qle_bool_eqv q r _ Hq). reflexivity.
Qed.

Lemma exceedsStockb_spec products item :
  Spec.exceedsStockb products item = true <-> Spec.exceedsStock products item.
Proof.
  unfold Spec.exceedsStockb, Spec.exceedsStock.
  destruct (Spec.resolvedVariant products item) as [v|].
  - destruct (OrderProduct.quantity item) as [|q].
    + split; [discriminate | intros [v' [q' [_ [H _]]]]; discriminate].
    + rewrite negb_Qle_bool. split.
      * intros H. exists v, q. auto.
      * intros [v' [q' [Hv [Hq Hlt]]]]. congruence.
  - split; [discriminate | intros [v' [q' [H _]]]; discriminate].
Qed.

Lemma exceedsBalanceb_spec accounts pay :
  Spec.exceedsBalanceb accounts pay = true <-> Spec.exceedsBalance accounts pay.
Proof.
  unfold Spec.exceedsBalanceb, Spec.exceedsBalance.
  destruct (Spec.paymentAccount accounts pay) as [acc|].
  - destruct (OrderPayment.amount pay) as [|a].
    + split; [discriminate | intros [v' [q' [_ [H _]]]]; discriminate].
    + rewrite negb_Qle_bool. split.
      * intros H. exists acc, a. auto.
      * intros [v' [q' [Hv [Hq Hlt]]]]. congruence.
  - split; [discriminate | intros [v' [q' [H _]]]; discriminate].
Qed.

Lemma Exists_indexed_test {A} (test : A -> bool) (P : A -> Prop) (l : list A) :
  (forall x, test x = true <-> P x) ->
  Exists (fun line : nat * A => test line.2 = true) (Spec.indexed l) <-> Exists P l.
Proof.
  intros H. unfold Spec.indexed.
  rewrite (indexed_from_Exists (fun x => test x = true) l 0).
  split; intros HE; induction HE as [x l' Hx | x l' _ IH];
    [ constructor 1; apply H; exact Hx | constructor 2; exact IH
    | constructor 1; apply H; exact Hx | constructor 2; exact IH ].
Qed.

End ValidationFacts.

Section ValidationTheorems.

Variable Number_toString : number -> string.
Variable Number_toFixed : nat -> number -> string.

(** C6, as amended: for an order type other than SELL the result is
    valid with no errors.  For a SELL order the result is invalid exactly
    when some line with a resolved variant asks for strictly more than
    the variant's available stock (the sum of [availableStock] over its
    FIFO queue); the errors are the messages of the offending lines, one
    per line and in cart order, each naming the position, the variant,
    the quantity asked for and the quantity available, and the name of
    the product the line's product id resolves to in the catalogue; when
    it resolves to none, the text reads "undefined" where the product
    name would be. *)
Theorem stock_validation_sound (type : OrderType) (products : list Product.t)
    (addedProducts : list OrderProduct.t) :
  let result := Utils.validateProductQuantities Number_toString type products addedProducts in
  match type with
  | SELL =>
      (ValidationResult.isValid result = false
       <-> Exists (Spec.exceedsStock products) addedProducts)
      /\ (forall index item,
             In (index, item) (Spec.offendingLines products addedProducts)
             <-> nth_error addedProducts index = Some item
                 /\ Spec.exceedsStock products item)
      /\ Forall2
           (fun line err =>
              (exists variant : ProductVariant.t,
                  Spec.resolvedVariant products line.2 = Some variant
                  /\ err = Utils.stockErrorMessage Number_toString line.1
                             (Spec.resolvedProduct products line.2) variant line.2)
              /\ Spec.refersToLine Number_toString products line err)
           (Spec.offendingLines products addedProducts)
           (ValidationResult.errors result)
  | _ =>
      ValidationResult.isValid result = true /\ ValidationResult.errors result = []
  end.
Proof.
  destruct type; simpl; try (split; reflexivity).
  set (test := fun line : nat * OrderProduct.t => Spec.exceedsStockb products line.2).
  set (msg := fun line : nat * OrderProduct.t =>
                match Spec.resolvedVariant products line.2 with
                | Some variant =>
                    Utils.stockErrorMessage Number_toString line.1
                      (Spec.resolvedProduct products line.2) variant line.2
                | None => ""
                end).
  assert (Herrors :
    Js.forEach
      (fun (errors : list string) item index =>
         match Utils.variantMap products !! OrderProduct.variantId item with
         | Some variant =>
             if Js.gt (OrderProduct.quantity item) (Utils.getVariantStock variant)
             then errors ++
                  [Utils.stockErrorMessage Number_toString index
                     (Utils.productMap products !! OrderProduct.productId item) variant item]
             else errors
         | None => errors
         end) addedProducts []
    = map msg (Spec.offendingLines products addedProducts)).
  { unfold Js.forEach, Spec.offendingLines, Spec.indexed.
    rewrite <- (app_nil_l (map msg _)), <- (forEach_from_push test msg).
    apply forEach_from_pointwise. intros errors item index.
    unfold test, msg, Spec.exceedsStockb. simpl.
    rewrite variantMap_lookup, productMap_lookup.
    destruct (Spec.resolvedVariant products item) as [variant|]; [|reflexivity].
    rewrite gt_stock. destruct (OrderProduct.quantity item); reflexivity. }
  rewrite Herrors. split; [|split].
  - unfold Spec.offendingLines. rewrite no_errors_iff.
    apply Exists_indexed_test. apply exceedsStockb_spec.
  - intros index item. unfold Spec.offendingLines.
    rewrite filter_In, indexed_In. simpl. rewrite exceedsStockb_spec. reflexivity.
  - apply Forall2_map_same. apply List.Forall_forall. intros [index item] Hin.
    unfold Spec.offendingLines in Hin. apply filter_In in Hin. destruct Hin as [_ Hb].
    simpl in Hb. unfold Spec.exceedsStockb in Hb. unfold msg. simpl.
    destruct (Spec.resolvedVariant products item) as [variant|] eqn:Hv; [|discriminate].
    split; [exists variant; split; reflexivity|].
    exists variant. simpl. rewrite Hv. split; [reflexivity|].
    unfold Utils.stockErrorMessage.
    split; [find_mention|]. split; [|repeat split; find_mention].
    destruct (Spec.resolvedProduct products item) as [product|];
      cbn [Utils.productLabel]; find_mention.
Qed.

(** C7: for an order type other than BUY the result is valid with no
    errors.  For a BUY order the result is invalid exactly when some
    payment asks for strictly more than the balance of its account; the
    errors are the messages of the offending payments, one per payment
    and in order, each naming the position, the account, the amount asked
    for and the balance. *)
Theorem balance_validation_sound (type : OrderType) (payments : list OrderPayment.t)
    (accounts : list Account.t) :
  let result :=
    Utils.validateAccountBalances Number_toString Number_toFixed payments accounts type in
  match type with
  | BUY =>
      (ValidationResult.isValid result = false
       <-> Exists (Spec.exceedsBalance accounts) payments)
      /\ (forall index pay,
             In (index, pay) (Spec.offendingPayments accounts payments)
             <-> nth_error payments index = Some pay
                 /\ Spec.exceedsBalance accounts pay)
      /\ Forall2
           (fun line err =>
              (exists account : Account.t,
                  Spec.paymentAccount accounts line.2 = Some account
                  /\ err = Utils.balanceErrorMessage Number_toString Number_toFixed
                             line.1 account line.2)
              /\ Spec.refersToPayment Number_toString Number_toFixed accounts line err)
           (Spec.offendingPayments accounts payments)
           (ValidationResult.errors result)
  | _ =>
      ValidationResult.isValid result = true /\ ValidationResult.errors result = []
  end.
Proof.
  unfold Utils.validateAccountBalances.
  destruct type;
    cbn [negb OrderType_eqb ValidationResult.isValid ValidationResult.errors];
    try (split; reflexivity).
  set (test := fun line : nat * OrderPayment.t => Spec.exceedsBalanceb accounts line.2).
  set (msg := fun line : nat * OrderPayment.t =>
                match Spec.paymentAccount accounts line.2 with
                | Some account =>
                    Utils.balanceErrorMessage Number_toString Number_toFixed
                      line.1 account line.2
                | None => ""
                end).
  assert (Herrors :
    Js.forEach
      (fun (errors : list string) pay index =>
         match Utils.accountMap accounts !! OrderPayment.accountId pay with
         | Some account =>
             if Js.gt (OrderPayment.amount pay) (Num (Account.balance account))
             then errors ++
                  [Utils.balanceErrorMessage Number_toString Number_toFixed index account pay]
             else errors
         | None => errors
         end) payments []
    = map msg (Spec.offendingPayments accounts payments)).
  { unfold Js.forEach, Spec.offendingPayments, Spec.indexed.
    rewrite <- (app_nil_l (map msg _)), <- (forEach_from_push test msg).
    apply forEach_from_pointwise. intros errors pay index.
    unfold test, msg, Spec.exceedsBalanceb. simpl.
    rewrite accountMap_lookup.
    destruct (Spec.paymentAccount accounts pay) as [account|]; [|reflexivity].
    destruct (OrderPayment.amount pay); reflexivity. }
  rewrite Herrors. split; [|split].
  - unfold Spec.offendingPayments. rewrite no_errors_iff.
    apply Exists_indexed_test. apply exceedsBalanceb_spec.
  - intros index pay. unfold Spec.offendingPayments.
    rewrite filter_In, indexed_In. simpl. rewrite exceedsBalanceb_spec. reflexivity.
  - apply Forall2_map_same. apply List.Forall_forall. intros [index pay] Hin.
    unfold Spec.offendingPayments in Hin. apply filter_In in Hin. destruct Hin as [_ Hb].
    simpl in Hb. unfold Spec.exceedsBalanceb in Hb. unfold msg. simpl.
    destruct (Spec.paymentAccount accounts pay) as [account|] eqn:Ha; [|discriminate].
    split; [exists account; split; reflexivity|].
    exists account. simpl. rewrite Ha. split; [reflexivity|].
    unfold Utils.balanceErrorMessage. repeat split; find_mention.
Qed.

End ValidationTheorems.

Section ValidationExample.

Lemma prefix_append (part after : string) : String.prefix part (part +:+ after) = true.
Proof.
  induction part as [|ch part IH]; [destruct after; reflexivity|].
  change (String.prefix (String ch part) (String ch (part +:+ after)) = true).
  cbn [String.prefix]. destruct (ascii_dec ch ch) as [_|Hne]; [exact IH | contradiction].
Qed.

Lemma mentions_occurs (text part : string) :
  Spec.mentions text part -> Spec.occurs part text = true.
Proof.
  intros [before [after ->]]. induction before as [|ch before IH].
  - change ("" +:+ part +:+ after) with (part +:+ after).
    destruct (part +:+ after) eqn:E; cbn [Spec.occurs]; rewrite <- E, prefix_append;
      reflexivity.
  - change (String ch before +:+ part +:+ after)
      with (String ch (before +:+ part +:+ after)).
    cbn [Spec.occurs]. rewrite IH. apply orb_true_r.
Qed.

(** C6, counterexample: a SELL cart whose one line carries the variant
    of the example and asks for 20 of the 15 available, under a product
    id that no product of the catalogue carries.  The line is rejected
    with one error, which reads "undefined" where the product name would
    be and names no product of the catalogue. *)
Lemma stock_validation_unnamed_product :
  let products := [Product.mk "p1" "Shirt" (Some [Spec.example_variant])] in
  let line := OrderProduct.mk "p2" "v1" (Num 15) (Num 20) "" in
  let result := Utils.validateProductQuantities Spec.wholeNumber SELL products [line] in
  Spec.exceedsStock products line
  /\ ValidationResult.isValid result = false
  /\ ValidationResult.errors result
     = ["Item #1 (undefined - Blue): Quantity (20) exceeds available stock (15)."]
  /\ Forall
       (fun err =>
          forall product, In product products -> ~ Spec.mentions err (Product.name product))
       (ValidationResult.errors result).
Proof.
  intros products line result.
  assert (Herrors : ValidationResult.errors result
            = ["Item #1 (undefined - Blue): Quantity (20) exceeds available stock (15)."])
    by (vm_compute; reflexivity).
  split; [|split; [|split]].
  - apply exceedsStockb_spec. vm_compute. reflexivity.
  - vm_compute. reflexivity.
  - exact Herrors.
  - rewrite Herrors. constructor; [|constructor].
    intros product [<- | []] Hmention. apply mentions_occurs in Hmention.
    vm_compute in Hmention. discriminate Hmention.
Qed.

End ValidationExample.

(** ** FIFO weighted price *)

Section Rounding.

Lemma Qle_bool_false (x y : Q) : Qle_bool x y = false <-> y < x.
Proof.
  rewrite <- negb_Qle_bool. destruct (Qle_bool x y); simpl; split; congruence.
Qed.

Lemma Qle_bool_eqv_l (x x' y : Q) : x == x' -> Qle_bool x y = Qle_bool x' y.
Proof.
  intros H. destruct (Qle_bool x y) eqn:E1, (Qle_bool x' y) eqn:E2; try reflexivity.
  - apply Qle_bool_iff in E1. rewrite H in E1. apply Qle_bool_iff in E1. congruence.
  - apply Qle_bool_iff in E2. rewrite <- H in E2. apply Qle_bool_iff in E2. congruence.
Qed.

Lemma roundHalfAway_near (x : Q) :
  - (1 # 2) <= inject_Z (Js.roundHalfAway x) - x <= 1 # 2.
Proof.
  unfold Js.roundHalfAway. destruct (Qle_bool 0 x).
  - pose proof (Qfloor_le (x + (1 # 2))) as Hlo.
    pose proof (Qlt_floor (x + (1 # 2))) as Hhi.
    rewrite inject_Z_plus in Hhi. change (inject_Z 1) with 1 in Hhi. lra.
  - pose proof (Qfloor_le (- x + (1 # 2))) as Hlo.
    pose proof (Qlt_floor (- x + (1 # 2))) as Hhi.
    rewrite inject_Z_plus in Hhi. rewrite inject_Z_opp.
    change (inject_Z 1) with 1 in Hhi. lra.
Qed.

Lemma roundHalfAway_eqv (x y : Q) : x == y -> Js.roundHalfAway x = Js.roundHalfAway y.
Proof.
  intros H. unfold Js.roundHalfAway.
  rewrite (Qle_bool_eqv 0 x y H).
  destruct (Qle_bool 0 y); [|f_equal]; apply Qfloor_comp; rewrite H; reflexivity.
Qed.

Lemma pow10_pos (digits : nat) : 0 < Js.pow10 digits.
Proof.
  unfold Js.pow10. rewrite <- (Zlt_Qlt 0). apply Z.pow_pos_nonneg; lia.
Qed.

(** [parseFloat(x.toFixed(digits)) || 0] is [x] rounded to [digits]
    decimal places. *)
Lemma toFixed_rounds (digits : nat) (x exact : Q) :
  x == exact ->
  exists r : Q,
    Js.or_else (Js.parseFloat_toFixed digits (Num x)) Js.zero = Num r
    /\ Spec.roundedTo digits exact r.
Proof.
  intros Hx. pose proof (pow10_pos digits) as Hpos.
  pose proof (roundHalfAway_near (x * Js.pow10 digits)) as Hnear.
  set (n := Js.roundHalfAway (x * Js.pow10 digits)) in *.
  assert (Hround : Spec.roundedTo digits exact (inject_Z n / Js.pow10 digits)).
  { exists n. split; [reflexivity|]. rewrite <- Hx. exact Hnear. }
  unfold Js.or_else, Js.parseFloat_toFixed, Js.truthy. fold n.
  destruct (Qeq_bool (inject_Z n / Js.pow10 digits) 0) eqn:E; simpl.
  - exists 0. split; [reflexivity|]. apply Qeq_bool_iff in E.
    destruct Hround as [m [Hm Hb]]. exists m. split; [|exact Hb].
    rewrite <- Hm, E. reflexivity.
  - eexists. split; [reflexivity | exact Hround].
Qed.

(** Rounding leaves a value that already has that many decimals as it is. *)
Lemma roundedTo_exact (digits : nat) (exact r : Q) (m : Z) :
  exact == inject_Z m / Js.pow10 digits ->
  Spec.roundedTo digits exact r -> r == exact.
Proof.
  intros Hm [n [Hn [Hlo Hhi]]]. pose proof (pow10_pos digits) as Hpos.
  assert (He : exact * Js.pow10 digits == inject_Z m).
  { rewrite Hm. field. lra. }
  rewrite He in Hlo, Hhi.
  assert (Hnm : n = m).
  { assert (H1 : inject_Z n - inject_Z m < 1) by lra.
    assert (H2 : -1 < inject_Z n - inject_Z m) by lra.
    unfold Qminus in H1, H2. rewrite <- inject_Z_opp, <- inject_Z_plus in H1, H2.
    change 1 with (inject_Z 1) in H1. change (-1) with (inject_Z (-1)) in H2.
    rewrite <- Zlt_Qlt in H1, H2. lia. }
  rewrite Hn, Hm, Hnm. reflexivity.
Qed.

End Rounding.

Section WeightedPrice.

Import ProductDetails.

Lemma usable_nonneg lot : 0 <= Spec.usable lot.
Proof. unfold Spec.usable. apply Q.le_max_r. Qed.

Lemma usable_empty lot :
  StockFiFoQueue.availableStock lot <= 0 -> Spec.usable lot == 0.
Proof. intros H. unfold Spec.usable. apply Q.max_r. exact H. Qed.

Lemma usable_stocked lot :
  0 < StockFiFoQueue.availableStock lot ->
  Spec.usable lot == StockFiFoQueue.availableStock lot.
Proof. intros H. unfold Spec.usable. apply Q.max_l. lra. Qed.

(** The walk depends on the quantity needed only up to its value. *)
Lemma walk_eqv (lots : list StockFiFoQueue.t) :
  forall needed needed' : Q,
    needed == needed' ->
    Spec.cost (Spec.walk lots needed) == Spec.cost (Spec.walk lots needed')
    /\ Spec.taken (Spec.walk lots needed) == Spec.taken (Spec.walk lots needed').
Proof.
  induction lots as [|lot rest IH]; intros needed needed' H; cbn [Spec.walk].
  - split; reflexivity.
  - rewrite (Qle_bool_eqv_l needed needed' 0 H).
    destruct (Qle_bool needed' 0); [split; reflexivity|].
    assert (Hmin : Qmin (Spec.usable lot) needed == Qmin (Spec.usable lot) needed')
      by (rewrite H; reflexivity).
    destruct (IH (needed - Qmin (Spec.usable lot) needed)
                 (needed' - Qmin (Spec.usable lot) needed')) as [Hc Ht].
    { rewrite Hmin, H. reflexivity. }
    unfold Spec.cost, Spec.taken in *. cbn [fold_right fst snd].
    rewrite Hc, Ht, Hmin. split; reflexivity.
Qed.

(** The loop of [getVariantEstimatedPrice] costs what the walk takes. *)
Lemma priceLoop_walk (lots : list StockFiFoQueue.t) :
  forall remaining total : Q,
    0 < remaining ->
    exists remaining' total' : Q,
      priceLoop lots (Num remaining) (Num total) = (Num remaining', Num total')
      /\ total' == total + Spec.cost (Spec.walk lots remaining)
      /\ remaining' == remaining - Spec.taken (Spec.walk lots remaining).
Proof.
  induction lots as [|lot rest IH]; intros remaining total Hpos.
  - exists remaining, total. simpl. split; [reflexivity|]. split; ring.
  - assert (Hguard : Qle_bool remaining 0 = false) by (apply Qle_bool_false; exact Hpos).
    cbn [priceLoop Spec.walk]. rewrite Hguard.
    cbn [Spec.cost Spec.taken fold_right fst snd].
    fold (Spec.cost (Spec.walk rest (remaining - Qmin (Spec.usable lot) remaining))).
    fold (Spec.taken (Spec.walk rest (remaining - Qmin (Spec.usable lot) remaining))).
    unfold Js.le at 1. unfold Js.zero at 1.
    destruct (Qle_bool (StockFiFoQueue.availableStock lot) 0) eqn:Eempty.
    + apply Qle_bool_iff in Eempty.
      assert (Htake : Qmin (Spec.usable lot) remaining == 0).
      { rewrite (usable_empty lot Eempty). apply Q.min_l. lra. }
      destruct (IH remaining total Hpos) as [r' [t' [Hloop [Ht Hr]]]].
      destruct (walk_eqv rest (remaining - Qmin (Spec.usable lot) remaining) remaining)
        as [Hc Hk]; [rewrite Htake; ring|].
      exists r', t'. split; [exact Hloop|].
      rewrite Hc, Hk, Htake, Ht, Hr. split; ring.
    + apply Qle_bool_false in Eempty.
      destruct (Math_min_Qmin (StockFiFoQueue.availableStock lot) remaining)
        as [m [Hm [Hmin [Hle1 [Hle2 _]]]]].
      rewrite Hm.
      assert (Htake : Qmin (Spec.usable lot) remaining == m).
      { rewrite (usable_stocked lot Eempty), Hmin. reflexivity. }
      destruct (walk_eqv rest (remaining - Qmin (Spec.usable lot) remaining) (remaining - m))
        as [Hc Hk]; [rewrite Htake; ring|].
      cbn [Js.sub Js.mul Js.add Js.lift2]. unfold Js.le, Js.zero.
      destruct (Qle_bool (remaining - m) 0) eqn:Edone.
      * exists (remaining - m), (total + m * StockFiFoQueue.estimatedPrice lot).
        split; [reflexivity|].
        assert (Hnil : Spec.walk rest (remaining - m) = []).
        { destruct rest; simpl; [reflexivity|]. rewrite Edone. reflexivity. }
        rewrite Hc, Hk, Hnil, Htake. simpl. split; ring.
      * apply Qle_bool_false in Edone.
        destruct (IH (remaining - m) (total + m * StockFiFoQueue.estimatedPrice lot) Edone)
          as [r' [t' [Hloop [Ht Hr]]]].
        exists r', t'. split; [exact Hloop|].
        rewrite Hc, Hk, Htake, Ht, Hr. split; ring.
Qed.

Lemma totalUsable_nonneg lots : 0 <= Spec.totalUsable lots.
Proof.
  induction lots as [|lot rest IH]; simpl; [lra|].
  pose proof (usable_nonneg lot). lra.
Qed.

Lemma lotsAvailable_le_usable lots : Spec.lotsAvailable lots <= Spec.totalUsable lots.
Proof.
  induction lots as [|lot rest IH]; simpl; [lra|].
  assert (StockFiFoQueue.availableStock lot <= Spec.usable lot)
    by (unfold Spec.usable; apply Q.le_max_l).
  lra.
Qed.

(** A quantity within what the lots can give is covered in full. *)
Lemma walk_covers (lots : list StockFiFoQueue.t) :
  forall needed : Q,
    0 <= needed -> needed <= Spec.totalUsable lots ->
    Spec.taken (Spec.walk lots needed) == needed.
Proof.
  induction lots as [|lot rest IH]; intros needed Hpos Hle; simpl in *.
  - lra.
  - destruct (Qle_bool needed 0) eqn:E; simpl.
    + apply Qle_bool_iff in E. lra.
    + apply Qle_bool_false in E.
      pose proof (usable_nonneg lot) as Hu. pose proof (totalUsable_nonneg rest) as Hr.
      rewrite IH.
      * ring.
      * destruct (Q.min_spec (Spec.usable lot) needed) as [[Hlt Heq] | [Hge Heq]];
          rewrite Heq; lra.
      * destruct (Q.min_spec (Spec.usable lot) needed) as [[Hlt Heq] | [Hge Heq]];
          rewrite Heq; lra.
Qed.

(** The walk goes through the lots in queue order and takes from no
    lot more than it has. *)
Lemma walk_in_order (lots : list StockFiFoQueue.t) :
  forall needed : Q,
    (exists later, lots = map fst (Spec.walk lots needed) ++ later)
    /\ Forall (fun a => 0 <= a.2 <= Spec.usable a.1) (Spec.walk lots needed).
Proof.
  induction lots as [|lot rest IH]; intros needed; simpl.
  - split; [exists []; reflexivity | constructor].
  - destruct (Qle_bool needed 0) eqn:E; simpl.
    + split; [exists (lot :: rest); reflexivity | constructor].
    + apply Qle_bool_false in E.
      destruct (IH (needed - Qmin (Spec.usable lot) needed)) as [[later Hl] Hf].
      split; [exists later; rewrite <- Hl; reflexivity|].
      constructor; [|exact Hf]. simpl.
      pose proof (usable_nonneg lot) as Hu.
      destruct (Q.min_spec (Spec.usable lot) needed) as [[Hlt Heq] | [Hge Heq]];
          rewrite Heq; lra.
Qed.

End WeightedPrice.

Section WeightedPriceTheorem.

Import ProductDetails.

(** C3, as amended: the FIFO weighted-price query walks the variant's
    lots oldest-first, taking from each lot up to what it has available
    until the requested quantity is covered, and returns
    [totalCost / quantity] rounded to 4 decimal places (unchanged when it
    has no more than 4 decimals); it returns 0
    whenever [quantity <= 0] or the quantity exceeds the variant's total
    available stock.  For the lots [{qty:5,cost:10},{qty:10,cost:12}] the
    weighted price of 8 units is (5*10 + 3*12)/8 = 10.75. *)
Theorem weighted_price (variant : ProductVariant.t) (quantity : Q) :
  (exists price : Q,
      getVariantEstimatedPrice variant (Num quantity) = Num price
      /\ (quantity <= 0 \/ Spec.availableStock variant < quantity -> price == 0)
      /\ (0 < quantity <= Spec.availableStock variant ->
          exists lots : list StockFiFoQueue.t,
            ProductVariant.stock_fifo_queue variant = Some lots
            /\ (exists later, lots = map fst (Spec.walk lots quantity) ++ later)
            /\ Forall (fun a => 0 <= a.2 <= Spec.usable a.1) (Spec.walk lots quantity)
            /\ Spec.taken (Spec.walk lots quantity) == quantity
            /\ Spec.roundedTo 4 (Spec.cost (Spec.walk lots quantity) / quantity) price
            /\ (forall m : Z,
                   Spec.cost (Spec.walk lots quantity) / quantity == inject_Z m / Js.pow10 4 ->
                   price == Spec.cost (Spec.walk lots quantity) / quantity)))
  /\ Js.eqv (getVariantEstimatedPrice Spec.example_variant (Num 8)) (Num (43 # 4)).
Proof.
  split; [|vm_compute; reflexivity].
  unfold getVariantEstimatedPrice.
  destruct (getVariantStock_some variant) as [stock [Hstock Hseq]]. rewrite Hstock.
  unfold Spec.availableStock in *.
  destruct (ProductVariant.stock_fifo_queue variant) as [lots|].
  2:{ exists 0. split; [reflexivity|]. split; [reflexivity|]. intros [H1 H2]. lra. }
  unfold Js.le at 1. unfold Js.gt, Js.lt, Js.zero at 1.
  destruct (Qle_bool quantity 0) eqn:Elow; cbn [orb].
  { apply Qle_bool_iff in Elow. exists 0. split; [reflexivity|].
    split; [reflexivity|]. intros [H1 H2]. lra. }
  apply Qle_bool_false in Elow.
  destruct (Qle_bool quantity stock) eqn:Ehigh; cbn [negb].
  2:{ apply Qle_bool_false in Ehigh. exists 0. split; [reflexivity|].
      split; [reflexivity|]. intros [H1 H2]. lra. }
  apply Qle_bool_iff in Ehigh.
  destruct (priceLoop_walk lots quantity 0 Elow) as [r' [t' [Hloop [Ht Hr]]]].
  unfold Js.zero. rewrite Hloop.
  assert (Hdiv : Js.div (Num t') (Num quantity) = Num (t' / quantity)).
  { unfold Js.div. destruct (Qeq_bool quantity 0) eqn:E; [|reflexivity].
    apply Qeq_bool_iff in E. lra. }
  rewrite Hdiv.
  destruct (toFixed_rounds 4 (t' / quantity) (Spec.cost (Spec.walk lots quantity) / quantity))
    as [price [Hprice Hround]].
  { rewrite Ht. field. lra. }
  exists price. split; [exact Hprice|]. split; [intros [H|H]; lra|].
  intros _. exists lots. split; [reflexivity|].
  destruct (walk_in_order lots quantity) as [Horder Hbound].
  split; [exact Horder|]. split; [exact Hbound|]. split; [|split; [exact Hround|]].
  - apply walk_covers; [lra|].
    pose proof (lotsAvailable_le_usable lots). lra.
  - intros m Hm. exact (roundedTo_exact 4 _ price m Hm Hround).
Qed.

(** C3, counterexample: the price of 8 units out of the example lots is
    not 9.25. *)
Lemma weighted_price_example_not_9_25 :
  ~ Js.eqv (getVariantEstimatedPrice Spec.example_variant (Num 8)) (Num (37 # 4)).
Proof. vm_compute. intros H. discriminate H. Qed.

End WeightedPriceTheorem.

(** ** FIFO monotonicity *)

Section FifoPrefix.

Import ProductDetails.

(** The recorded consumptions are what the loop adds to [totalPrice]. *)
Lemma priceLoop_consumed (queue : list StockFiFoQueue.t) :
  forall remainingQty totalPrice : number,
    snd (priceLoop queue remainingQty totalPrice)
    = Spec.priced (Spec.consumed queue remainingQty) totalPrice.
Proof.
  induction queue as [|entry rest IH]; intros remainingQty totalPrice;
    cbn [priceLoop Spec.consumed]; [reflexivity|].
  destruct (Js.le (Num (StockFiFoQueue.availableStock entry)) Js.zero); [apply IH|].
  set (qtyToUse := Js.Math_min (Num (StockFiFoQueue.availableStock entry)) remainingQty).
  destruct (Js.le (Js.sub remainingQty qtyToUse) Js.zero).
  - reflexivity.
  - unfold Spec.priced. cbn [fold_left fst snd]. apply IH.
Qed.

(** The loop draws on the stocked lots in queue order, skipping none. *)
Lemma consumed_in_order (queue : list StockFiFoQueue.t) :
  forall remainingQty : number,
    exists later, Spec.stocked queue = map fst (Spec.consumed queue remainingQty) ++ later.
Proof.
  induction queue as [|entry rest IH]; intros remainingQty;
    cbn [Spec.consumed Spec.stocked List.filter].
  - exists []. reflexivity.
  - unfold Js.le at 1. unfold Js.zero at 1.
    destruct (Qle_bool (StockFiFoQueue.availableStock entry) 0); cbn [negb].
    + apply IH.
    + set (qtyToUse := Js.Math_min (Num (StockFiFoQueue.availableStock entry)) remainingQty).
      destruct (Js.le (Js.sub remainingQty qtyToUse) Js.zero).
      * exists (Spec.stocked rest). reflexivity.
      * destruct (IH (Js.sub remainingQty qtyToUse)) as [later Hl].
        exists later. cbn [map fst app]. unfold Spec.stocked in Hl. rewrite Hl. reflexivity.
Qed.

(** The tooltip's breakdown of a quantity is the same sequence. *)
Lemma breakdown_consumed (queue : list StockFiFoQueue.t) :
  forall (remainingQty : number) (breakdown : list (number * Q)),
    Js.le remainingQty Js.zero = false ->
    breakdownLoop queue remainingQty breakdown
    = breakdown ++
      map (fun c => (c.2, StockFiFoQueue.estimatedPrice c.1)) (Spec.consumed queue remainingQty).
Proof.
  assert (Hdone : forall rest remainingQty breakdown,
             Js.le remainingQty Js.zero = true ->
             breakdownLoop rest remainingQty breakdown = breakdown).
  { induction rest as [|entry rest IH]; intros remainingQty breakdown H;
      cbn [breakdownLoop]; [reflexivity|].
    rewrite H, orb_true_r. apply IH. exact H. }
  induction queue as [|entry rest IH]; intros remainingQty breakdown Hrem;
    cbn [breakdownLoop Spec.consumed].
  - rewrite app_nil_r. reflexivity.
  - rewrite Hrem, orb_false_r.
    destruct (Js.le (Num (StockFiFoQueue.availableStock entry)) Js.zero); [apply IH; exact Hrem|].
    set (qtyToUse := Js.Math_min (Num (StockFiFoQueue.availableStock entry)) remainingQty).
    destruct (Js.le (Js.sub remainingQty qtyToUse) Js.zero) eqn:E.
    + rewrite (Hdone _ _ _ E). reflexivity.
    + rewrite (IH _ _ E). rewrite <- app_assoc. reflexivity.
Qed.

Lemma consumed_reuse (queue : list StockFiFoQueue.t) :
  forall q1 q2 : Q,
    0 < q1 -> q1 <= q2 ->
    Spec.reusesPrefix (Spec.consumed queue (Num q1)) (Spec.consumed queue (Num q2)).
Proof.
  induction queue as [|entry rest IH]; intros q1 q2 Hpos Hle; cbn [Spec.consumed].
  - constructor.
  - cbn [Js.le Js.zero Js.Math_min Js.sub Js.lift2].
    destruct (Qle_bool (StockFiFoQueue.availableStock entry) 0); [apply IH; assumption|].
    set (available := StockFiFoQueue.availableStock entry).
    destruct (Qle_bool available q1) eqn:E1.
    + apply Qle_bool_iff in E1.
      assert (E2 : Qle_bool available q2 = true) by (apply Qle_bool_iff; lra).
      rewrite E2. apply Spec.reuse_same.
      destruct (Qle_bool (q1 - available) 0) eqn:Edone; [constructor|].
      apply Qle_bool_false in Edone.
      assert (E3 : Qle_bool (q2 - available) 0 = false) by (apply Qle_bool_false; lra).
      rewrite E3. apply IH; lra.
    + apply Qle_bool_false in E1.
      assert (Edone : Qle_bool (q1 - q1) 0 = true) by (apply Qle_bool_iff; lra).
      rewrite Edone. apply Spec.reuse_last. cbn [Js.le].
      apply Qle_bool_iff. destruct (Qle_bool available q2); lra.
Qed.

Lemma consumption_price (variant : ProductVariant.t) (quantity : number) :
  Spec.consumption variant quantity <> [] ->
  getVariantEstimatedPrice variant quantity
  = Js.or_else
      (Js.parseFloat_toFixed 4
         (Js.div (Spec.priced (Spec.consumption variant quantity) Js.zero) quantity))
      Js.zero.
Proof.
  unfold Spec.consumption, getVariantEstimatedPrice.
  destruct (ProductVariant.stock_fifo_queue variant) as [queue|]; [|congruence].
  destruct (Js.le quantity Js.zero || Js.gt quantity (getVariantStock (Some variant)));
    [congruence|].
  intros _. rewrite <- priceLoop_consumed.
  destruct (priceLoop queue quantity Js.zero). reflexivity.
Qed.

(** C4: for quantities [q1 < q2] within the variant's available stock,
    the weighted-price computation draws on the stocked lots in queue
    order (oldest first), skipping none, and what it consumes for [q1] is
    a prefix of what it consumes for [q2]: the same lots in the same
    order with the same quantities, only the last lot of [q1] possibly
    taken for less.  The consumptions are those the returned price is
    computed from. *)
Theorem fifo_prefix (variant : ProductVariant.t) (q1 q2 : Q) :
  q1 < q2 ->
  q2 <= Spec.availableStock variant ->
  Spec.reusesPrefix (Spec.consumption variant (Num q1)) (Spec.consumption variant (Num q2))
  /\ (forall (q : Q) (lots : list StockFiFoQueue.t),
         ProductVariant.stock_fifo_queue variant = Some lots ->
         exists later,
           Spec.stocked lots = map fst (Spec.consumption variant (Num q)) ++ later)
  /\ (forall q : Q,
         Spec.consumption variant (Num q) <> [] ->
         getVariantEstimatedPrice variant (Num q)
         = Js.or_else
             (Js.parseFloat_toFixed 4
                (Js.div (Spec.priced (Spec.consumption variant (Num q)) Js.zero) (Num q)))
             Js.zero).
Proof.
  intros Hlt Hstock. split; [|split].
  - unfold Spec.consumption.
    destruct (getVariantStock_some variant) as [stock [Hs Hseq]]. rewrite Hs.
    unfold Spec.availableStock in *.
    destruct (ProductVariant.stock_fifo_queue variant) as [queue|]; [|constructor].
    unfold Js.le, Js.gt, Js.lt, Js.zero.
    destruct (Qle_bool q1 0) eqn:E1; cbn [orb]; [constructor|].
    apply Qle_bool_false in E1.
    assert (E2 : Qle_bool q1 stock = true) by (apply Qle_bool_iff; lra).
    assert (E3 : Qle_bool q2 0 = false) by (apply Qle_bool_false; lra).
    assert (E4 : Qle_bool q2 stock = true) by (apply Qle_bool_iff; lra).
    rewrite E2, E3, E4. cbn [negb orb]. apply consumed_reuse; lra.
  - intros q lots Hq. unfold Spec.consumption. rewrite Hq.
    destruct (Js.le (Num q) Js.zero || Js.gt (Num q) (getVariantStock (Some variant))).
    + exists (Spec.stocked lots). reflexivity.
    + apply consumed_in_order.
  - intros q. apply consumption_price.
Qed.

(** An instance: 3 units and 8 units out of the example lots. *)
Lemma fifo_prefix_witness :
  3 < 8
  /\ 8 <= Spec.availableStock Spec.example_variant
  /\ Spec.reusesPrefix (Spec.consumption Spec.example_variant (Num 3))
                       (Spec.consumption Spec.example_variant (Num 8)).
Proof.
  assert (H1 : 3 < 8) by (vm_compute; reflexivity).
  assert (H2 : 8 <= Spec.availableStock Spec.example_variant)
    by (vm_compute; discriminate).
  split; [exact H1|]. split; [exact H2|].
  exact (proj1 (fifo_prefix Spec.example_variant 3 8 H1 H2)).
Defined.

End FifoPrefix.

(** ** Sorting *)

Section SortFacts.

Context {A : Type}.
Variable compare : A -> A -> Z.

Lemma sort_insert_permutation (x : A) (l : list A) :
  Permutation (Js.sort_insert compare x l) (x :: l).
Proof.
  induction l as [|y l IH]; simpl; [reflexivity|].
  destruct (compare x y <=? 0)%Z; [reflexivity|].
  rewrite IH. apply perm_swap.
Qed.

Lemma sort_permutation (l : list A) : Permutation (Js.sort compare l) l.
Proof.
  induction l as [|x l IH]; simpl; [reflexivity|].
  rewrite sort_insert_permutation, IH. reflexivity.
Qed.

(** The comparator is consistent: it orders any two items one way or the
    other, and transitively. *)
Hypothesis compare_total : forall a b, (0 < compare a b -> compare b a <= 0)%Z.
Hypothesis compare_trans :
  forall a b c, (compare a b <= 0 -> compare b c <= 0 -> compare a c <= 0)%Z.



End SortFacts.

(** ** Settlement *)

Section SettlementFacts.

Import EntityPage.








End SettlementFacts.

Section SettlementTheorem.

Import EntityPage.

Variable localeCompare : string -> string -> Z.

(** [localeCompare] is a consistent comparator, as [sort] expects. *)
Hypothesis localeCompare_total :
  forall a b, (0 < localeCompare a b -> localeCompare b a <= 0)%Z.
Hypothesis localeCompare_trans :
  forall a b c,
    (localeCompare a b <= 0 -> localeCompare b c <= 0 -> localeCompare a c <= 0)%Z.









(** A non-positive amount is not settled at all. *)
Lemma handleAddPayment_nothing (entity : Entity.t) (amount : Q) (accountId : string) :
  amount <= 0 -> handleAddPayment localeCompare entity (Num amount) accountId = None.
Proof.
  intros H. unfold handleAddPayment. cbn [Js.le Js.zero].
  apply Qle_bool_iff in H. rewrite H. reflexivity.
Qed.

End SettlementTheorem.

Section SettlementScenario.

Import EntityPage.



(** The scenario of the specification: 700 paid against 300 and 500
    remaining goes as 300 to the first order and 400 to the second. *)
Example settlement_scenario :
  handleAddPayment Spec.codeUnitCompare Spec.example_entity (Num 700) "cash"
  = Some [Allocation.mk "A" "cash" (Num 300); Allocation.mk "B" "cash" (Num 400)].
Proof. vm_compute. reflexivity. Qed.


End SettlementScenario.

(** * Further properties of the code *)

(** ** Totals of the payment step *)

Section PaidTotals.

Lemma or_else_zero_term (x : number) :
  exists q : Q, Js.or_else x Js.zero = Num q /\ q == Spec.term x.
Proof.
  destruct x as [|q]; [exists 0; split; reflexivity|].
  unfold Js.or_else, Js.truthy. destruct (Qeq_bool q 0) eqn:E; simpl.
  - exists 0. split; [reflexivity|]. apply Qeq_bool_iff in E. symmetry. exact E.
  - exists q. split; reflexivity.
Qed.

Lemma calculateTotalPaid_from (payments : list OrderPayment.t) :
  forall a : Q,
    exists t : Q,
      fold_left
        (fun sum payment => Js.add sum (Js.or_else (OrderPayment.amount payment) Js.zero))
        payments (Num a) = Num t
      /\ t == a + Spec.sumSafe (map OrderPayment.amount payments).
Proof.
  induction payments as [|p payments IH]; intros a; simpl.
  - exists a. split; [reflexivity | ring].
  - destruct (or_else_zero_term (OrderPayment.amount p)) as [q [Hq Hterm]].
    rewrite Hq. simpl. destruct (IH (a + q)) as [t [Ht Hsum]].
    exists t. split; [exact Ht|]. rewrite Hsum, Hterm. ring.
Qed.

Lemma calculateTotalPaid_sum (payments : list OrderPayment.t) :
  exists t : Q,
    Utils.calculateTotalPaid payments = Num t
    /\ t == Spec.sumSafe (map OrderPayment.amount payments).
Proof.
  destruct (calculateTotalPaid_from payments 0) as [t [Ht Hsum]].
  exists t. split; [exact Ht|]. rewrite Hsum. ring.
Qed.

Lemma totalPaid_from (payments : list OrderPayment.t) :
  forall acc : number,
    (Forall (fun p => Js.isNaN (OrderPayment.amount p) = false) payments ->
     forall a, acc = Num a ->
       exists t, fold_left (fun acc p => Js.add acc (OrderPayment.amount p)) payments acc = Num t
                 /\ t == a + Spec.sumSafe (map OrderPayment.amount payments))
    /\ (Exists (fun p => OrderPayment.amount p = NaN) payments \/ acc = NaN ->
        fold_left (fun acc p => Js.add acc (OrderPayment.amount p)) payments acc = NaN).
Proof.
  induction payments as [|p payments IH]; intros acc; simpl.
  - split.
    + intros _ a ->. exists a. split; [reflexivity | ring].
    + intros [H | H]; [inversion H | exact H].
  - destruct (IH (Js.add acc (OrderPayment.amount p))) as [IHfin IHnan]. split.
    + intros Hall a ->. inversion Hall as [|? ? Hp Hrest]; subst.
      destruct (OrderPayment.amount p) as [|q] eqn:E; [discriminate Hp|].
      destruct (IHfin Hrest (a + q) eq_refl) as [t [Ht Hsum]].
      exists t. split; [exact Ht|]. rewrite Hsum. simpl. ring.
    + intros [H | H]; apply IHnan.
      * inversion H as [? ? Hp | ? ? Hrest]; subst.
        -- right. rewrite Hp. destruct acc; reflexivity.
        -- left. exact Hrest.
      * right. rewrite H. reflexivity.
Qed.

(** X1: the total paid of the order form is never NaN: it is the sum of
    the payment amounts with NaN amounts counted as zero.  The total of
    the payment card has no such guard: it is the same number when no
    amount is NaN, and NaN as soon as one is. *)
Theorem total_paid_guarded (payments : list OrderPayment.t) :
  exists t : Q,
    Utils.calculateTotalPaid payments = Num t
    /\ t == Spec.sumSafe (map OrderPayment.amount payments)
    /\ (Forall (fun p => Js.isNaN (OrderPayment.amount p) = false) payments ->
        Js.eqv (PaymentSelector.totalPaid payments) (Num t))
    /\ (Exists (fun p => OrderPayment.amount p = NaN) payments ->
        PaymentSelector.totalPaid payments = NaN).
Proof.
  destruct (calculateTotalPaid_sum payments) as [t [Ht Hsum]].
  exists t. split; [exact Ht|]. split; [exact Hsum|].
  destruct (totalPaid_from payments Js.zero) as [Hfin Hnan]. split.
  - intros Hall. destruct (Hfin Hall 0 eq_refl) as [t' [Ht' Hsum']].
    unfold PaymentSelector.totalPaid. rewrite Ht'. simpl. rewrite Hsum', Hsum. ring.
  - intros H. apply Hnan. left. exact H.
Qed.

Lemma calculateGrandTotal_finite (subTotal discount tax : Q) (charges : list OrderCharge.t) :
  exists g : Q,
    Utils.calculateGrandTotal (Num subTotal) (Num discount) (Num tax) charges = Num g
    /\ g == Qmax (subTotal - discount + tax
                  + Spec.chargeAmount (Num subTotal) (Num discount) charges) 0
    /\ 0 <= g.
Proof.
  destruct (calculateChargeAmount_sum (Num subTotal) (Num discount) charges) as [a [Ha Haeq]].
  destruct (Math_max_zero (subTotal - discount + tax + a)) as [m [Hm [Hmax Hpos]]].
  exists m. unfold Utils.calculateGrandTotal. rewrite Ha. simpl.
  split; [exact Hm|]. split; [|exact Hpos].
  rewrite Hmax. apply Q.max_compat; [|reflexivity]. rewrite Haeq. reflexivity.
Qed.

(** X2: when discount and tax are numbers, the derived amounts of the
    form are all numbers: the grand total and the remaining amount are
    not negative, the remaining amount is zero exactly when the payments
    cover the grand total, and it is never more than the grand total
    when the payments add up to an amount that is not negative. *)
Theorem calculations_remaining (formState : OrderFormState.t) :
  Js.isNaN (OrderFormState.discount formState) = false ->
  Js.isNaN (OrderFormState.tax formState) = false ->
  exists grandTotal totalPaid remaining : Q,
    OrderCalculations.grandTotal (CreateOrder.calculations formState) = Num grandTotal
    /\ OrderCalculations.totalPaid (CreateOrder.calculations formState) = Num totalPaid
    /\ OrderCalculations.remainingAmount (CreateOrder.calculations formState) = Num remaining
    /\ 0 <= grandTotal /\ 0 <= remaining
    /\ (remaining == 0 <-> grandTotal <= totalPaid)
    /\ (0 <= totalPaid -> remaining <= grandTotal).
Proof.
  intros Hd Ht. unfold CreateOrder.calculations. cbn [OrderCalculations.grandTotal
    OrderCalculations.totalPaid OrderCalculations.remainingAmount].
  destruct (OrderFormState.discount formState) as [|d]; [discriminate Hd|].
  destruct (OrderFormState.tax formState) as [|t]; [discriminate Ht|].
  destruct (calculateSubTotal_sum (OrderFormState.products formState)) as [s [Hs _]].
  rewrite Hs.
  destruct (calculateGrandTotal_finite s d t (OrderFormState.charges formState))
    as [g [Hg [_ Hgpos]]].
  destruct (calculateTotalPaid_sum (OrderFormState.payments formState)) as [p [Hp _]].
  rewrite Hg, Hp. unfold Utils.calculateRemainingAmount. cbn [Js.sub Js.lift2].
  destruct (Math_max_zero (g - p)) as [r [Hr [Hmax Hrpos]]].
  exists g, p, r. split; [reflexivity|]. split; [reflexivity|]. split; [exact Hr|].
  split; [exact Hgpos|]. split; [exact Hrpos|]. rewrite Hmax. split.
  - split; intros H.
    + apply Q.max_r_iff in H. lra.
    + apply Q.max_r. lra.
  - intros H. apply Q.max_lub; lra.
Qed.

(** An instance of [calculations_remaining] on the example form. *)
Lemma calculations_remaining_witness :
  Js.isNaN (OrderFormState.discount Spec.example_form) = false
  /\ Js.isNaN (OrderFormState.tax Spec.example_form) = false
  /\ exists remaining : Q,
       OrderCalculations.remainingAmount (CreateOrder.calculations Spec.example_form)
       = Num remaining
       /\ 0 <= remaining.
Proof.
  split; [reflexivity|]. split; [reflexivity|].
  destruct (calculations_remaining Spec.example_form eq_refl eq_refl)
    as [g [p [r [_ [_ [Hr [_ [Hpos _]]]]]]]].
  exists r. split; [exact Hr | exact Hpos].
Defined.

End PaidTotals.

(** ** The order payload *)

Section PayloadFacts.

Variable isCashCounter : Account.t -> bool.
Variable Date_toISOString : Date -> string.

Lemma textOrUndefined_some (text out : string) :
  Utils.textOrUndefined text = Some out -> out = text /\ text <> "".
Proof.
  unfold Utils.textOrUndefined. destruct (String.eqb_spec text ""); [discriminate|].
  intros H. injection H as <-. split; [reflexivity | assumption].
Qed.

Lemma isValidProduct_spec (p : OrderProduct.t) :
  Utils.isValidProduct p = true
  <-> OrderProduct.productId p <> "" /\ OrderProduct.variantId p <> "".
Proof.
  unfold Utils.isValidProduct. rewrite andb_true_iff, !negb_true_iff.
  destruct (String.eqb_spec (OrderProduct.productId p) "");
    destruct (String.eqb_spec (OrderProduct.variantId p) ""); split; intros [H1 H2];
    try discriminate; try contradiction; split; auto.
Qed.



(** X4: for a SELL order to the default (walk-in) entity, when a cash
    counter account exists, the payload holds a single payment, drawn on
    the first cash counter account, for the grand total of the lines the
    payload sends; the payments entered in the form are not sent.  In
    every other case the payments of the form are sent as they are. *)
Theorem payload_walk_in_payment (formState : OrderFormState.t) (type : OrderType)
    (accounts : list Account.t) :
  let payload :=
    Utils.convertToPayload isCashCounter Date_toISOString formState type accounts in
  (forall entity account,
      OrderFormState.entity formState = Some entity ->
      Entity.isDefault entity = true ->
      type = SELL ->
      List.find isCashCounter accounts = Some account ->
      In account accounts /\ isCashCounter account = true
      /\ CreateOrderPayload.payments payload
         = [PayloadPayment.mk (Account.id account)
              (Utils.calculateGrandTotal
                 (Utils.calculateSubTotal
                    (List.filter Utils.isValidProduct (OrderFormState.products formState)))
                 (OrderFormState.discount formState) (OrderFormState.tax formState)
                 (OrderFormState.charges formState))])
  /\ ((OrderFormState.entity formState = None
       \/ (exists entity, OrderFormState.entity formState = Some entity
                          /\ Entity.isDefault entity = false)
       \/ type <> SELL
       \/ List.find isCashCounter accounts = None) ->
      CreateOrderPayload.payments payload
      = map (fun p => PayloadPayment.mk (OrderPayment.accountId p) (OrderPayment.amount p))
          (OrderFormState.payments formState)).
Proof.
  intros payload. unfold payload, Utils.convertToPayload. cbn [CreateOrderPayload.payments].
  split.
  - intros entity account He Hd -> Hf. rewrite He, Hd, Hf. cbn [andb OrderType_eqb map].
    apply find_some in Hf. destruct Hf as [Hin Hc]. split; [exact Hin|]. split; [exact Hc|].
    reflexivity.
  - intros [He | [[entity [He Hd]] | [Ht | Hf]]].
    + rewrite He. reflexivity.
    + rewrite He, Hd. reflexivity.
    + destruct type; try contradiction; cbn [OrderType_eqb]; rewrite !andb_false_r;
        reflexivity.
    + rewrite Hf. rewrite !andb_false_r. reflexivity.
Qed.

End PayloadFacts.

Section PayloadTotal.

Variable isCashCounter : Account.t -> bool.
Variable Date_toISOString : Date -> string.

Lemma subTotal_valid_lines (products : list OrderProduct.t) :
  Forall (fun line => Utils.isValidProduct line = false ->
                      Spec.term (Spec.lineAmount line) == 0) products ->
  Spec.subTotal (List.filter Utils.isValidProduct products) == Spec.subTotal products.
Proof.
  unfold Spec.subTotal. induction 1 as [|line rest Hline _ IH]; [reflexivity|].
  cbn [List.filter]. destruct (Utils.isValidProduct line) eqn:E; cbn [map Spec.sumSafe fold_right].
  - fold (Spec.sumSafe (map Spec.lineAmount (List.filter Utils.isValidProduct rest))).
    fold (Spec.sumSafe (map Spec.lineAmount rest)). rewrite IH. reflexivity.
  - fold (Spec.sumSafe (map Spec.lineAmount rest)). rewrite IH, (Hline eq_refl). ring.
Qed.

Lemma payload_lines_sum (lines : list OrderProduct.t) :
  Spec.sumSafe
    (map (fun p => Js.mul (PayloadProduct.quantity p) (PayloadProduct.rate p))
       (map (fun p => PayloadProduct.mk (OrderProduct.variantId p) (OrderProduct.quantity p)
                        (OrderProduct.rate p)
                        (Utils.textOrUndefined (OrderProduct.description p)))
          lines))
  == Spec.subTotal lines.
Proof.
  rewrite map_map. unfold Spec.subTotal. apply sumSafe_eqv. intros li.
  cbn [PayloadProduct.quantity PayloadProduct.rate]. unfold Spec.lineAmount.
  destruct (OrderProduct.quantity li), (OrderProduct.rate li); simpl; auto. reflexivity.
Qed.

Lemma payload_charges_sum (subTotal discount : number) (charges : list OrderCharge.t) :
  Forall (fun c => OrderCharge.isPaidByBusiness c = false ->
                   OrderCharge.type c = Fixed
                   /\ Js.lt (OrderCharge.amount c) Js.zero = false) charges ->
  Spec.sumSafe
    (map PayloadCharge.amount
       (map (fun charge => PayloadCharge.mk (OrderCharge.name charge)
                             (OrderCharge.amount charge) false)
          (List.filter
             (fun charge => negb (OrderCharge.isPaidByBusiness charge)
                            && Js.gt (OrderCharge.amount charge) Js.zero)
             charges)))
  == Spec.chargeAmount subTotal discount charges.
Proof.
  unfold Spec.chargeAmount, Spec.absorbedByCounterparty.
  induction 1 as [|c rest Hc _ IH]; [reflexivity|].
  cbn [List.filter]. destruct (OrderCharge.isPaidByBusiness c) eqn:Eb; cbn [negb andb].
  - exact IH.
  - destruct (Hc eq_refl) as [Hfixed Hlt].
    destruct (Js.gt (OrderCharge.amount c) Js.zero) eqn:Egt;
      cbn [map Spec.sumSafe fold_right PayloadCharge.amount].
    + unfold Spec.sumSafe in IH. rewrite IH. unfold Spec.counterpartyTerm.
      rewrite Hfixed. reflexivity.
    + unfold Spec.sumSafe in IH. rewrite IH. unfold Spec.counterpartyTerm.
      rewrite Hfixed. destruct (OrderCharge.amount c) as [|a]; simpl; [ring|].
      unfold Js.gt, Js.lt, Js.zero in Egt, Hlt.
      apply negb_false_iff, Qle_bool_iff in Egt.
      apply negb_false_iff, Qle_bool_iff in Hlt. lra.
Qed.

Lemma numberOrUndefined_term (q : Q) :
  Spec.term (default (Num 0) (Utils.numberOrUndefined (Num q))) == q.
Proof.
  unfold Utils.numberOrUndefined, Js.truthy.
  destruct (Qeq_bool q 0) eqn:E; simpl; [|reflexivity].
  apply Qeq_bool_iff in E. rewrite E. reflexivity.
Qed.

(** X5: when discount and tax are numbers, the lines left out of the
    payload carry no amount, and every charge the counterparty absorbs
    is a fixed amount that is not negative, the grand total the form
    shows is what the parts of the payload add up to, floored at zero. *)
Theorem payload_adds_up (formState : OrderFormState.t) (type : OrderType)
    (accounts : list Account.t) :
  Js.isNaN (OrderFormState.discount formState) = false ->
  Js.isNaN (OrderFormState.tax formState) = false ->
  Forall (fun line => Utils.isValidProduct line = false ->
                      Spec.term (Spec.lineAmount line) == 0)
         (OrderFormState.products formState) ->
  Forall (fun c => OrderCharge.isPaidByBusiness c = false ->
                   OrderCharge.type c = Fixed
                   /\ Js.lt (OrderCharge.amount c) Js.zero = false)
         (OrderFormState.charges formState) ->
  exists grandTotal : Q,
    OrderCalculations.grandTotal (CreateOrder.calculations formState) = Num grandTotal
    /\ grandTotal
       == Qmax (Spec.payloadTotal
                  (Utils.convertToPayload isCashCounter Date_toISOString formState type
                     accounts)) 0.
Proof.
  intros Hd Ht Hlines Hcharges.
  unfold CreateOrder.calculations. cbn [OrderCalculations.grandTotal].
  destruct (OrderFormState.discount formState) as [|d] eqn:Ed; [discriminate Hd|].
  destruct (OrderFormState.tax formState) as [|t] eqn:Et; [discriminate Ht|].
  destruct (calculateSubTotal_sum (OrderFormState.products formState)) as [s [Hs Hseq]].
  rewrite Hs.
  destruct (calculateGrandTotal_finite s d t (OrderFormState.charges formState))
    as [g [Hg [Hgeq _]]].
  exists g. split; [exact Hg|]. rewrite Hgeq. apply Q.max_compat; [|reflexivity].
  unfold Spec.payloadTotal, Utils.convertToPayload.
  cbn [CreateOrderPayload.products CreateOrderPayload.discount CreateOrderPayload.tax
       CreateOrderPayload.charges].
  rewrite Ed, Et, payload_lines_sum, (subTotal_valid_lines _ Hlines), !numberOrUndefined_term.
  rewrite <- Hseq.
  assert (Hsent :
    Spec.sumSafe
      (map PayloadCharge.amount
         (default []
            (let entityCharges :=
               map (fun charge => PayloadCharge.mk (OrderCharge.name charge)
                                    (OrderCharge.amount charge) false)
                 (List.filter
                    (fun charge => negb (OrderCharge.isPaidByBusiness charge)
                                   && Js.gt (OrderCharge.amount charge) Js.zero)
                    (OrderFormState.charges formState)) in
             if (0 <? length entityCharges)%nat then Some entityCharges else None)))
    == Spec.chargeAmount (Num s) (Num d) (OrderFormState.charges formState)).
  { rewrite <- (payload_charges_sum (Num s) (Num d) _ Hcharges). cbv zeta.
    destruct (map _ (List.filter _ (OrderFormState.charges formState))); reflexivity. }
  cbv zeta in Hsent. rewrite Hsent. reflexivity.
Qed.

End PayloadTotal.

(** An instance of [payload_adds_up] on the example form, with no
    account a cash counter: the parts of its payload add up to the 238
    the form shows. *)
Lemma payload_adds_up_witness :
  Js.isNaN (OrderFormState.discount Spec.example_form) = false
  /\ Js.isNaN (OrderFormState.tax Spec.example_form) = false
  /\ exists grandTotal : Q,
       OrderCalculations.grandTotal (CreateOrder.calculations Spec.example_form)
       = Num grandTotal
       /\ grandTotal
          == Qmax (Spec.payloadTotal
                     (Utils.convertToPayload (fun _ => false) (fun _ => "2026-01-01")
                        Spec.example_form SELL [])) 0.
Proof.
  split; [reflexivity|]. split; [reflexivity|].
  apply (payload_adds_up (fun _ => false) (fun _ => "2026-01-01") Spec.example_form SELL []);
    try reflexivity.
  - repeat constructor; simpl; try discriminate; intros _; reflexivity.
  - repeat constructor; simpl; try discriminate; intros _; reflexivity.
Defined.

(** ** The product card *)

Section CartHandlers.

Import ProductDetails.

Lemma filteri_from_after {A} (l : list A) :
  forall k index, (index < k)%nat ->
    Js.filteri_from (fun i => negb (Nat.eqb i index)) l k = l.
Proof.
  induction l as [|x l IH]; intros k index H; simpl; [reflexivity|].
  destruct (Nat.eqb_spec k index) as [E|E]; [lia|]. simpl.
  rewrite IH by lia. reflexivity.
Qed.

Lemma filteri_from_remove {A} (l : list A) :
  forall k index, (k <= index)%nat ->
    Js.filteri_from (fun i => negb (Nat.eqb i index)) l k
    = firstn (index - k) l ++ skipn (S (index - k)) l.
Proof.
  induction l as [|x l IH]; intros k index H.
  - rewrite firstn_nil, skipn_nil. reflexivity.
  - cbn [Js.filteri_from]. destruct (Nat.eqb_spec k index) as [E|E]; cbn [negb].
    + subst k. rewrite Nat.sub_diag. cbn [firstn skipn app].
      apply filteri_from_after. lia.
    + rewrite IH by lia. replace (index - k)%nat with (S (index - S k)) by lia.
      reflexivity.
Qed.

(** X6: removing a line never leaves the cart without a row: the only
    row of a cart is replaced by an empty slot whatever the index is;
    otherwise the row at the index is dropped and the others keep their
    order, and an index past the end removes nothing.  Removing the
    empty slot that "Add Item" has just put at the end of a cart gives
    the cart back. *)
Theorem remove_product_keeps_a_row (addedProducts : list OrderProduct.t) (index : nat) :
  let updated := handleRemoveProduct addedProducts index in
  (addedProducts <> [] -> updated <> [])
  /\ (length addedProducts = 1%nat -> updated = [emptySlot])
  /\ (length addedProducts <> 1%nat -> (index < length addedProducts)%nat ->
      updated = firstn index addedProducts ++ skipn (S index) addedProducts
      /\ S (length updated) = length addedProducts)
  /\ (length addedProducts <> 1%nat -> (length addedProducts <= index)%nat ->
      updated = addedProducts)
  /\ (addedProducts <> [] ->
      handleRemoveProduct (handleAddEmptySlot addedProducts) (length addedProducts)
      = addedProducts).
Proof.
  intros updated. unfold updated, handleRemoveProduct, Js.filteri.
  assert (Hslot : addedProducts <> [] ->
    (if Nat.eqb (length (handleAddEmptySlot addedProducts)) 1 then [emptySlot]
     else Js.filteri_from (fun i => negb (Nat.eqb i (length addedProducts)))
            (handleAddEmptySlot addedProducts) 0)
    = addedProducts).
  { intros Hne. unfold handleAddEmptySlot. rewrite length_app. cbn [length].
    destruct (Nat.eqb_spec (length addedProducts + 1) 1) as [E|E].
    - destruct addedProducts; [contradiction | simpl in E; lia].
    - rewrite filteri_from_remove by lia. rewrite Nat.sub_0_r.
      rewrite firstn_app, Nat.sub_diag, firstn_all. cbn [firstn].
      rewrite skipn_all2 by (rewrite length_app; simpl; lia).
      rewrite !app_nil_r. reflexivity. }
  assert (Hdrop :
    Js.filteri_from (fun i => negb (Nat.eqb i index)) addedProducts 0
    = firstn index addedProducts ++ skipn (S index) addedProducts).
  { rewrite filteri_from_remove by lia. rewrite Nat.sub_0_r. reflexivity. }
  destruct (Nat.eqb_spec (length addedProducts) 1) as [E|E].
  - split; [discriminate|]. split; [reflexivity|].
    split; [intros H; contradiction|]. split; [intros H; contradiction | exact Hslot].
  - rewrite Hdrop. split; [|split; [|split; [|split; [|exact Hslot]]]].
    + intros Hne Hnil. apply (f_equal (@length _)) in Hnil.
      rewrite length_app, length_firstn, length_skipn in Hnil. simpl in Hnil.
      destruct addedProducts as [|a [|b rest]]; simpl in *; try contradiction; lia.
    + intros H. contradiction.
    + intros _ Hlt. split; [reflexivity|].
      rewrite length_app, length_firstn, length_skipn. lia.
    + intros _ Hge. rewrite firstn_all2 by lia. rewrite skipn_all2 by lia.
      apply app_nil_r.
Qed.

Lemma mapi_from_out_of_range {A} (f g : A -> A) (l : list A) (index : nat) :
  forall i, (i + length l <= index)%nat ->
    mapi_from (fun item j => if Nat.eqb j index then f item else g item) l i = map g l.
Proof.
  induction l as [|x l IH]; intros i H; simpl in *; [reflexivity|].
  destruct (Nat.eqb_spec i index) as [E|E]; [lia|]. rewrite IH by lia. reflexivity.
Qed.

Lemma updateProductAtIndex_out_of_range addedProducts index updates :
  (length addedProducts <= index)%nat ->
  updateProductAtIndex addedProducts index updates = addedProducts.
Proof.
  intros H. unfold updateProductAtIndex.
  rewrite (mapi_from_out_of_range (fun item => spread item updates) (fun item => item))
    by (simpl; lia).
  apply map_id.
Qed.

Lemma Math_max_zero_left (x : number) :
  exists r : Q,
    Js.Math_max Js.zero (Js.or_else x Js.zero) = Num r
    /\ r == Qmax 0 (Spec.term x) /\ 0 <= r.
Proof.
  destruct (or_else_zero_term x) as [q [Hq Hterm]]. rewrite Hq.
  unfold Js.Math_max, Js.zero. destruct (Qle_bool 0 q) eqn:E.
  - apply Qle_bool_iff in E. exists q. split; [reflexivity|]. split; [|exact E].
    rewrite <- Hterm. symmetry. apply Q.max_r. exact E.
  - assert (H : ~ 0 <= q) by (rewrite <- Qle_bool_iff, E; discriminate).
    exists 0. split; [reflexivity|]. split; [|lra].
    rewrite <- Hterm. symmetry. apply Q.max_l. lra.
Qed.

(** X7: typing a rate sets the rate of that row to the number typed,
    with NaN and negative values replaced by zero, so the rate of the
    row is a number that is not negative afterwards; quantity, product,
    variant and description of the row and every other row are
    unchanged, and so is the whole cart when the index is past its end. *)
Theorem rate_change_frame (addedProducts : list OrderProduct.t) (index : nat)
    (newRate : number) :
  let updated := handleRateChange addedProducts index newRate in
  length updated = length addedProducts
  /\ (forall j, j <> index -> nth_error updated j = nth_error addedProducts j)
  /\ (forall item, nth_error addedProducts index = Some item ->
        exists (item' : OrderProduct.t) (r : Q),
          nth_error updated index = Some item'
          /\ Spec.sameLine item' item
          /\ OrderProduct.quantity item' = OrderProduct.quantity item
          /\ OrderProduct.rate item' = Num r
          /\ r == Qmax 0 (Spec.term newRate) /\ 0 <= r)
  /\ ((length addedProducts <= index)%nat -> updated = addedProducts).
Proof.
  intros updated. unfold updated, handleRateChange.
  split; [apply mapi_from_length|].
  split; [intros j Hj; apply updateProductAtIndex_other; exact Hj|].
  split; [|apply updateProductAtIndex_out_of_range].
  intros item Hitem. rewrite (updateProductAtIndex_same _ _ _ _ Hitem).
  destruct (Math_max_zero_left newRate) as [r [Hr [Hmax Hpos]]]. rewrite Hr.
  eexists; exists r. split; [reflexivity|]. split; [repeat split|].
  split; [reflexivity|]. split; [reflexivity|]. split; assumption.
Qed.

Lemma findIndex_from_some {A} (test : A -> bool) (l : list A) :
  forall k i, Js.findIndex_from test l k = Some i ->
    (k <= i)%nat
    /\ (exists x, nth_error l (i - k) = Some x /\ test x = true)
    /\ (forall j y, (j < i - k)%nat -> nth_error l j = Some y -> test y = false).
Proof.
  induction l as [|x l IH]; intros k i H; simpl in H; [discriminate|].
  destruct (test x) eqn:E.
  - injection H as <-. rewrite Nat.sub_diag. split; [lia|]. split.
    + exists x. split; [reflexivity | exact E].
    + intros j y Hj. lia.
  - destruct (IH _ _ H) as [Hle [[y [Hy Hty]] Hbefore]]. split; [lia|].
    replace (i - k)%nat with (S (i - S k)) by lia. split.
    + exists y. split; [exact Hy | exact Hty].
    + intros j z Hj Hz. destruct j as [|j]; simpl in Hz.
      * injection Hz as <-. exact E.
      * apply (Hbefore j z); [lia | exact Hz].
Qed.

Lemma findIndex_from_none {A} (test : A -> bool) (l : list A) :
  forall k, Js.findIndex_from test l k = None -> Forall (fun x => test x = false) l.
Proof.
  induction l as [|x l IH]; intros k H; simpl in H; [constructor|].
  destruct (test x) eqn:E; [discriminate|]. constructor; [exact E | exact (IH _ H)].
Qed.

Lemma or_else_zero_eqv (q : Q) : Js.eqv (Js.or_else (Num q) Js.zero) (Num q).
Proof.
  unfold Js.or_else, Js.truthy. destruct (Qeq_bool q 0) eqn:E; simpl; [|reflexivity].
  apply Qeq_bool_iff in E. symmetry. exact E.
Qed.

(** X8: picking a product from the search puts one line for it in the
    cart, with quantity 1, an empty description and the buy price (BUY)
    or sell price (otherwise) of the variant picked, the first variant
    of the product when none is picked.  The line takes the first row
    that has no product, and is appended when every row has one; no row
    with a product is changed or moved.  With no variant at all the cart
    is left as it is. *)
Theorem global_select_fills_first_slot (type : OrderType)
    (addedProducts : list OrderProduct.t) (product : Product.t)
    (variant : option ProductVariant.t) :
  let updated := handleGlobalSelect type addedProducts product variant in
  let picked :=
    match variant with
    | Some v => Some v
    | None => match Product.variants product with Some vs => head vs | None => None end
    end in
  match picked with
  | None => updated = addedProducts
  | Some v =>
      exists (i : nat) (line : OrderProduct.t),
        nth_error updated i = Some line
        /\ OrderProduct.productId line = Product.id product
        /\ OrderProduct.variantId line = ProductVariant.id v
        /\ OrderProduct.quantity line = Num 1
        /\ OrderProduct.description line = ""
        /\ Js.eqv (OrderProduct.rate line)
             (Num (if OrderType_eqb type BUY then ProductVariant.buyPrice v
                   else ProductVariant.price v))
        /\ (forall j item, (j < i)%nat -> nth_error addedProducts j = Some item ->
                           OrderProduct.productId item <> "")
        /\ (forall j item, j <> i -> nth_error addedProducts j = Some item ->
                           nth_error updated j = Some item)
        /\ ((i < length addedProducts)%nat ->
            length updated = length addedProducts
            /\ exists before, nth_error addedProducts i = Some before
                              /\ OrderProduct.productId before = "")
        /\ ((length addedProducts <= i)%nat -> updated = addedProducts ++ [line])
  end.
Proof.
  intros updated picked. unfold updated, picked, handleGlobalSelect. clear updated picked.
  set (myVar := match variant with
                | Some v => Some v
                | None => match Product.variants product with
                          | Some (v :: _) => Some v
                          | _ => None
                          end
                end).
  assert (Hpick : match variant with
                  | Some v => Some v
                  | None => match Product.variants product with
                            | Some vs => head vs
                            | None => None
                            end
                  end = myVar).
  { unfold myVar. destruct variant; [reflexivity|].
    destruct (Product.variants product) as [[|v vs]|]; reflexivity. }
  rewrite Hpick. destruct myVar as [v|]; [|reflexivity].
  set (price := if OrderType_eqb type BUY
                then Js.or_else (Num (ProductVariant.buyPrice v)) Js.zero
                else Js.or_else (Num (ProductVariant.price v)) Js.zero).
  assert (Hprice : Js.eqv price (Num (if OrderType_eqb type BUY then ProductVariant.buyPrice v
                                      else ProductVariant.price v))).
  { unfold price. destruct (OrderType_eqb type BUY); apply or_else_zero_eqv. }
  set (newProduct := OrderProduct.mk (Product.id product) (ProductVariant.id v) price (Num 1) "").
  assert (Hspread : forall item, spread item (allFields newProduct) = newProduct).
  { intros item. reflexivity. }
  assert (Hempty : forall item, String.eqb (OrderProduct.productId item) "" = false ->
                                OrderProduct.productId item <> "").
  { intros item H. apply String.eqb_neq. exact H. }
  destruct (Js.findIndex _ addedProducts) as [i|] eqn:Efind.
  - unfold Js.findIndex in Efind. apply findIndex_from_some in Efind.
    destruct Efind as [_ [[before [Hbefore Htest]] Hfirst]]. rewrite Nat.sub_0_r in *.
    exists i, newProduct.
    split; [rewrite (updateProductAtIndex_same _ _ _ _ Hbefore), Hspread; reflexivity|].
    do 4 (split; [reflexivity|]). split; [exact Hprice|].
    split; [intros j item Hj Hitem; apply Hempty, (Hfirst j item Hj Hitem)|].
    split; [intros j item Hj Hitem; rewrite updateProductAtIndex_other by exact Hj;
            exact Hitem|].
    split.
    + intros _. split; [apply mapi_from_length|]. exists before. split; [exact Hbefore|].
      apply String.eqb_eq. exact Htest.
    + intros Hge. apply nth_error_None in Hge. congruence.
  - unfold Js.findIndex in Efind. apply findIndex_from_none in Efind.
    exists (length addedProducts), newProduct.
    split; [rewrite nth_error_app2 by lia; rewrite Nat.sub_diag; reflexivity|].
    do 4 (split; [reflexivity|]). split; [exact Hprice|].
    split.
    { intros j item _ Hitem. apply Hempty.
      apply nth_error_In in Hitem. rewrite List.Forall_forall in Efind.
      apply (Efind item Hitem). }
    split.
    { intros j item _ Hitem. rewrite nth_error_app1; [exact Hitem|].
      apply nth_error_Some. congruence. }
    split; [lia | reflexivity].
Qed.

Lemma reduce_unguarded {A} (f : A -> number) (l : list A) :
  forall acc : number,
    (Forall (fun x => Js.isNaN (f x) = false) l ->
     forall a, acc = Num a ->
       exists t, fold_left (fun acc x => Js.add acc (f x)) l acc = Num t
                 /\ t == a + Spec.sumSafe (map f l))
    /\ (Exists (fun x => f x = NaN) l \/ acc = NaN ->
        fold_left (fun acc x => Js.add acc (f x)) l acc = NaN).
Proof.
  induction l as [|x l IH]; intros acc; simpl.
  - split.
    + intros _ a ->. exists a. split; [reflexivity | ring].
    + intros [H | H]; [inversion H | exact H].
  - destruct (IH (Js.add acc (f x))) as [IHfin IHnan]. split.
    + intros Hall a ->. inversion Hall as [|? ? Hx Hrest]; subst.
      destruct (f x) as [|q] eqn:E; [discriminate Hx|].
      destruct (IHfin Hrest (a + q) eq_refl) as [t [Ht Hsum]].
      exists t. split; [exact Ht|]. rewrite Hsum. simpl. ring.
    + intros [H | H]; apply IHnan.
      * inversion H as [? ? Hx | ? ? Hrest]; subst.
        -- right. rewrite Hx. destruct acc; reflexivity.
        -- left. exact Hrest.
      * right. rewrite H. reflexivity.
Qed.

(** X9: the total of the product card is the subtotal of the order
    summary as long as every row has a number for quantity and rate; as
    soon as one row has not, the card's total is NaN while the subtotal
    still is a number, that row counted as zero. *)
Theorem card_total_unguarded (addedProducts : list OrderProduct.t) :
  exists s : Q,
    Utils.calculateSubTotal addedProducts = Num s
    /\ (Forall (fun item => Js.isNaN (Spec.lineAmount item) = false) addedProducts ->
        Js.eqv (totalAmount addedProducts) (Num s))
    /\ (Exists (fun item => Spec.lineAmount item = NaN) addedProducts ->
        totalAmount addedProducts = NaN).
Proof.
  destruct (calculateSubTotal_sum addedProducts) as [s [Hs Hsum]].
  exists s. split; [exact Hs|].
  assert (Hline : forall item,
             Js.mul (OrderProduct.quantity item) (OrderProduct.rate item)
             = Spec.lineAmount item).
  { intros item. unfold Spec.lineAmount.
    destruct (OrderProduct.quantity item), (OrderProduct.rate item); reflexivity. }
  assert (Htotal : totalAmount addedProducts
                   = fold_left (fun acc x => Js.add acc (Spec.lineAmount x)) addedProducts
                       Js.zero).
  { unfold totalAmount. apply fold_left_pointwise. intros acc item. rewrite Hline.
    reflexivity. }
  rewrite Htotal. destruct (reduce_unguarded Spec.lineAmount addedProducts Js.zero)
    as [Hfin Hnan].
  split.
  - intros Hall. destruct (Hfin Hall 0 eq_refl) as [t [Ht Ht']]. rewrite Ht. simpl.
    rewrite Ht', Hsum. unfold Spec.subTotal. ring.
  - intros H. apply Hnan. left. exact H.
Qed.

Lemma spread_twice (item : OrderProduct.t) (updates : Updates.t) :
  spread (spread item updates) updates = spread item updates.
Proof.
  destruct updates as [[p|] [v|] [r|] [q|] [d|]]; reflexivity.
Qed.

Lemma updateProductAtIndex_twice addedProducts index updates :
  updateProductAtIndex (updateProductAtIndex addedProducts index updates) index updates
  = updateProductAtIndex addedProducts index updates.
Proof.
  unfold updateProductAtIndex. generalize 0%nat.
  induction addedProducts as [|x l IH]; intros i; simpl; [reflexivity|].
  rewrite IH. destruct (Nat.eqb i index); [rewrite spread_twice|]; reflexivity.
Qed.

Lemma quantity_settled (type : OrderType) (variant : option ProductVariant.t)
    (newQuantity : number) :
  exists q : number,
    Updates.quantity (quantityUpdates type variant newQuantity) = Some q
    /\ quantityUpdates type variant q = quantityUpdates type variant newQuantity.
Proof.
  assert (Hone : forall q0 : Q, 1 <= q0 ->
            Js.Math_max Js.one (Js.or_else (Num q0) Js.one) = Num q0).
  { intros q0 H. unfold Js.or_else, Js.truthy.
    destruct (Qeq_bool q0 0) eqn:E; [apply Qeq_bool_iff in E; lra|]. simpl.
    unfold Js.Math_max, Js.one.
    destruct (Qle_bool 1 q0) eqn:E1; [reflexivity|].
    assert (~ 1 <= q0) by (rewrite <- Qle_bool_iff, E1; discriminate). contradiction. }
  destruct (floor_at_one newQuantity) as [q0 [Hq0 [_ Hge]]].
  assert (Hother : exists q : number,
            Some (Js.Math_max Js.one (Js.or_else newQuantity Js.one)) = Some q
            /\ Updates.mk None None None (Some (Js.Math_max Js.one (Js.or_else q Js.one))) None
               = Updates.mk None None None
                   (Some (Js.Math_max Js.one (Js.or_else newQuantity Js.one))) None).
  { exists (Num q0). rewrite Hq0, (Hone q0 Hge). split; reflexivity. }
  unfold quantityUpdates.
  destruct type; try (destruct variant; exact Hother).
  destruct variant as [v|]; [|exact Hother]. cbn [Updates.quantity].
  destruct (getVariantStock_some v) as [stock [Hstock _]]. rewrite Hstock, Hq0.
  eexists. split; [reflexivity|]. f_equal. f_equal.
  unfold Js.Math_min at 2 3. destruct (Qle_bool q0 stock) eqn:E.
  - rewrite (Hone q0 Hge). unfold Js.Math_min. rewrite E. reflexivity.
  - assert (Hlt : stock < q0).
    { apply Qnot_le_lt. rewrite <- Qle_bool_iff, E. discriminate. }
    destruct (Qle_bool 1 stock) eqn:E1.
    + apply Qle_bool_iff in E1. rewrite (Hone stock E1). unfold Js.Math_min.
      destruct (Qle_bool stock stock); reflexivity.
    + assert (Hs : stock < 1).
      { apply Qnot_le_lt. rewrite <- Qle_bool_iff, E1. discriminate. }
      destruct (floor_at_one (Num stock)) as [q1 [Hq1 [Hmax1 _]]]. rewrite Hq1.
      assert (Hq1one : q1 == 1).
      { rewrite Hmax1. apply Q.max_l. unfold Spec.requested.
        destruct (Qeq_bool stock 0); lra. }
      unfold Js.Math_min. destruct (Qle_bool q1 stock) eqn:E2; [|reflexivity].
      apply Qle_bool_iff in E2. lra.
Qed.

(** X10: the quantity the stepper settles on is stable: asking the
    handler for the quantity it has just set on a row, for the same
    order type and variant, leaves the cart as it is. *)
Theorem quantity_change_settles (type : OrderType) (variant : option ProductVariant.t)
    (addedProducts : list OrderProduct.t) (index : nat) (newQuantity : number)
    (item' : OrderProduct.t) :
  let updated := handleQuantityChange type variant addedProducts index newQuantity in
  nth_error updated index = Some item' ->
  handleQuantityChange type variant updated index (OrderProduct.quantity item') = updated.
Proof.
  intros updated Hitem. unfold updated, handleQuantityChange in *. clear updated.
  destruct (quantity_settled type variant newQuantity) as [q [Hq Hsame]].
  assert (Hquantity : OrderProduct.quantity item' = q).
  { unfold updateProductAtIndex in Hitem. rewrite mapi_from_nth in Hitem.
    destruct (nth_error addedProducts index) as [item|]; [|discriminate].
    simpl in Hitem. rewrite Nat.eqb_refl in Hitem. injection Hitem as <-.
    unfold spread. cbn [OrderProduct.quantity]. rewrite Hq. reflexivity. }
  rewrite Hquantity, Hsame. apply updateProductAtIndex_twice.
Qed.

End CartHandlers.

(** An instance of [quantity_change_settles]: a SELL row of the example
    variant asked for 40 units settles on the 15 in stock, and asking
    for that again changes nothing. *)
Lemma quantity_change_settles_witness :
  let item := OrderProduct.mk "p1" "v1" (Num 99) (Num 2) "gift" in
  let updated :=
    ProductDetails.handleQuantityChange SELL (Some Spec.example_variant) [item] 0 (Num 40) in
  nth_error updated 0 = Some (OrderProduct.mk "p1" "v1" (Num 15) (Num 15) "gift")
  /\ ProductDetails.handleQuantityChange SELL (Some Spec.example_variant) updated 0 (Num 15)
     = updated.
Proof.
  intros item updated. split; [vm_compute; reflexivity|].
  apply (quantity_change_settles SELL (Some Spec.example_variant) [item] 0 (Num 40)
           (OrderProduct.mk "p1" "v1" (Num 15) (Num 15) "gift")).
  vm_compute. reflexivity.
Defined.

(** ** The estimated price stays within the prices of the lots *)

Section PriceBounds.

Import ProductDetails.

Lemma getVariantEstimatedPrice_in_stock (variant : ProductVariant.t) (quantity : Q) :
  0 < quantity -> quantity <= Spec.availableStock variant ->
  exists (lots : list StockFiFoQueue.t) (price : Q),
    ProductVariant.stock_fifo_queue variant = Some lots
    /\ getVariantEstimatedPrice variant (Num quantity) = Num price
    /\ Spec.roundedTo 4 (Spec.cost (Spec.walk lots quantity) / quantity) price
    /\ Spec.taken (Spec.walk lots quantity) == quantity.
Proof.
  intros Hpos Hle. unfold getVariantEstimatedPrice.
  destruct (getVariantStock_some variant) as [stock [Hstock Hseq]]. rewrite Hstock.
  unfold Spec.availableStock in *.
  destruct (ProductVariant.stock_fifo_queue variant) as [lots|]; [|lra].
  exists lots. unfold Js.le at 1. unfold Js.gt, Js.lt, Js.zero at 1.
  assert (Elow : Qle_bool quantity 0 = false) by (apply Qle_bool_false; exact Hpos).
  assert (Ehigh : Qle_bool quantity stock = true) by (apply Qle_bool_iff; lra).
  rewrite Elow, Ehigh. cbn [orb negb].
  destruct (priceLoop_walk lots quantity 0 Hpos) as [r' [t' [Hloop [Ht Hr]]]].
  unfold Js.zero. rewrite Hloop.
  assert (Hdiv : Js.div (Num t') (Num quantity) = Num (t' / quantity)).
  { unfold Js.div. destruct (Qeq_bool quantity 0) eqn:E; [|reflexivity].
    apply Qeq_bool_iff in E. lra. }
  rewrite Hdiv.
  destruct (toFixed_rounds 4 (t' / quantity) (Spec.cost (Spec.walk lots quantity) / quantity))
    as [price [Hprice Hround]].
  { rewrite Ht. field. lra. }
  exists price. split; [reflexivity|]. split; [exact Hprice|]. split; [exact Hround|].
  apply walk_covers; [lra|]. pose proof (lotsAvailable_le_usable lots). lra.
Qed.

Lemma walk_cost_bounds (lo hi : Q) (lots : list StockFiFoQueue.t) :
  Forall (fun lot => 0 < StockFiFoQueue.availableStock lot ->
                     lo <= StockFiFoQueue.estimatedPrice lot <= hi) lots ->
  forall needed : Q,
    lo * Spec.taken (Spec.walk lots needed) <= Spec.cost (Spec.walk lots needed)
    /\ Spec.cost (Spec.walk lots needed) <= hi * Spec.taken (Spec.walk lots needed).
Proof.
  induction 1 as [|lot rest Hlot _ IH]; intros needed; cbn [Spec.walk].
  - simpl. lra.
  - destruct (Qle_bool needed 0) eqn:E; [simpl; lra|]. apply Qle_bool_false in E.
    cbn [Spec.cost Spec.taken fold_right fst snd].
    fold (Spec.cost (Spec.walk rest (needed - Qmin (Spec.usable lot) needed))).
    fold (Spec.taken (Spec.walk rest (needed - Qmin (Spec.usable lot) needed))).
    destruct (IH (needed - Qmin (Spec.usable lot) needed)) as [IHlo IHhi].
    set (take := Qmin (Spec.usable lot) needed) in *.
    set (price := StockFiFoQueue.estimatedPrice lot) in *.
    assert (Htake : take == 0 \/ (0 < take /\ lo <= price <= hi)).
    { destruct (Qlt_le_dec 0 (StockFiFoQueue.availableStock lot)) as [Hs|Hs].
      - right. split; [|exact (Hlot Hs)]. unfold take.
        rewrite (usable_stocked lot Hs).
        destruct (Q.min_spec (StockFiFoQueue.availableStock lot) needed)
          as [[_ Heq] | [_ Heq]]; rewrite Heq; lra.
      - left. unfold take. rewrite (usable_empty lot Hs). apply Q.min_l. lra. }
    destruct Htake as [Hz | [Hp [Hlo Hhi]]].
    + assert (H0 : take * price == 0) by (rewrite Hz; ring).
      assert (H1 : lo * take == 0) by (rewrite Hz; ring).
      assert (H2 : hi * take == 0) by (rewrite Hz; ring).
      split; lra.
    + assert (H1 : 0 <= take * (price - lo)) by (apply Qmult_le_0_compat; lra).
      assert (H2 : 0 <= take * (hi - price)) by (apply Qmult_le_0_compat; lra).
      lra.
Qed.

(** X11: for a quantity that is positive and within the stock of the
    variant, the estimated price lies between the lowest and the highest
    price of the lots that have stock, up to the half unit in the fourth
    decimal that rounding can add. *)
Theorem price_within_lot_prices (variant : ProductVariant.t) (quantity lo hi : Q) :
  0 < quantity -> quantity <= Spec.availableStock variant ->
  (forall lots lot, ProductVariant.stock_fifo_queue variant = Some lots -> In lot lots ->
                    0 < StockFiFoQueue.availableStock lot ->
                    lo <= StockFiFoQueue.estimatedPrice lot <= hi) ->
  exists price : Q,
    getVariantEstimatedPrice variant (Num quantity) = Num price
    /\ lo - (1 # 20000) <= price <= hi + (1 # 20000).
Proof.
  intros Hpos Hle Hprices.
  destruct (getVariantEstimatedPrice_in_stock variant quantity Hpos Hle)
    as [lots [price [Hlots [Hprice [[n [Hn Hnear]] Htaken]]]]].
  exists price. split; [exact Hprice|].
  assert (Hall : Forall (fun lot => 0 < StockFiFoQueue.availableStock lot ->
                                    lo <= StockFiFoQueue.estimatedPrice lot <= hi) lots).
  { apply List.Forall_forall. intros lot Hin. exact (Hprices lots lot Hlots Hin). }
  destruct (walk_cost_bounds lo hi lots Hall quantity) as [Hlo Hhi].
  rewrite Htaken in Hlo, Hhi.
  set (cost := Spec.cost (Spec.walk lots quantity)) in *.
  assert (Hpow : Js.pow10 4 == 10000) by reflexivity.
  rewrite Hpow in Hn, Hnear.
  assert (Hexact : lo <= cost / quantity <= hi).
  { split.
    - apply Qle_shift_div_l; [exact Hpos | lra].
    - apply Qle_shift_div_r; [exact Hpos | lra]. }
  assert (Hp : price * 10000 == inject_Z n) by (rewrite Hn; field).
  lra.
Qed.

End PriceBounds.

(** An instance of [price_within_lot_prices]: eight units of the example
    variant, whose lots are priced 10 and 12. *)
Lemma price_within_lot_prices_witness :
  0 < 8 /\ 8 <= Spec.availableStock Spec.example_variant
  /\ exists price : Q,
       ProductDetails.getVariantEstimatedPrice Spec.example_variant (Num 8) = Num price
       /\ 10 - (1 # 20000) <= price <= 12 + (1 # 20000).
Proof.
  assert (H1 : 0 < 8) by reflexivity.
  assert (H2 : 8 <= Spec.availableStock Spec.example_variant) by (vm_compute; discriminate).
  split; [exact H1|]. split; [exact H2|].
  apply (price_within_lot_prices Spec.example_variant 8 10 12 H1 H2).
  intros lots lot Hlots Hin _. injection Hlots as <-.
  destruct Hin as [<- | [<- | []]]; vm_compute; split; discriminate.
Defined.

(** ** The calculation card *)

Section CalculationCard.

Import CalculationSelector.



Lemma div_positive (a s : Q) :
  0 < s -> Js.mul (Js.div (Num a) (Num s)) Js.hundred = Num (a / s * 100).
Proof.
  intros H. unfold Js.div. destruct (Qeq_bool s 0) eqn:E; [|reflexivity].
  apply Qeq_bool_iff in E. lra.
Qed.

Lemma gt_zero_number (x : number) :
  Js.gt x Js.zero = true -> exists q : Q, x = Num q /\ 0 < q.
Proof.
  destruct x as [|q]; [discriminate|]. unfold Js.gt, Js.lt, Js.zero. intros H.
  exists q. split; [reflexivity|]. apply negb_Qle_bool. exact H.
Qed.

Lemma synced_fixed (s : Q) (amount percentage : number) :
  0 < s ->
  Spec.synced s Fixed amount percentage
    (if Js.gt amount Js.zero then amount else amount)
    (if Js.gt amount Js.zero then Js.mul (Js.div amount (Num s)) Js.hundred else percentage).
Proof.
  intros Hs. unfold Spec.synced, Spec.active.
  destruct (Js.gt amount Js.zero) eqn:E; split; try reflexivity; [|split; reflexivity].
  destruct (gt_zero_number _ E) as [a [-> Ha]]. rewrite (div_positive a s Hs).
  exists a, (a / s * 100). split; [reflexivity|]. split; [reflexivity|]. field. lra.
Qed.

Lemma synced_percentage (s : Q) (amount percentage : number) :
  Spec.synced s Percentage amount percentage
    (if Js.gt percentage Js.zero then Js.div (Js.mul (Num s) percentage) Js.hundred
     else amount)
    (if Js.gt percentage Js.zero then percentage else percentage).
Proof.
  unfold Spec.synced, Spec.active.
  destruct (Js.gt percentage Js.zero) eqn:E; split; try reflexivity; [|split; reflexivity].
  destruct (gt_zero_number _ E) as [p [-> Hp]].
  exists (s * p / 100), p. split; [reflexivity|]. split; [reflexivity|]. field.
Qed.

Lemma syncCharge_synced (s : Q) (c : OrderCharge.t) :
  0 < s ->
  let c' := syncCharge (Num s) c in
  OrderCharge.id c' = OrderCharge.id c
  /\ OrderCharge.name c' = OrderCharge.name c
  /\ OrderCharge.type c' = OrderCharge.type c
  /\ OrderCharge.isPaidByBusiness c' = OrderCharge.isPaidByBusiness c
  /\ Spec.synced s (OrderCharge.type c) (OrderCharge.amount c) (OrderCharge.percentage c)
       (OrderCharge.amount c') (OrderCharge.percentage c').
Proof.
  intros Hs c'. unfold c', syncCharge. destruct (OrderCharge.type c) eqn:Etype.
  - pose proof (synced_fixed s (OrderCharge.amount c) (OrderCharge.percentage c) Hs) as H.
    destruct (Js.gt (OrderCharge.amount c) Js.zero); cbn; rewrite ?Etype; repeat split;
      try reflexivity; apply H.
  - pose proof (synced_percentage s (OrderCharge.amount c) (OrderCharge.percentage c)) as H.
    destruct (Js.gt (OrderCharge.percentage c) Js.zero); cbn; rewrite ?Etype; repeat split;
      try reflexivity; apply H.
Qed.

Lemma syncOnSubTotal_same (s : Q) (st : OrderFormState.t) :
  syncOnSubTotal (Num s) (Num s) st = (st, Num s).
Proof.
  unfold syncOnSubTotal. cbn [Js.strict_ne]. rewrite Qeq_bool_refl. reflexivity.
Qed.

(** X13: the effect that follows the subtotal runs once per change: run
    again on its own result it changes nothing.  It does nothing unless
    the subtotal has changed and is above zero; when it runs, it
    remembers the subtotal and brings discount, tax and every charge in
    step with it, keeping for each the field the user edits (the amount
    when fixed, the percentage otherwise) and recomputing the other one
    when the edited field is above zero; kinds, names and the rest of
    the form are untouched. *)
Theorem sync_on_subtotal (prevSubTotal subTotal : number) (st : OrderFormState.t) :
  let st' := fst (syncOnSubTotal prevSubTotal subTotal st) in
  let prev' := snd (syncOnSubTotal prevSubTotal subTotal st) in
  syncOnSubTotal prev' subTotal st' = (st', prev')
  /\ (Js.strict_ne prevSubTotal subTotal && Js.gt subTotal Js.zero = false ->
      st' = st /\ prev' = prevSubTotal)
  /\ (forall s : Q,
        Js.strict_ne prevSubTotal subTotal = true -> subTotal = Num s -> 0 < s ->
        prev' = subTotal
        /\ OrderFormState.entity st' = OrderFormState.entity st
        /\ OrderFormState.products st' = OrderFormState.products st
        /\ OrderFormState.description st' = OrderFormState.description st
        /\ OrderFormState.orderDate st' = OrderFormState.orderDate st
        /\ OrderFormState.payments st' = OrderFormState.payments st
        /\ OrderFormState.isPublic st' = OrderFormState.isPublic st
        /\ OrderFormState.discountType st' = OrderFormState.discountType st
        /\ OrderFormState.taxType st' = OrderFormState.taxType st
        /\ Spec.synced s (OrderFormState.discountType st)
             (OrderFormState.discount st) (OrderFormState.discountPercentage st)
             (OrderFormState.discount st') (OrderFormState.discountPercentage st')
        /\ Spec.synced s (OrderFormState.taxType st)
             (OrderFormState.tax st) (OrderFormState.taxPercentage st)
             (OrderFormState.tax st') (OrderFormState.taxPercentage st')
        /\ Forall2
             (fun c c' =>
                OrderCharge.id c' = OrderCharge.id c
                /\ OrderCharge.name c' = OrderCharge.name c
                /\ OrderCharge.type c' = OrderCharge.type c
                /\ OrderCharge.isPaidByBusiness c' = OrderCharge.isPaidByBusiness c
                /\ Spec.synced s (OrderCharge.type c)
                     (OrderCharge.amount c) (OrderCharge.percentage c)
                     (OrderCharge.amount c') (OrderCharge.percentage c'))
             (OrderFormState.charges st) (OrderFormState.charges st')).
Proof.
  intros st' prev'. unfold st', prev'. clear st' prev'.
  destruct (syncOnSubTotal prevSubTotal subTotal st) as [st' prev'] eqn:Estep.
  cbn [fst snd]. unfold syncOnSubTotal in Estep.
  destruct (Js.strict_ne prevSubTotal subTotal && Js.gt subTotal Js.zero) eqn:Efire.
  - apply andb_true_iff in Efire. destruct Efire as [Hne Hgt].
    destruct (gt_zero_number _ Hgt) as [s [-> Hs]].
    assert (Hcharges :
      Forall2
        (fun c c' =>
           OrderCharge.id c' = OrderCharge.id c
           /\ OrderCharge.name c' = OrderCharge.name c
           /\ OrderCharge.type c' = OrderCharge.type c
           /\ OrderCharge.isPaidByBusiness c' = OrderCharge.isPaidByBusiness c
           /\ Spec.synced s (OrderCharge.type c)
                (OrderCharge.amount c) (OrderCharge.percentage c)
                (OrderCharge.amount c') (OrderCharge.percentage c'))
        (OrderFormState.charges st)
        (if (0 <? length (OrderFormState.charges st))%nat
         then map (syncCharge (Num s)) (OrderFormState.charges st)
         else OrderFormState.charges st)).
    { destruct (OrderFormState.charges st) as [|c rest]; [constructor|].
      cbn [length Nat.ltb Nat.leb]. apply Forall2_map_same.
      apply List.Forall_forall. intros c0 _. apply (syncCharge_synced s c0 Hs). }
    pose proof (synced_fixed s (OrderFormState.discount st)
                  (OrderFormState.discountPercentage st) Hs) as Hdf.
    pose proof (synced_percentage s (OrderFormState.discount st)
                  (OrderFormState.discountPercentage st)) as Hdp.
    pose proof (synced_fixed s (OrderFormState.tax st)
                  (OrderFormState.taxPercentage st) Hs) as Htf.
    pose proof (synced_percentage s (OrderFormState.tax st)
                  (OrderFormState.taxPercentage st)) as Htp.
    revert Estep Hdf Hdp Htf Htp.
    destruct (OrderFormState.discountType st), (OrderFormState.taxType st),
      (Js.gt (OrderFormState.discount st) Js.zero),
      (Js.gt (OrderFormState.discountPercentage st) Js.zero),
      (Js.gt (OrderFormState.tax st) Js.zero),
      (Js.gt (OrderFormState.taxPercentage st) Js.zero);
      intros Estep Hdf Hdp Htf Htp; cbv beta iota zeta in Estep, Hdf, Hdp, Htf, Htp;
      injection Estep as <- <-;
      cbn [OrderFormState.entity OrderFormState.products OrderFormState.description
           OrderFormState.orderDate OrderFormState.payments OrderFormState.isPublic
           OrderFormState.discountType OrderFormState.taxType OrderFormState.discount
           OrderFormState.discountPercentage OrderFormState.tax
           OrderFormState.taxPercentage OrderFormState.charges];
      (split; [apply syncOnSubTotal_same|]); (split; [discriminate|]);
      intros s0 _ Hs0 _; injection Hs0 as <-;
      repeat (split; [first [reflexivity | assumption]|]); exact Hcharges.
  - injection Estep as <- <-. split; [|split; [intros _; split; reflexivity|]].
    + unfold syncOnSubTotal. rewrite Efire. reflexivity.
    + intros s Hne -> Hs. apply andb_false_iff in Efire. destruct Efire as [E|E].
      * congruence.
      * unfold Js.gt, Js.lt, Js.zero in E. apply negb_false_iff, Qle_bool_iff in E. lra.
Qed.

End CalculationCard.


Section DiscountCard.

Import CalculationSelector.


(** X15: a charge just added counts for nothing: the grand total and
    the charges of the business are what they were.  Removing by
    identifier drops every charge with that identifier, so removing the
    charge just added gives back the list without the charges of the
    same identifier: the list itself when the identifier is new. *)
Theorem added_charge_is_neutral (charges : list OrderCharge.t) (id : string)
    (subTotal discount tax : number) :
  let added := handleAddCharge charges id in
  Js.eqv (Utils.calculateGrandTotal subTotal discount tax added)
    (Utils.calculateGrandTotal subTotal discount tax charges)
  /\ Utils.calculateVendorCharges subTotal added
     = Utils.calculateVendorCharges subTotal charges
  /\ handleRemoveCharge added id = handleRemoveCharge charges id
  /\ Forall (fun c => OrderCharge.id c <> id) (handleRemoveCharge charges id)
  /\ (Forall (fun c => OrderCharge.id c <> id) charges ->
      handleRemoveCharge added id = charges).
Proof.
  intros added. unfold added, handleAddCharge. clear added.
  assert (Hremove : handleRemoveCharge
                      (charges ++ [OrderCharge.mk id "" (Num 0) Fixed (Num 0) false]) id
                    = handleRemoveCharge charges id).
  { unfold handleRemoveCharge. rewrite List.filter_app. cbn [List.filter OrderCharge.id].
    rewrite String.eqb_refl. cbn [negb]. apply app_nil_r. }
  split; [|split; [|split; [exact Hremove|split]]].
  - unfold Utils.calculateGrandTotal.
    destruct (calculateChargeAmount_sum subTotal discount
                (charges ++ [OrderCharge.mk id "" (Num 0) Fixed (Num 0) false]))
      as [a' [Ha' Hsum']].
    destruct (calculateChargeAmount_sum subTotal discount charges) as [a [Ha Hsum]].
    rewrite Ha', Ha.
    assert (Hsame : a' == a).
    { rewrite Hsum', Hsum. unfold Spec.chargeAmount, Spec.absorbedByCounterparty.
      rewrite List.filter_app, map_app. cbn [List.filter OrderCharge.isPaidByBusiness negb map].
      unfold Spec.sumSafe. rewrite fold_right_app. cbn [fold_right].
      unfold Spec.counterpartyTerm at 1. cbn [OrderCharge.type OrderCharge.amount Spec.term].
      generalize (map (Spec.counterpartyTerm subTotal discount)
                    (List.filter (fun c => negb (OrderCharge.isPaidByBusiness c)) charges)).
      intros l. induction l as [|x l IH]; cbn [fold_right]; [reflexivity|].
      rewrite IH. reflexivity. }
    destruct (Js.add (Js.sub subTotal discount) tax) as [|x]; [exact I|].
    cbn [Js.add Js.lift2].
    destruct (Math_max_zero (x + a')) as [m' [Hm' [Hmax' _]]].
    destruct (Math_max_zero (x + a)) as [m [Hm [Hmax _]]].
    rewrite Hm', Hm. cbn [Js.eqv]. rewrite Hmax', Hmax, Hsame. reflexivity.
  - unfold Utils.calculateVendorCharges. rewrite List.filter_app.
    cbn [List.filter OrderCharge.isPaidByBusiness]. rewrite app_nil_r. reflexivity.
  - unfold handleRemoveCharge. apply List.Forall_forall. intros c Hin.
    apply filter_In in Hin. destruct Hin as [_ Hne].
    apply negb_true_iff, String.eqb_neq in Hne. exact Hne.
  - intros Hfresh. rewrite Hremove. clear Hremove. unfold handleRemoveCharge.
    induction Hfresh as [|c rest Hc _ IH]; [reflexivity|].
    cbn [List.filter]. apply String.eqb_neq in Hc. rewrite Hc. cbn [negb].
    rewrite IH. reflexivity.
Qed.

End DiscountCard.


(** ** The steps of the order form *)

Section StepGates.

Variable Number_toString : number -> string.
Variable Number_toFixed : nat -> number -> string.

Import CreateOrder.

Lemma append_nonempty (a b : string) : a <> "" -> a +:+ b <> "".
Proof.
  destruct a as [|ch a]; [contradiction|]. intros _.
  change (String ch (a +:+ b) <> ""). discriminate.
Qed.

Lemma stock_errors (products : list Product.t) (addedProducts : list OrderProduct.t) :
  ValidationResult.isValid
    (Utils.validateProductQuantities Number_toString SELL products addedProducts) = false
  <-> Exists (Spec.exceedsStock products) addedProducts.
Proof.
  unfold Utils.validateProductQuantities.
  cbn [negb OrderType_eqb ValidationResult.isValid].
  set (test := fun line : nat * OrderProduct.t => Spec.exceedsStockb products line.2).
  set (msg := fun line : nat * OrderProduct.t =>
                match Spec.resolvedVariant products line.2 with
                | Some variant =>
                    Utils.stockErrorMessage Number_toString line.1
                      (Spec.resolvedProduct products line.2) variant line.2
                | None => ""
                end).
  assert (Herrors :
    Js.forEach
      (fun (errors : list string) item index =>
         match Utils.variantMap products !! OrderProduct.variantId item with
         | Some variant =>
             if Js.gt (OrderProduct.quantity item) (Utils.getVariantStock variant)
             then errors ++
                  [Utils.stockErrorMessage Number_toString index
                     (Utils.productMap products !! OrderProduct.productId item) variant item]
             else errors
         | None => errors
         end) addedProducts []
    = map msg (List.filter test (Spec.indexed addedProducts))).
  { unfold Js.forEach, Spec.indexed.
    rewrite <- (app_nil_l (map msg _)), <- (forEach_from_push test msg).
    apply forEach_from_pointwise. intros errors item index.
    unfold test, msg, Spec.exceedsStockb. simpl.
    rewrite variantMap_lookup, productMap_lookup.
    destruct (Spec.resolvedVariant products item) as [variant|]; [|reflexivity].
    rewrite gt_stock. destruct (OrderProduct.quantity item); reflexivity. }
  rewrite Herrors, no_errors_iff.
  apply Exists_indexed_test. apply exceedsStockb_spec.
Qed.

Lemma balance_errors (payments : list OrderPayment.t) (accounts : list Account.t) :
  let result :=
    Utils.validateAccountBalances Number_toString Number_toFixed payments accounts BUY in
  (ValidationResult.isValid result = false
   <-> Exists (Spec.exceedsBalance accounts) payments)
  /\ (ValidationResult.isValid result = false ->
      exists msg, hd_error (ValidationResult.errors result) = Some msg /\ msg <> "").
Proof.
  unfold Utils.validateAccountBalances.
  cbn [negb OrderType_eqb ValidationResult.isValid ValidationResult.errors].
  set (test := fun line : nat * OrderPayment.t => Spec.exceedsBalanceb accounts line.2).
  set (msg := fun line : nat * OrderPayment.t =>
                match Spec.paymentAccount accounts line.2 with
                | Some account =>
                    Utils.balanceErrorMessage Number_toString Number_toFixed
                      line.1 account line.2
                | None => ""
                end).
  assert (Herrors :
    Js.forEach
      (fun (errors : list string) pay index =>
         match Utils.accountMap accounts !! OrderPayment.accountId pay with
         | Some account =>
             if Js.gt (OrderPayment.amount pay) (Num (Account.balance account))
             then errors ++
                  [Utils.balanceErrorMessage Number_toString Number_toFixed index account pay]
             else errors
         | None => errors
         end) payments []
    = map msg (List.filter test (Spec.indexed payments))).
  { unfold Js.forEach, Spec.indexed.
    rewrite <- (app_nil_l (map msg _)), <- (forEach_from_push test msg).
    apply forEach_from_pointwise. intros errors pay index.
    unfold test, msg, Spec.exceedsBalanceb. simpl.
    rewrite accountMap_lookup.
    destruct (Spec.paymentAccount accounts pay) as [account|]; [|reflexivity].
    destruct (OrderPayment.amount pay); reflexivity. }
  rewrite Herrors. split.
  - rewrite no_errors_iff. apply Exists_indexed_test. apply exceedsBalanceb_spec.
  - destruct (List.filter test (Spec.indexed payments)) as [|line rest] eqn:Efilter;
      [discriminate|].
    intros _. exists (msg line). split; [reflexivity|].
    assert (Hin : In line (List.filter test (Spec.indexed payments)))
      by (rewrite Efilter; left; reflexivity).
    apply filter_In in Hin. destruct Hin as [_ Htest].
    unfold test, Spec.exceedsBalanceb in Htest. unfold msg.
    destruct (Spec.paymentAccount accounts line.2); [|discriminate].
    unfold Utils.balanceErrorMessage. apply append_nonempty. discriminate.
Qed.

Lemma valid_lines_none (lines : list OrderProduct.t) :
  Nat.eqb (length (List.filter Utils.isValidProduct lines)) 0 = false
  <-> Exists (fun line => OrderProduct.productId line <> ""
                          /\ OrderProduct.variantId line <> "") lines.
Proof.
  assert (H : List.filter Utils.isValidProduct lines <> []
              <-> Nat.eqb (length (List.filter Utils.isValidProduct lines)) 0 = false).
  { destruct (List.filter Utils.isValidProduct lines); simpl; split; congruence. }
  rewrite <- H, filter_nonempty_Exists. clear H. split; intros HE;
    induction HE as [x l Hx | x l _ IH];
    [ constructor 1; apply isValidProduct_spec; exact Hx | constructor 2; exact IH
    | constructor 1; apply isValidProduct_spec; exact Hx | constructor 2; exact IH ].
Qed.

(** X16: continuing to the payment step never changes the form.  The
    step becomes the payment step, with the error cleared, exactly when
    the cart has a line with both a product and a variant and, for a
    SELL order, no line of the cart asks for more than the stock of its
    variant; otherwise the step stays where it was and an error text
    that is not empty is set. *)
Theorem continue_to_payment_gate (type : OrderType) (products : list Product.t)
    (st : State) :
  let st' := handleContinueToPayment Number_toString type products st in
  formState st' = formState st
  /\ loading st' = loading st
  /\ ((currentStep st' = payment /\ error st' = None)
      \/ (currentStep st' = currentStep st
          /\ exists msg, error st' = Some msg /\ msg <> ""))
  /\ (error st' = None
      <-> Exists (fun line => OrderProduct.productId line <> ""
                              /\ OrderProduct.variantId line <> "")
            (OrderFormState.products (formState st))
          /\ (type = SELL ->
              ~ Exists (Spec.exceedsStock products)
                  (OrderFormState.products (formState st)))).
Proof.
  intros st'. unfold st', handleContinueToPayment, validateOrderDetails. clear st'.
  fold Utils.isValidProduct.
  change (List.filter
            (fun p => negb (String.eqb (OrderProduct.productId p) "")
                      && negb (String.eqb (OrderProduct.variantId p) ""))
            (OrderFormState.products (formState st)))
    with (List.filter Utils.isValidProduct (OrderFormState.products (formState st))).
  pose proof (valid_lines_none (OrderFormState.products (formState st))) as Hlines.
  pose proof (stock_errors products (OrderFormState.products (formState st))) as Hstock.
  destruct (Nat.eqb (length (List.filter Utils.isValidProduct
                               (OrderFormState.products (formState st)))) 0).
  - cbn. split; [reflexivity|]. split; [reflexivity|]. split.
    + right. split; [reflexivity|]. eexists. split; [reflexivity | discriminate].
    + split; [discriminate|]. intros [H _]. apply Hlines in H. discriminate.
  - assert (Hsome : Exists (fun line => OrderProduct.productId line <> ""
                                        /\ OrderProduct.variantId line <> "")
                      (OrderFormState.products (formState st)))
      by (apply Hlines; reflexivity).
    destruct type; cbn [OrderType_eqb].
    + cbn. split; [reflexivity|]. split; [reflexivity|]. split.
      * left. split; reflexivity.
      * split; [intros _; split; [exact Hsome | discriminate] | reflexivity].
    + destruct (ValidationResult.isValid
                  (Utils.validateProductQuantities Number_toString SELL products
                     (OrderFormState.products (formState st)))) eqn:Evalid; cbn [negb].
      * cbn. split; [reflexivity|]. split; [reflexivity|]. split.
        -- left. split; reflexivity.
        -- split; [|reflexivity]. intros _. split; [exact Hsome|].
           intros _ Hex. apply Hstock in Hex. discriminate.
      * assert (Htext : Js.truthyText
                          (Some ("Stock validation failed: "
                                 +:+ Js.join ", "
                                       (ValidationResult.errors
                                          (Utils.validateProductQuantities Number_toString
                                             SELL products
                                             (OrderFormState.products (formState st))))))
                        = true).
        { unfold Js.truthyText. apply negb_true_iff, String.eqb_neq.
          apply append_nonempty. discriminate. }
        rewrite Htext. cbn [formState currentStep error loading].
        split; [reflexivity|]. split; [reflexivity|]. split.
        -- right. split; [reflexivity|]. eexists. split; [reflexivity|].
           apply append_nonempty. discriminate.
        -- split; [discriminate|]. intros [_ H]. exfalso. apply (H eq_refl).
           apply Hstock. reflexivity.
    + cbn. split; [reflexivity|]. split; [reflexivity|]. split.
      * left. split; reflexivity.
      * split; [intros _; split; [exact Hsome | discriminate] | reflexivity].
Qed.

(** X17: continuing to the summary never changes the form.  The step
    becomes the summary, with the error cleared, exactly when an entity
    is selected or nothing remains to be paid, and, for a BUY order, no
    payment asks for more than the balance of its account; otherwise
    the step stays where it was and an error text that is not empty is
    set. *)
Theorem continue_to_summary_gate (type : OrderType) (accounts : list Account.t)
    (st : State) :
  let st' := handleContinueToSummary Number_toString Number_toFixed type accounts st in
  formState st' = formState st
  /\ loading st' = loading st
  /\ ((currentStep st' = summary /\ error st' = None)
      \/ (currentStep st' = currentStep st
          /\ exists msg, error st' = Some msg /\ msg <> ""))
  /\ (error st' = None
      <-> (OrderFormState.entity (formState st) = None ->
           Js.gt (OrderCalculations.remainingAmount (calculations (formState st))) Js.zero
           = false)
          /\ (type = BUY ->
              ~ Exists (Spec.exceedsBalance accounts)
                  (OrderFormState.payments (formState st)))).
Proof.
  intros st'. unfold st', handleContinueToSummary, validatePaymentDetails. clear st'.
  destruct (balance_errors (OrderFormState.payments (formState st)) accounts)
    as [Hbalance Hfirst].
  set (unpaid := Js.gt (OrderCalculations.remainingAmount (calculations (formState st)))
                   Js.zero) in *.
  destruct (OrderFormState.entity (formState st)) as [entity|] eqn:Eentity;
    cbn [andb].
  2:{ destruct unpaid eqn:Eunpaid.
      { cbn. split; [reflexivity|]. split; [reflexivity|]. split.
        - right. split; [reflexivity|]. eexists. split; [reflexivity | discriminate].
        - split; [discriminate|]. intros [H _]. specialize (H eq_refl). discriminate. }
      destruct type; cbn [OrderType_eqb].
      - destruct (ValidationResult.isValid
                    (Utils.validateAccountBalances Number_toString Number_toFixed
                       (OrderFormState.payments (formState st)) accounts BUY)) eqn:Evalid;
          cbn [negb].
        + cbn. split; [reflexivity|]. split; [reflexivity|]. split.
          * left. split; reflexivity.
          * split; [|reflexivity]. intros _. split; [reflexivity|].
            intros _ Hex. apply Hbalance in Hex. discriminate.
        + destruct (Hfirst eq_refl) as [msg [Hmsg Hne]]. rewrite Hmsg.
          assert (Htext : Js.truthyText (Some msg) = true).
          { unfold Js.truthyText. apply negb_true_iff, String.eqb_neq. exact Hne. }
          rewrite Htext. cbn [formState currentStep error loading].
          split; [reflexivity|]. split; [reflexivity|]. split.
          * right. split; [reflexivity|]. exists msg. split; [reflexivity | exact Hne].
          * split; [discriminate|]. intros [_ H]. exfalso. apply (H eq_refl).
            apply Hbalance. reflexivity.
      - cbn. split; [reflexivity|]. split; [reflexivity|]. split.
        + left. split; reflexivity.
        + split; [intros _; split; [reflexivity | discriminate] | reflexivity].
      - cbn. split; [reflexivity|]. split; [reflexivity|]. split.
        + left. split; reflexivity.
        + split; [intros _; split; [reflexivity | discriminate] | reflexivity]. }
  destruct type; cbn [OrderType_eqb].
  - destruct (ValidationResult.isValid
                (Utils.validateAccountBalances Number_toString Number_toFixed
                   (OrderFormState.payments (formState st)) accounts BUY)) eqn:Evalid;
      cbn [negb].
    + cbn. split; [reflexivity|]. split; [reflexivity|]. split.
      * left. split; reflexivity.
      * split; [|reflexivity]. intros _. split; [discriminate|].
        intros _ Hex. apply Hbalance in Hex. discriminate.
    + destruct (Hfirst eq_refl) as [msg [Hmsg Hne]]. rewrite Hmsg.
      assert (Htext : Js.truthyText (Some msg) = true).
      { unfold Js.truthyText. apply negb_true_iff, String.eqb_neq. exact Hne. }
      rewrite Htext. cbn [formState currentStep error loading].
      split; [reflexivity|]. split; [reflexivity|]. split.
      * right. split; [reflexivity|]. exists msg. split; [reflexivity | exact Hne].
      * split; [discriminate|]. intros [_ H]. exfalso. apply (H eq_refl).
        apply Hbalance. reflexivity.
  - cbn. split; [reflexivity|]. split; [reflexivity|]. split.
    + left. split; reflexivity.
    + split; [intros _; split; [discriminate | discriminate] | reflexivity].
  - cbn. split; [reflexivity|]. split; [reflexivity|]. split.
    + left. split; reflexivity.
    + split; [intros _; split; [discriminate | discriminate] | reflexivity].
Qed.

End StepGates.

(** ** The payment card *)

Section PaymentCard.

Variable Number_toString : number -> string.
Variable Number_toFixed : nat -> number -> string.

Import PaymentSelector.

Lemma find_absent (key : string) (accounts : list Account.t) :
  ~ In key (map Account.id accounts) ->
  List.find (fun acc => String.eqb (Account.id acc) key) accounts = None.
Proof.
  induction accounts as [|a rest IH]; intros H; simpl; [reflexivity|].
  destruct (String.eqb_spec (Account.id a) key) as [E|E].
  - exfalso. apply H. left. exact E.
  - apply IH. intros Hin. apply H. right. exact Hin.
Qed.

(** With no identifier used twice, the first account with an identifier
    is the one a [Map] built from the accounts holds for it. *)
Lemma find_lastBinding (key : string) (accounts : list Account.t) :
  List.NoDup (map Account.id accounts) ->
  forall found : option Account.t,
    fold_left (fun found kv => if String.eqb kv.1 key then Some kv.2 else found)
      (map (fun acc => (Account.id acc, acc)) accounts) found
    = match List.find (fun acc => String.eqb (Account.id acc) key) accounts with
      | Some account => Some account
      | None => found
      end.
Proof.
  induction accounts as [|a rest IH]; intros Hnodup found; simpl; [reflexivity|].
  inversion Hnodup as [|? ? Hnotin Hrest]; subst.
  rewrite (IH Hrest). destruct (String.eqb_spec (Account.id a) key) as [E|E].
  - rewrite find_absent; [reflexivity|]. rewrite <- E. exact Hnotin.
  - reflexivity.
Qed.

Lemma insufficient_test (accounts : list Account.t) (payment : OrderPayment.t) :
  List.NoDup (map Account.id accounts) ->
  match List.find (fun acc => String.eqb (Account.id acc) (OrderPayment.accountId payment))
          accounts with
  | Some account => Js.gt (OrderPayment.amount payment) (Num (Account.balance account))
  | None => false
  end = Spec.exceedsBalanceb accounts payment.
Proof.
  intros Hnodup. unfold Spec.exceedsBalanceb, Spec.paymentAccount, Spec.lastBinding.
  rewrite (find_lastBinding _ accounts Hnodup None).
  destruct (List.find _ accounts) as [account|]; [|reflexivity].
  destruct (OrderPayment.amount payment); reflexivity.
Qed.

(** X18: when no two accounts share an identifier, the payments the
    payment card marks as exceeding the balance are, for a BUY order,
    exactly the payments that ask for more than the balance of their
    account, and none for another order type; the card marks a payment
    exactly when the validation of the form rejects the payments. *)
Theorem insufficient_payments_agree (type : OrderType) (payments : list OrderPayment.t)
    (accounts : list Account.t) :
  List.NoDup (map Account.id accounts) ->
  (forall payment,
      In payment (insufficientBalancePayments type payments accounts)
      <-> type = BUY /\ In payment payments /\ Spec.exceedsBalance accounts payment)
  /\ (insufficientBalancePayments type payments accounts = []
      <-> ValidationResult.isValid
            (Utils.validateAccountBalances Number_toString Number_toFixed payments accounts
               type) = true).
Proof.
  intros Hnodup.
  assert (Hfilter :
    List.filter
      (fun payment =>
         match List.find
                 (fun acc => String.eqb (Account.id acc) (OrderPayment.accountId payment))
                 accounts with
         | Some account => Js.gt (OrderPayment.amount payment) (Num (Account.balance account))
         | None => false
         end) payments
    = List.filter (Spec.exceedsBalanceb accounts) payments).
  { apply filter_ext. intros payment. apply insufficient_test. exact Hnodup. }
  unfold insufficientBalancePayments. rewrite Hfilter.
  destruct type; cbn [negb OrderType_eqb].
  - split.
    + intros payment. rewrite filter_In, exceedsBalanceb_spec. tauto.
    + destruct (balance_errors Number_toString Number_toFixed payments accounts)
        as [Hinvalid _].
      split.
      * intros Hnone.
        destruct (ValidationResult.isValid _); [reflexivity|]. exfalso.
        pose proof (proj1 Hinvalid eq_refl) as E.
        apply List.Exists_exists in E. destruct E as [payment [Hin Hex]].
        assert (Hmarked : In payment (List.filter (Spec.exceedsBalanceb accounts) payments)).
        { apply filter_In. split; [exact Hin|]. apply exceedsBalanceb_spec. exact Hex. }
        rewrite Hnone in Hmarked. destruct Hmarked.
      * intros Hvalid.
        destruct (List.filter (Spec.exceedsBalanceb accounts) payments) as [|payment rest]
          eqn:Efilter; [reflexivity|]. exfalso.
        assert (Hin : In payment (List.filter (Spec.exceedsBalanceb accounts) payments))
          by (rewrite Efilter; left; reflexivity).
        apply filter_In in Hin. destruct Hin as [Hin Hex].
        apply exceedsBalanceb_spec in Hex.
        assert (E : ValidationResult.isValid
                      (Utils.validateAccountBalances Number_toString Number_toFixed payments
                         accounts BUY) = false).
        { apply Hinvalid. apply List.Exists_exists. exists payment. split; assumption. }
        congruence.
  - split; [intros payment; split; [intros [] | intros [H _]; discriminate]|].
    split; reflexivity.
  - split; [intros payment; split; [intros [] | intros [H _]; discriminate]|].
    split; reflexivity.
Qed.

(** X19: a payment is added at the end of the list and raises the total
    paid by its amount, an amount that is not a number counting as zero;
    removing the payment at the position it was added gives the list
    back.  Removing by position drops the payment at that position and
    keeps the others in order; a position past the end removes
    nothing. *)
Theorem payment_add_remove (payments : list OrderPayment.t) (amount : number)
    (accountId : string) (index : nat) :
  let added := handleAddPayment payments amount accountId in
  removePayment added (length payments) = payments
  /\ (exists before after : Q,
         Utils.calculateTotalPaid payments = Num before
         /\ Utils.calculateTotalPaid added = Num after
         /\ after == before + Spec.term amount)
  /\ ((index < length payments)%nat ->
      removePayment payments index = firstn index payments ++ skipn (S index) payments)
  /\ ((length payments <= index)%nat -> removePayment payments index = payments).
Proof.
  intros added. unfold added, handleAddPayment, removePayment, Js.filteri. clear added.
  assert (Hdrop : forall l : list OrderPayment.t,
    Js.filteri_from (fun i => negb (Nat.eqb i index)) l 0
    = firstn index l ++ skipn (S index) l).
  { intros l. rewrite filteri_from_remove by lia. rewrite Nat.sub_0_r. reflexivity. }
  split; [|split; [|split]].
  - rewrite filteri_from_remove by lia. rewrite Nat.sub_0_r.
    rewrite firstn_app, Nat.sub_diag, firstn_all. cbn [firstn].
    rewrite skipn_all2 by (rewrite length_app; simpl; lia).
    rewrite !app_nil_r. reflexivity.
  - destruct (calculateTotalPaid_sum payments) as [before [Hb Hbsum]].
    destruct (calculateTotalPaid_sum (payments ++ [OrderPayment.mk accountId amount]))
      as [after [Ha Hasum]].
    exists before, after. split; [exact Hb|]. split; [exact Ha|].
    rewrite Hasum, Hbsum, map_app. unfold Spec.sumSafe. rewrite fold_right_app.
    cbn [map fold_right OrderPayment.amount].
    generalize (map OrderPayment.amount payments). intros l.
    induction l as [|x l IH]; cbn [fold_right]; [ring|]. rewrite IH. ring.
  - intros _. apply Hdrop.
  - intros Hge. rewrite Hdrop. rewrite firstn_all2 by lia. rewrite skipn_all2 by lia.
    apply app_nil_r.
Qed.

End PaymentCard.

(** An instance of [insufficient_payments_agree]: two accounts with
    different identifiers, and a payment of 150 on the account that
    holds 100. *)
Lemma insufficient_payments_agree_witness :
  let accounts := [Account.mk "a1" "Cash" 100; Account.mk "a2" "Bank" 500] in
  let payments := [OrderPayment.mk "a1" (Num 150); OrderPayment.mk "a2" (Num 20)] in
  List.NoDup (map Account.id accounts)
  /\ (In (OrderPayment.mk "a1" (Num 150))
        (PaymentSelector.insufficientBalancePayments BUY payments accounts)
      <-> BUY = BUY /\ In (OrderPayment.mk "a1" (Num 150)) payments
          /\ Spec.exceedsBalance accounts (OrderPayment.mk "a1" (Num 150))).
Proof.
  intros accounts payments.
  assert (H : List.NoDup (map Account.id accounts)).
  { apply List.NoDup_cons; [simpl; intros [H|[]]; discriminate|].
    apply List.NoDup_cons; [simpl; intros []|]. apply List.NoDup_nil. }
  split; [exact H|].
  exact (proj1 (insufficient_payments_agree (fun _ => "") (fun _ _ => "") BUY payments
                  accounts H) (OrderPayment.mk "a1" (Num 150))).
Defined.

(** ** The entity page *)

Section EntityLedger.

Import EntityPage.

Variable localeCompare : string -> string -> Z.
Variable paymentStatus : Order.t -> PaymentStatus.













End EntityLedger.



(** ** The rows of the product card *)

Section CartRows.

Variable Number_toString : number -> string.

Import ProductDetails.

Lemma fold_left_insert_map {K V A} `{Countable K} (key : A -> K) (value : A -> V)
    (l : list A) :
  forall m : gmap K V,
    fold_left (fun m x => <[key x := value x]> m) l m
    = fold_left (fun m kv => <[kv.1 := kv.2]> m) (map (fun x => (key x, value x)) l) m.
Proof. induction l as [|x l IH]; intros m; simpl; [reflexivity | apply IH]. Qed.

Lemma maps_Map_new (products : list Product.t) :
  maps products = (Utils.productMap products, Utils.variantMap products).
Proof.
  unfold maps, Utils.productMap, Utils.variantMap, Js.Map_new.
  generalize (∅ : gmap string Product.t) (∅ : gmap string ProductVariant.t).
  induction products as [|p products IH]; intros pm vm; simpl; [reflexivity|].
  rewrite IH, fold_left_app. f_equal. f_equal.
  rewrite (fold_left_insert_map ProductVariant.id (fun v => v)).
  destruct (Product.variants p); reflexivity.
Qed.

Lemma row_variant (products : list Product.t) (item : OrderProduct.t) :
  variantMap products !! OrderProduct.variantId item = Spec.resolvedVariant products item.
Proof.
  unfold variantMap. rewrite maps_Map_new. apply variantMap_lookup.
Qed.

Lemma row_product (products : list Product.t) (item : OrderProduct.t) :
  productMap products !! OrderProduct.productId item = Spec.resolvedProduct products item.
Proof.
  unfold productMap. rewrite maps_Map_new. apply productMap_lookup.
Qed.

(** X23: the row of a line shows "Exceeds stock!" exactly when the
    order is a SELL order, the product of the line is in the catalogue,
    and the line either asks for more than the stock of its variant or
    has no variant in the catalogue and a quantity above zero.  So when
    the stock validation rejects the cart, it is for a line whose row
    shows the warning as soon as its product is in the catalogue. *)
Theorem row_warning_and_validation (type : OrderType) (products : list Product.t) :
  (forall item,
      exceedsStockShown type products item = true
      <-> type = SELL
          /\ Spec.resolvedProduct products item <> None
          /\ (Spec.exceedsStock products item
              \/ (Spec.resolvedVariant products item = None
                  /\ exists q : Q, OrderProduct.quantity item = Num q /\ 0 < q)))
  /\ (forall addedProducts,
        ValidationResult.isValid
          (Utils.validateProductQuantities Number_toString SELL products addedProducts)
        = false ->
        exists item,
          In item addedProducts
          /\ Spec.exceedsStock products item
          /\ (Spec.resolvedProduct products item <> None ->
              exceedsStockShown SELL products item = true)).
Proof.
  assert (Hrow : forall type item,
    exceedsStockShown type products item = true
    <-> type = SELL
        /\ Spec.resolvedProduct products item <> None
        /\ (Spec.exceedsStock products item
            \/ (Spec.resolvedVariant products item = None
                /\ exists q : Q, OrderProduct.quantity item = Num q /\ 0 < q))).
  { intros type0 item. unfold exceedsStockShown, hasStockError.
    rewrite row_variant, row_product, !andb_true_iff.
    rewrite <- exceedsStockb_spec. unfold Spec.exceedsStockb.
    assert (Htype : OrderType_eqb type0 SELL = true <-> type0 = SELL)
      by (destruct type0; simpl; split; congruence).
    rewrite Htype.
    assert (Hproduct : match Spec.resolvedProduct products item with
                       | Some _ => true
                       | None => false
                       end = true <-> Spec.resolvedProduct products item <> None)
      by (destruct (Spec.resolvedProduct products item); split; congruence).
    rewrite Hproduct.
    destruct (Spec.resolvedVariant products item) as [v|].
    - destruct (getVariantStock_some v) as [stock [Hstock Hseq]]. rewrite Hstock.
      unfold Js.gt, Js.lt. destruct (OrderProduct.quantity item) as [|q].
      + split; [intros [[_ H] _]; discriminate | intros [_ [_ [H | [H _]]]]; discriminate].
      + rewrite (Qle_bool_eqv q stock _ Hseq). split.
        * intros [[Ht Hq] Hp]. split; [exact Ht|]. split; [exact Hp|]. left. exact Hq.
        * intros [Ht [Hp [Hq | [Hq _]]]]; [|discriminate]. split; [split|]; assumption.
    - cbn [getVariantStock]. unfold Js.gt, Js.lt, Js.zero.
      destruct (OrderProduct.quantity item) as [|q].
      + split; [intros [[_ H] _]; discriminate|].
        intros [_ [_ [H | [_ [q [H _]]]]]]; discriminate.
      + rewrite negb_Qle_bool. split.
        * intros [[Ht Hq] Hp]. split; [exact Ht|]. split; [exact Hp|]. right.
          split; [reflexivity|]. exists q. split; [reflexivity | exact Hq].
        * intros [Ht [Hp [Hq | [_ [q' [Hq' Hpos]]]]]]; [discriminate|].
          injection Hq' as <-. split; [split|]; assumption. }
  split; [apply Hrow|].
  intros addedProducts Hinvalid.
  apply (stock_errors Number_toString) in Hinvalid.
  apply List.Exists_exists in Hinvalid. destruct Hinvalid as [item [Hin Hex]].
  exists item. split; [exact Hin|]. split; [exact Hex|].
  intros Hp. apply Hrow. split; [reflexivity|]. split; [exact Hp|]. left. exact Hex.
Qed.

Lemma find_firstWith {A} (test : A -> bool) (P : A -> Prop) (l : list A) :
  (forall y, test y = true <-> P y) ->
  forall x, List.find test l = Some x <-> Spec.firstWith P l x.
Proof.
  intros Htest. induction l as [|a l IH]; intros x; cbn [List.find].
  - split; [discriminate|]. intros [before [after [E _]]].
    destruct before; discriminate E.
  - destruct (test a) eqn:Ea.
    + split.
      * intros E. injection E as <-. exists [], l.
        split; [reflexivity|]. split; [constructor | apply Htest; exact Ea].
      * intros [before [after [E [Hbefore _]]]]. destruct before as [|b before].
        -- injection E as <- _. reflexivity.
        -- injection E as <- _. inversion Hbefore as [|? ? Hb _]; subst.
           exfalso. apply Hb. apply Htest. exact Ea.
    + rewrite IH. split.
      * intros [before [after [-> [Hbefore Hx]]]]. exists (a :: before), after.
        split; [reflexivity|]. split; [|exact Hx].
        constructor; [|exact Hbefore]. intros Ha. apply Htest in Ha. congruence.
      * intros [before [after [E [Hbefore Hx]]]]. destruct before as [|b before].
        -- injection E as <- _. apply Htest in Hx. congruence.
        -- injection E as _ ->. inversion Hbefore; subst.
           exists before, after. split; [reflexivity|]. split; assumption.
Qed.

Lemma price_priceFor (type : OrderType) (variant : ProductVariant.t) :
  (if OrderType_eqb type BUY then ProductVariant.buyPrice variant
   else ProductVariant.price variant) = Spec.priceFor type variant.
Proof. destruct type; reflexivity. Qed.

(** X24: picking a product or a variant in a row changes that row
    only, and never its quantity or its description.  Picking a product
    sets the row to the first product of the catalogue with that id and
    to the first of its variants, at the variant's price for the order
    type; when the catalogue has no such product, or that product has no
    variant, the cart is left as it is.  Picking a variant keeps the
    row's product and sets the row to the first variant with that id
    among the variants of the row's product, at its price for the order
    type; when the row's product is not in the catalogue or has no such
    variant, the cart is left as it is. *)
Theorem selection_picks_from_catalogue (type : OrderType) (products : list Product.t)
    (addedProducts : list OrderProduct.t) (index : nat) (item : OrderProduct.t)
    (selectedId : string) :
  nth_error addedProducts index = Some item ->
  let byProduct := handleProductSelect type products addedProducts index selectedId in
  let byVariant :=
    handleVariantSelect type (productMap products !! OrderProduct.productId item)
      addedProducts index selectedId in
  (length byProduct = length addedProducts
   /\ forall j, j <> index -> nth_error byProduct j = nth_error addedProducts j)
  /\ (forall product variant others,
         Spec.firstWith (fun p => Product.id p = selectedId) products product ->
         Product.variants product = Some (variant :: others) ->
         nth_error byProduct index
         = Some (OrderProduct.mk selectedId (ProductVariant.id variant)
                   (Num (Spec.priceFor type variant))
                   (OrderProduct.quantity item) (OrderProduct.description item)))
  /\ ((forall product,
          Spec.firstWith (fun p => Product.id p = selectedId) products product ->
          default [] (Product.variants product) = []) ->
      byProduct = addedProducts)
  /\ (length byVariant = length addedProducts
      /\ forall j, j <> index -> nth_error byVariant j = nth_error addedProducts j)
  /\ (forall product variant,
         Spec.resolvedProduct products item = Some product ->
         Spec.firstWith (fun v => ProductVariant.id v = selectedId)
           (default [] (Product.variants product)) variant ->
         nth_error byVariant index
         = Some (OrderProduct.mk (OrderProduct.productId item) selectedId
                   (Num (Spec.priceFor type variant))
                   (OrderProduct.quantity item) (OrderProduct.description item)))
  /\ ((forall product,
          Spec.resolvedProduct products item = Some product ->
          Forall (fun v => ProductVariant.id v <> selectedId)
            (default [] (Product.variants product))) ->
      byVariant = addedProducts).
Proof.
  intros Hitem byProduct byVariant.
  assert (Hfind : forall product,
            List.find (fun p => String.eqb (Product.id p) selectedId) products = Some product
            <-> Spec.firstWith (fun p => Product.id p = selectedId) products product).
  { apply find_firstWith. intros p. apply String.eqb_eq. }
  assert (Hfindv : forall variants variant,
            List.find (fun v => String.eqb (ProductVariant.id v) selectedId) variants
            = Some variant
            <-> Spec.firstWith (fun v => ProductVariant.id v = selectedId) variants variant).
  { intros variants. apply find_firstWith. intros v. apply String.eqb_eq. }
  split; [|split; [|split; [|split; [|split]]]].
  - unfold byProduct, handleProductSelect.
    destruct (List.find _ products) as [p|]; [|split; reflexivity].
    destruct (Product.variants p) as [[|v vs]|]; try (split; reflexivity).
    split; [apply mapi_from_length|].
    intros j Hj. apply updateProductAtIndex_other. exact Hj.
  - intros product variant others Hfirst Hvariants.
    apply Hfind in Hfirst. unfold byProduct, handleProductSelect.
    rewrite Hfirst, Hvariants, price_priceFor.
    rewrite (updateProductAtIndex_same _ _ _ _ Hitem). reflexivity.
  - intros Hnone. unfold byProduct, handleProductSelect.
    destruct (List.find _ products) as [p|]; [|reflexivity].
    pose proof (Hnone p (proj1 (Hfind p) eq_refl)) as Hempty.
    destruct (Product.variants p) as [[|v vs]|]; try reflexivity.
    discriminate Hempty.
  - unfold byVariant, handleVariantSelect.
    destruct (productMap products !! OrderProduct.productId item) as [p|];
      [|split; reflexivity].
    destruct (Product.variants p) as [variants|]; [|split; reflexivity].
    destruct (List.find _ variants) as [v|]; [|split; reflexivity].
    split; [apply mapi_from_length|].
    intros j Hj. apply updateProductAtIndex_other. exact Hj.
  - intros product variant Hproduct Hfirst.
    unfold byVariant, handleVariantSelect. rewrite row_product, Hproduct.
    destruct (Product.variants product) as [variants|]; cbn [default] in Hfirst.
    + unfold id in Hfirst. apply Hfindv in Hfirst. rewrite Hfirst, price_priceFor.
      rewrite (updateProductAtIndex_same _ _ _ _ Hitem). reflexivity.
    + destruct Hfirst as [before [after [E _]]]. destruct before; discriminate E.
  - intros Hnone. unfold byVariant, handleVariantSelect. rewrite row_product.
    destruct (Spec.resolvedProduct products item) as [p|]; [|reflexivity].
    specialize (Hnone p eq_refl).
    destruct (Product.variants p) as [variants|]; [|reflexivity].
    cbn [default] in Hnone. unfold id in Hnone.
    destruct (List.find _ variants) as [v|] eqn:Efind; [|reflexivity].
    apply find_some in Efind. destruct Efind as [Hin Hid]. apply String.eqb_eq in Hid.
    rewrite List.Forall_forall in Hnone. exfalso. exact (Hnone v Hin Hid).
Qed.

End CartRows.

(** An instance of [selection_picks_from_catalogue]: choosing the
    product of the example variant in an empty row of a SELL order
    fills the row with that product and variant at the sell price, the
    quantity staying at 1. *)
Lemma selection_picks_from_catalogue_witness :
  let products := [Product.mk "p1" "Shirt" (Some [Spec.example_variant])] in
  nth_error [ProductDetails.emptySlot] 0 = Some ProductDetails.emptySlot
  /\ ProductDetails.handleProductSelect SELL products [ProductDetails.emptySlot] 0 "p1"
     = [OrderProduct.mk "p1" "v1" (Num 15) (Num 1) ""].
Proof.
  intros products.
  assert (H : nth_error [ProductDetails.emptySlot] 0 = Some ProductDetails.emptySlot)
    by reflexivity.
  split; [exact H|].
  destruct (selection_picks_from_catalogue SELL products [ProductDetails.emptySlot] 0
              ProductDetails.emptySlot "p1" H)
    as [[Hlength _] [Hpicked _]].
  specialize (Hpicked (Product.mk "p1" "Shirt" (Some [Spec.example_variant]))
                Spec.example_variant []).
  assert (Hfirst : Spec.firstWith (fun p => Product.id p = "p1") products
                     (Product.mk "p1" "Shirt" (Some [Spec.example_variant]))).
  { exists [], []. split; [reflexivity|]. split; [constructor | reflexivity]. }
  specialize (Hpicked Hfirst eq_refl).
  destruct (ProductDetails.handleProductSelect SELL products [ProductDetails.emptySlot] 0 "p1")
    as [|line [|line' rest]]; try discriminate Hlength.
  cbn [nth_error] in Hpicked. injection Hpicked as ->. reflexivity.
Defined.

(** ** The earlier order form *)

Section EarlierForm.

Variable Number_toFixed : nat -> number -> string.

Import BuyOrderForm.

(** X25: the two charge adapters of the earlier form undo each other,
    in both directions, the mark of who bears a charge being inverted
    on the way and inverted back; so handing the form the charges it
    gave to the calculation card leaves its form state as it was. *)
Theorem charge_adapters_round_trip (localCharges : list LocalOrderCharge.t)
    (legacyCharges : list LegacyCharge.t) (st : State) :
  convertLegacyChargesToLocal (convertLocalChargesToLegacy localCharges) = localCharges
  /\ convertLocalChargesToLegacy (convertLegacyChargesToLocal legacyCharges) = legacyCharges
  /\ Forall2
       (fun charge legacy =>
          LegacyCharge.bearedByEntity legacy = negb (LocalOrderCharge.isPaidByBusiness charge))
       localCharges (convertLocalChargesToLegacy localCharges)
  /\ formState
       (handleLegacyChargesUpdate
          (convertLocalChargesToLegacy (OrderFormState.charges (formState st))) st)
     = formState st.
Proof.
  assert (Hlocal : forall l,
             convertLegacyChargesToLocal (convertLocalChargesToLegacy l) = l).
  { intros l. unfold convertLegacyChargesToLocal, convertLocalChargesToLegacy.
    rewrite map_map. rewrite <- (map_id l) at 2. apply map_ext.
    intros [id name amount type percentage paid vat]. cbn. rewrite negb_involutive.
    reflexivity. }
  split; [apply Hlocal|]. split; [|split].
  - unfold convertLegacyChargesToLocal, convertLocalChargesToLegacy.
    rewrite map_map. rewrite <- (map_id legacyCharges) at 2. apply map_ext.
    intros [id amount label type percentage vat beared]. cbn. rewrite negb_involutive.
    reflexivity.
  - unfold convertLocalChargesToLegacy. apply Forall2_map_same.
    apply List.Forall_forall. intros charge _. reflexivity.
  - unfold handleLegacyChargesUpdate, handleChargesUpdate. rewrite Hlocal.
    cbn [formState]. destruct (formState st). reflexivity.
Qed.

Lemma local_vendor_charges (subTotal : number) (charges : list LocalOrderCharge.t) :
  exists v : Q, calculateVendorCharges subTotal charges = Num v.
Proof.
  unfold calculateVendorCharges.
  set (l := List.filter _ charges).
  destruct (reduce_guarded
              (fun charge =>
                 match LocalOrderCharge.type charge with
                 | Percentage =>
                     Js.div (Js.mul subTotal (LocalOrderCharge.percentage charge)) Js.hundred
                 | Fixed => LocalOrderCharge.amount charge
                 end) l 0) as [r [Hr _]].
  exists r. exact Hr.
Qed.

(** X26: the earlier form sends an order only from the summary step,
    and never changes the cart in doing so.  On a BUY order with
    charges the business pays, nothing is sent before an account is
    chosen for them (the account dialog opens instead), and when the
    order is sent, the transaction then posted for those charges is for
    an amount above zero that the chosen account can cover. *)
Theorem vendor_charges_within_balance (type : OrderType) (st : State) (created : bool) :
  let st' := fst (handleSubmit_request Number_toFixed type st) in
  let sent := snd (handleSubmit_request Number_toFixed type st) in
  formState st' = formState st
  /\ currentStep st' = currentStep st
  /\ (sent = true -> currentStep st = summary /\ loading st' = true /\ error st' = None)
  /\ (sent = true -> type = BUY ->
      forall accountId amount,
        vendorChargesTransaction created st = Some (accountId, amount) ->
        exists (account : Account.t) (v : Q),
          selectedVendorAccount st = Some account
          /\ Account.id account = accountId
          /\ amount = Num v /\ 0 < v <= Account.balance account)
  /\ (currentStep st = summary -> type = BUY ->
      Js.gt (OrderCalculations.vendorCharges (calculations (formState st))) Js.zero = true ->
      selectedVendorAccount st = None ->
      sent = false /\ isAccountSelectionActive st' = true /\ error st' = error st).
Proof.
  intros st' sent. unfold st', sent, handleSubmit_request, validateSubmission,
    vendorChargesTransaction. clear st' sent.
  destruct (local_vendor_charges
              (calculateSubTotal (OrderFormState.products (formState st)))
              (OrderFormState.charges (formState st))) as [v Hv].
  assert (Hcharges : OrderCalculations.vendorCharges (calculations (formState st)) = Num v)
    by exact Hv.
  rewrite Hcharges. cbn [Js.gt Js.lt Js.zero].
  destruct (currentStep st) eqn:Estep; cbn [fst snd];
    try (split; [reflexivity|]; split; [first [reflexivity | exact Estep]|];
         split; [discriminate|]; split; [discriminate|]; discriminate).
  destruct type; cbn [OrderType_eqb andb].
  - destruct (negb (Qle_bool v 0)) eqn:Epos; cbn [andb].
    + apply negb_Qle_bool in Epos.
      destruct (selectedVendorAccount st) as [account|] eqn:Eaccount.
      * destruct (negb (Qle_bool v (Account.balance account))) eqn:Ebalance.
        -- assert (Htext : forall text, Js.truthyText (Some ("Insufficient balance in " +:+ text))
                                        = true).
           { intros text. unfold Js.truthyText. apply negb_true_iff, String.eqb_neq.
             apply append_nonempty. discriminate. }
           rewrite Htext. cbn [fst snd formState currentStep].
           split; [reflexivity|]. split; [first [reflexivity | exact Estep]|].
           split; [discriminate|]. split; [discriminate|]. discriminate.
        -- cbn [Js.truthyText fst snd formState currentStep loading error].
           apply negb_false_iff, Qle_bool_iff in Ebalance.
           split; [reflexivity|]. split; [first [reflexivity | exact Estep]|].
           split; [intros _; repeat split|]. split; [|discriminate].
           intros _ _ accountId amount Htx. exists account, v.
           destruct created; cbn [andb] in Htx; [|discriminate].
           injection Htx as <- <-. repeat split; try reflexivity; assumption.
      * cbn [fst snd formState currentStep isAccountSelectionActive error].
        split; [reflexivity|]. split; [first [reflexivity | exact Estep]|].
        split; [discriminate|]. split; [discriminate|].
        intros _ _ _ _. repeat split.
    + cbn [Js.truthyText fst snd formState currentStep loading error].
      split; [reflexivity|]. split; [first [reflexivity | exact Estep]|].
      split; [intros _; repeat split|]. split; [|discriminate].
      intros _ _ accountId amount Htx.
      destruct (selectedVendorAccount st); [|discriminate].
      rewrite andb_false_r in Htx. discriminate.
  - cbn [Js.truthyText fst snd formState currentStep loading error].
    split; [reflexivity|]. split; [first [reflexivity | exact Estep]|].
    split; [intros _; repeat split|]. split; discriminate.
  - cbn [Js.truthyText fst snd formState currentStep loading error].
    split; [reflexivity|]. split; [first [reflexivity | exact Estep]|].
    split; [intros _; repeat split|]. split; discriminate.
Qed.

Lemma local_charge_amount (subTotal discount : number) (charges : list LocalOrderCharge.t) :
  calculateChargeAmount subTotal discount charges
  = Utils.calculateChargeAmount subTotal discount (map Spec.withoutVat charges).
Proof.
  unfold calculateChargeAmount, Utils.calculateChargeAmount.
  assert (H : forall acc : number,
    fold_left
      (fun sum charge =>
         Js.add sum
           (if Js.isNaN
                 match LocalOrderCharge.type charge with
                 | Percentage =>
                     Js.div (Js.mul (Js.sub subTotal discount)
                               (LocalOrderCharge.percentage charge)) Js.hundred
                 | Fixed => LocalOrderCharge.amount charge
                 end
            then Js.zero
            else match LocalOrderCharge.type charge with
                 | Percentage =>
                     Js.div (Js.mul (Js.sub subTotal discount)
                               (LocalOrderCharge.percentage charge)) Js.hundred
                 | Fixed => LocalOrderCharge.amount charge
                 end))
      (List.filter (fun charge => negb (LocalOrderCharge.isPaidByBusiness charge)) charges)
      acc
    = fold_left
        (fun sum charge =>
           Js.add sum
             (if Js.isNaN
                   match OrderCharge.type charge with
                   | Percentage =>
                       Js.div (Js.mul (Js.sub subTotal discount)
                                 (OrderCharge.percentage charge)) Js.hundred
                   | Fixed => OrderCharge.amount charge
                   end
              then Js.zero
              else match OrderCharge.type charge with
                   | Percentage =>
                       Js.div (Js.mul (Js.sub subTotal discount)
                                 (OrderCharge.percentage charge)) Js.hundred
                   | Fixed => OrderCharge.amount charge
                   end))
        (List.filter (fun charge => negb (OrderCharge.isPaidByBusiness charge))
           (map Spec.withoutVat charges))
        acc).
  { induction charges as [|c charges IH]; intros acc; cbn [map List.filter];
      [reflexivity|].
    cbn [Spec.withoutVat OrderCharge.isPaidByBusiness].
    destruct (LocalOrderCharge.isPaidByBusiness c); cbn [negb fold_left]; apply IH. }
  apply H.
Qed.

(** X27: the grand total of the earlier form takes no tax: it is the
    grand total of the order form computed with a tax of zero, so for a
    tax that is not negative it is never above the order form's grand
    total, and it is that total when the tax is zero. *)
Theorem earlier_total_takes_no_tax (s d t : Q) (charges : list LocalOrderCharge.t) :
  exists earlier current : Q,
    calculateGrandTotal (Num s) (Num d) charges = Num earlier
    /\ Utils.calculateGrandTotal (Num s) (Num d) (Num t) (map Spec.withoutVat charges)
       = Num current
    /\ earlier
       == Qmax (s - d + Spec.chargeAmount (Num s) (Num d) (map Spec.withoutVat charges)) 0
    /\ current
       == Qmax (s - d + t
                + Spec.chargeAmount (Num s) (Num d) (map Spec.withoutVat charges)) 0
    /\ (t == 0 -> earlier == current)
    /\ (0 <= t -> earlier <= current).
Proof.
  destruct (calculateGrandTotal_finite s d t (map Spec.withoutVat charges))
    as [current [Hcurrent [Hcvalue _]]].
  destruct (calculateChargeAmount_sum (Num s) (Num d) (map Spec.withoutVat charges))
    as [a [Ha Hasum]].
  destruct (Math_max_zero (s - d + a)) as [earlier [Hearlier [Hevalue _]]].
  exists earlier, current.
  assert (He : earlier == Qmax (s - d + Spec.chargeAmount (Num s) (Num d)
                                          (map Spec.withoutVat charges)) 0).
  { rewrite Hevalue. apply Q.max_compat; [|reflexivity]. rewrite Hasum. reflexivity. }
  split; [|split; [exact Hcurrent|split; [exact He|split; [exact Hcvalue|split]]]].
  - unfold calculateGrandTotal. rewrite local_charge_amount, Ha. exact Hearlier.
  - intros Ht. rewrite He, Hcvalue. apply Q.max_compat; [|reflexivity]. rewrite Ht. ring.
  - intros Ht. rewrite He, Hcvalue. apply Q.max_le_compat_r. lra.
Qed.

End EarlierForm.

(** ** The balance summary *)

Section BalanceSummaryFacts.

Variable localeCompare : string -> string -> Z.

Import BalanceSummary.

Lemma Map_get_set (entries : list (string * number)) (key : string) (value : number)
    (key' : string) :
  Map_get (Map_set entries key value) key'
  = if String.eqb key key' then Some value else Map_get entries key'.
Proof.
  unfold Map_get. induction entries as [|[k v] rest IH]; cbn [Map_set].
  - cbn [List.find fst snd]. destruct (String.eqb key key'); reflexivity.
  - destruct (String.eqb_spec k key) as [E|E].
    + subst k. cbn [List.find fst snd]. destruct (String.eqb key key'); reflexivity.
    + cbn [List.find fst snd]. destruct (String.eqb_spec k key') as [E'|E'].
      * destruct (String.eqb_spec key key') as [E''|E'']; [congruence | reflexivity].
      * exact IH.
Qed.

Lemma Map_set_key_in (entries : list (string * number)) (key : string) (value : number)
    (key' : string) :
  In key' (map fst (Map_set entries key value)) -> key' = key \/ In key' (map fst entries).
Proof.
  induction entries as [|[k v] rest IH]; cbn [Map_set map fst].
  - intros [H | []]. left. symmetry. exact H.
  - destruct (String.eqb k key); cbn [map fst]; intros [H | H].
    + right. left. exact H.
    + right. right. exact H.
    + right. left. exact H.
    + destruct (IH H) as [Hk | Hin]; [left; exact Hk | right; right; exact Hin].
Qed.

Lemma Map_set_NoDup (entries : list (string * number)) (key : string) (value : number) :
  List.NoDup (map fst entries) -> List.NoDup (map fst (Map_set entries key value)).
Proof.
  induction entries as [|[k v] rest IH]; cbn [Map_set map fst]; intros Hnodup.
  - apply List.NoDup_cons; [intros [] | apply List.NoDup_nil].
  - inversion Hnodup as [|? ? Hnotin Hrest]; subst.
    destruct (String.eqb_spec k key) as [E|E]; cbn [map fst].
    + apply List.NoDup_cons; assumption.
    + apply List.NoDup_cons; [|apply IH; exact Hrest].
      intros Hin. apply Map_set_key_in in Hin. destruct Hin as [Hk | Hin];
        [apply E; exact Hk | apply Hnotin; exact Hin].
Qed.

Lemma Map_get_In (entries : list (string * number)) (key : string) (value : number) :
  List.NoDup (map fst entries) -> In (key, value) entries ->
  Map_get entries key = Some value.
Proof.
  unfold Map_get. induction entries as [|[k v] rest IH]; intros Hnodup Hin; [destruct Hin|].
  inversion Hnodup as [|? ? Hnotin Hrest]; subst. cbn [List.find fst snd].
  destruct Hin as [Heq | Hin].
  - injection Heq as -> ->. rewrite String.eqb_refl. reflexivity.
  - destruct (String.eqb_spec k key) as [E|E]; [|apply IH; assumption].
    exfalso. apply Hnotin. subst k. apply (in_map fst) in Hin. exact Hin.
Qed.

Lemma Map_get_entry (entries : list (string * number)) (key : string) (value : number) :
  Map_get entries key = Some value -> In (key, value) entries.
Proof.
  unfold Map_get. destruct (List.find _ entries) as [[k v]|] eqn:Efind; [|discriminate].
  intros H. injection H as <-. apply find_some in Efind. destruct Efind as [Hin Hk].
  apply String.eqb_eq in Hk. cbn in Hk. subst k. exact Hin.
Qed.

Lemma requiredOn_app (key : string) (seen : list OrderPayment.t) (p : OrderPayment.t) :
  Spec.requiredOn key (seen ++ [p])
  == Spec.requiredOn key seen
     + (if String.eqb (OrderPayment.accountId p) key
        then Spec.term (OrderPayment.amount p) else 0).
Proof.
  unfold Spec.requiredOn. rewrite List.filter_app, map_app. cbn [List.filter].
  unfold Spec.sumSafe. rewrite fold_right_app.
  generalize (map OrderPayment.amount
                (List.filter (fun q => String.eqb (OrderPayment.accountId q) key) seen)).
  intros l. destruct (String.eqb (OrderPayment.accountId p) key); cbn [map fold_right];
    induction l as [|x l IH]; cbn [fold_right]; try ring; rewrite IH; ring.
Qed.

Lemma requiredOn_absent (key : string) (seen : list OrderPayment.t) :
  (forall p, In p seen -> OrderPayment.accountId p <> key) ->
  Spec.requiredOn key seen == 0.
Proof.
  unfold Spec.requiredOn. induction seen as [|p seen IH]; intros H; [reflexivity|].
  cbn [List.filter].
  destruct (String.eqb_spec (OrderPayment.accountId p) key) as [E|E].
  - exfalso. apply (H p); [left; reflexivity | exact E].
  - apply IH. intros q Hq. apply H. right. exact Hq.
Qed.

Lemma requiredOn_covers (payments : list OrderPayment.t) (p : OrderPayment.t) (a : Q) :
  Forall Spec.properAmount payments -> In p payments -> OrderPayment.amount p = Num a ->
  a <= Spec.requiredOn (OrderPayment.accountId p) payments
  /\ 0 <= Spec.requiredOn (OrderPayment.accountId p) payments.
Proof.
  intros Hall Hin Ha.
  assert (Hpos : forall key l, Forall Spec.properAmount l -> 0 <= Spec.requiredOn key l).
  { intros key l Hl. unfold Spec.requiredOn.
    induction Hl as [|q l [b [Hb Hb0]] _ IH]; [simpl; lra|]. cbn [List.filter].
    destruct (String.eqb (OrderPayment.accountId q) key); [|exact IH].
    cbn [map Spec.sumSafe fold_right]. rewrite Hb. cbn [Spec.term].
    unfold Spec.sumSafe in IH. lra. }
  split; [|apply Hpos; exact Hall].
  induction Hall as [|q l [b [Hb Hb0]] Hl IH]; [destruct Hin|].
  unfold Spec.requiredOn. cbn [List.filter]. destruct Hin as [-> | Hin].
  - rewrite String.eqb_refl. cbn [map Spec.sumSafe fold_right]. rewrite Ha.
    cbn [Spec.term].
    pose proof (Hpos (OrderPayment.accountId p) l Hl) as H0.
    unfold Spec.requiredOn, Spec.sumSafe in H0. lra.
  - specialize (IH Hin). unfold Spec.requiredOn in IH.
    destruct (String.eqb (OrderPayment.accountId q) (OrderPayment.accountId p));
      [|exact IH].
    cbn [map Spec.sumSafe fold_right]. rewrite Hb. cbn [Spec.term].
    unfold Spec.sumSafe in IH. lra.
Qed.

Lemma grouped_step (entries : list (string * number)) (seen : list OrderPayment.t)
    (p : OrderPayment.t) :
  Spec.grouped entries seen -> Spec.properAmount p ->
  Spec.grouped
    (Map_set entries (OrderPayment.accountId p)
       (Js.add
          match Map_get entries (OrderPayment.accountId p) with
          | Some total => Js.or_else total Js.zero
          | None => Js.zero
          end
          (OrderPayment.amount p)))
    (seen ++ [p]).
Proof.
  intros [Hnodup [Htotals Hseen]] [a [Ha Ha0]].
  assert (Hcurrent : exists c : Q,
    match Map_get entries (OrderPayment.accountId p) with
    | Some total => Js.or_else total Js.zero
    | None => Js.zero
    end = Num c
    /\ c == Spec.requiredOn (OrderPayment.accountId p) seen).
  { destruct (Map_get entries (OrderPayment.accountId p)) as [total|] eqn:Eget.
    - destruct (Htotals _ _ Eget) as [t [-> Ht]].
      destruct (or_else_zero_term (Num t)) as [c [Hc Hct]].
      exists c. split; [exact Hc|]. rewrite Hct. exact Ht.
    - exists 0. split; [reflexivity|]. symmetry. apply requiredOn_absent.
      intros q Hq E. apply (Hseen q Hq). rewrite E. exact Eget. }
  destruct Hcurrent as [c [Hc Hcvalue]]. rewrite Hc, Ha. cbn [Js.add Js.lift2].
  split; [apply Map_set_NoDup; exact Hnodup|]. split.
  - intros key total. rewrite Map_get_set.
    destruct (String.eqb_spec (OrderPayment.accountId p) key) as [E|E].
    + intros H. injection H as <-. exists (c + a). split; [reflexivity|].
      rewrite requiredOn_app. subst key. rewrite String.eqb_refl, Ha, Hcvalue.
      reflexivity.
    + intros H. destruct (Htotals _ _ H) as [t [-> Ht]]. exists t.
      split; [reflexivity|]. rewrite requiredOn_app.
      apply String.eqb_neq in E. rewrite E, Ht. ring.
  - intros q Hq. rewrite Map_get_set. apply in_app_or in Hq.
    destruct (String.eqb_spec (OrderPayment.accountId p) (OrderPayment.accountId q));
      [discriminate|].
    destruct Hq as [Hq | [-> | []]]; [apply Hseen; exact Hq | contradiction].
Qed.

Lemma accountPayments_grouped (payments : list OrderPayment.t) :
  Forall Spec.properAmount payments -> Spec.grouped (accountPayments payments) payments.
Proof.
  intros Hall. unfold accountPayments, Js.forEach.
  assert (H : forall (i : nat) (entries : list (string * number)) (seen : list OrderPayment.t),
    Spec.grouped entries seen ->
    Spec.grouped
      (Js.forEach_from
         (fun (accountPayments : list (string * number)) payment (_ : nat) =>
            Map_set accountPayments (OrderPayment.accountId payment)
              (Js.add
                 match Map_get accountPayments (OrderPayment.accountId payment) with
                 | Some total => Js.or_else total Js.zero
                 | None => Js.zero
                 end
                 (OrderPayment.amount payment)))
         payments i entries)
      (seen ++ payments)).
  { induction Hall as [|p rest Hp _ IH]; intros i entries seen Hgrouped;
      cbn [Js.forEach_from].
    - rewrite app_nil_r. exact Hgrouped.
    - replace (seen ++ p :: rest) with ((seen ++ [p]) ++ rest)
        by (rewrite <- app_assoc; reflexivity).
      apply IH. apply grouped_step; assumption. }
  apply (H 0%nat [] []). split; [apply List.NoDup_nil|]. split.
  - intros key total Hget. discriminate.
  - intros p [].
Qed.

Lemma forEach_from_collect {A B} (f : A -> option B) (l : list A) :
  forall (i : nat) (acc : list B),
    Js.forEach_from
      (fun acc x (_ : nat) => match f x with Some y => acc ++ [y] | None => acc end) l i acc
    = acc ++ flat_map (fun x => match f x with Some y => [y] | None => [] end) l.
Proof.
  induction l as [|x l IH]; intros i acc; cbn [Js.forEach_from flat_map].
  - rewrite app_nil_r. reflexivity.
  - rewrite IH. destruct (f x); [rewrite <- app_assoc|]; reflexivity.
Qed.

Lemma summaries_of_entries (orderType : OrderType) (payments : list OrderPayment.t)
    (accounts : list Account.t) (summary : AccountSummary.t) :
  In summary (accountSummaries localeCompare orderType payments accounts)
  <-> orderType = BUY
      /\ exists (accountId : string) (totalRequired : number) (account : Account.t),
           In (accountId, totalRequired) (accountPayments payments)
           /\ List.find (fun acc => String.eqb (Account.id acc) accountId) accounts
              = Some account
           /\ summary
              = AccountSummary.mk account totalRequired (Account.balance account)
                  (Js.Math_max Js.zero (Js.sub totalRequired (Num (Account.balance account))))
                  (Js.gt (Js.Math_max Js.zero
                            (Js.sub totalRequired (Num (Account.balance account))))
                     Js.zero).
Proof.
  unfold accountSummaries. cbv zeta.
  set (f := fun entry : string * number =>
              match List.find (fun acc => String.eqb (Account.id acc) entry.1) accounts with
              | Some account =>
                  Some (AccountSummary.mk account entry.2 (Account.balance account)
                          (Js.Math_max Js.zero
                             (Js.sub entry.2 (Num (Account.balance account))))
                          (Js.gt (Js.Math_max Js.zero
                                    (Js.sub entry.2 (Num (Account.balance account))))
                             Js.zero))
              | None => None
              end).
  assert (Hcollect :
    Js.forEach
      (fun (summaries : list AccountSummary.t) (entry : string * number) (_ : nat) =>
         let '(accountId, totalRequired) := entry in
         match List.find (fun acc => String.eqb (Account.id acc) accountId) accounts with
         | Some account =>
             summaries ++
             [AccountSummary.mk account totalRequired (Account.balance account)
                (Js.Math_max Js.zero (Js.sub totalRequired (Num (Account.balance account))))
                (Js.gt (Js.Math_max Js.zero
                          (Js.sub totalRequired (Num (Account.balance account))))
                   Js.zero)]
         | None => summaries
         end)
      (accountPayments payments) []
    = flat_map (fun entry => match f entry with Some y => [y] | None => [] end)
        (accountPayments payments)).
  { unfold Js.forEach. rewrite <- (app_nil_l (flat_map _ _)).
    rewrite <- (forEach_from_collect f (accountPayments payments) 0%nat []).
    apply forEach_from_pointwise.
    intros summaries [accountId totalRequired] i. unfold f. cbn [fst snd].
    destruct (List.find _ accounts); reflexivity. }
  rewrite Hcollect.
  assert (Htype : OrderType_eqb orderType BUY = true <-> orderType = BUY)
    by (destruct orderType; simpl; split; congruence).
  destruct (OrderType_eqb orderType BUY) eqn:Etype; cbn [negb orb].
  2:{ split; [intros [] | intros [H _]; apply Htype in H; discriminate]. }
  assert (Hflat : forall entries,
    In summary (flat_map (fun entry => match f entry with Some y => [y] | None => [] end)
                  entries)
    <-> exists accountId totalRequired account,
          In (accountId, totalRequired) entries
          /\ List.find (fun acc => String.eqb (Account.id acc) accountId) accounts
             = Some account
          /\ summary
             = AccountSummary.mk account totalRequired (Account.balance account)
                 (Js.Math_max Js.zero (Js.sub totalRequired (Num (Account.balance account))))
                 (Js.gt (Js.Math_max Js.zero
                           (Js.sub totalRequired (Num (Account.balance account))))
                    Js.zero)).
  { intros entries. rewrite in_flat_map. split.
    - intros [[accountId totalRequired] [Hin Hsum]]. unfold f in Hsum. cbn [fst snd] in Hsum.
      destruct (List.find _ accounts) as [account|] eqn:Efind; [|destruct Hsum].
      destruct Hsum as [<- | []]. exists accountId, totalRequired, account.
      split; [exact Hin|]. split; [exact Efind | reflexivity].
    - intros [accountId [totalRequired [account [Hin [Efind ->]]]]].
      exists (accountId, totalRequired). split; [exact Hin|].
      unfold f. cbn [fst snd]. rewrite Efind. left. reflexivity. }
  destruct (Nat.eqb (length payments) 0) eqn:Elen.
  - destruct payments; [|discriminate]. split; [intros []|].
    intros [_ [accountId [totalRequired [account [Hin _]]]]]. destruct Hin.
  - split.
    + intros Hin. split; [apply Htype; reflexivity|]. apply Hflat.
      apply (Permutation_in _ (sort_permutation (compareSummaries localeCompare) _)).
      exact Hin.
    + intros [_ H]. apply Hflat in H.
      apply (Permutation_in _
               (Permutation_sym (sort_permutation (compareSummaries localeCompare) _))).
      exact H.
Qed.

Lemma shortfall_total (summaries : list AccountSummary.t) :
  Forall
    (fun summary =>
       exists short : Q,
         AccountSummary.shortfall summary = Num short /\ 0 <= short
         /\ (AccountSummary.hasInsufficientBalance summary = true <-> 0 < short))
    summaries ->
  forall acc : Q,
    0 <= acc ->
    exists total : Q,
      fold_left (fun sum summary => Js.add sum (AccountSummary.shortfall summary))
        summaries (Num acc) = Num total
      /\ acc <= total
      /\ (0 < total <-> 0 < acc \/ existsb AccountSummary.hasInsufficientBalance summaries = true).
Proof.
  induction 1 as [|summary rest [short [Hshort [Hpos Hmark]]] _ IH]; intros acc Hacc;
    cbn [fold_left existsb].
  - exists acc. split; [reflexivity|]. split; [lra|].
    split; [intros H; left; exact H | intros [H | H]; [exact H | discriminate]].
  - rewrite Hshort. cbn [Js.add Js.lift2].
    destruct (IH (acc + short)) as [total [Htotal [Hle Hiff]]]; [lra|].
    exists total. split; [exact Htotal|]. split; [lra|].
    rewrite Hiff, orb_true_iff, Hmark. split.
    + intros [H | H]; [|right; right; exact H].
      destruct (Qlt_le_dec 0 acc) as [Ha | Ha]; [left; exact Ha|].
      right. left. lra.
    + intros [H | [H | H]]; [left; lra | left; lra | right; exact H].
Qed.

(** X28: when every payment is for an amount that is a number and not
    negative, each line of the balance summary is for an account of the
    list and carries what the payments ask of that account in all, the
    shortfall against its balance, and a mark set exactly when the
    balance is below that total.  The summary adds up the payments of
    an account where the validation of the form looks at each payment
    alone: when no two accounts share an identifier and the validation
    finds a payment above the balance of its account, the summary marks
    an account as short of funds.  The total shortfall is a number that
    is not negative, above zero exactly when an account is marked. *)
Theorem balance_summary_totals (orderType : OrderType) (payments : list OrderPayment.t)
    (accounts : list Account.t) :
  Forall Spec.properAmount payments ->
  let summaries := accountSummaries localeCompare orderType payments accounts in
  Forall
    (fun summary =>
       In (AccountSummary.account summary) accounts
       /\ AccountSummary.balance summary = Account.balance (AccountSummary.account summary)
       /\ exists required short : Q,
            AccountSummary.totalRequired summary = Num required
            /\ required
               == Spec.requiredOn (Account.id (AccountSummary.account summary)) payments
            /\ AccountSummary.shortfall summary = Num short
            /\ short == Qmax 0 (required - AccountSummary.balance summary)
            /\ (AccountSummary.hasInsufficientBalance summary = true
                <-> AccountSummary.balance summary < required))
    summaries
  /\ (orderType = BUY -> List.NoDup (map Account.id accounts) ->
      Exists (Spec.exceedsBalance accounts) payments ->
      hasAnyInsufficientBalance summaries = true)
  /\ (orderType <> BUY -> summaries = [])
  /\ exists total : Q,
       totalShortfall summaries = Num total /\ 0 <= total
       /\ (0 < total <-> hasAnyInsufficientBalance summaries = true).
Proof.
  intros Hall summaries. unfold summaries. clear summaries.
  destruct (accountPayments_grouped payments Hall) as [Hnodup [Htotals Hseen]].
  assert (Hshort : forall required balance : Q,
    exists short : Q,
      Js.Math_max Js.zero (Js.sub (Num required) (Num balance)) = Num short
      /\ short == Qmax 0 (required - balance)
      /\ (Js.gt (Num short) Js.zero = true <-> balance < required)).
  { intros required balance. cbn [Js.sub Js.lift2]. unfold Js.Math_max, Js.zero.
    destruct (Qle_bool 0 (required - balance)) eqn:E.
    - apply Qle_bool_iff in E. exists (required - balance). split; [reflexivity|].
      split; [symmetry; apply Q.max_r; exact E|].
      unfold Js.gt, Js.lt. rewrite negb_Qle_bool. split; intros H; lra.
    - apply Qle_bool_false in E. exists 0. split; [reflexivity|].
      split; [symmetry; apply Q.max_l; lra|].
      unfold Js.gt, Js.lt. rewrite negb_Qle_bool. split; intros H; lra. }
  assert (Hlines :
    Forall
      (fun summary =>
         In (AccountSummary.account summary) accounts
         /\ AccountSummary.balance summary = Account.balance (AccountSummary.account summary)
         /\ exists required short : Q,
              AccountSummary.totalRequired summary = Num required
              /\ required
                 == Spec.requiredOn (Account.id (AccountSummary.account summary)) payments
              /\ AccountSummary.shortfall summary = Num short
              /\ short == Qmax 0 (required - AccountSummary.balance summary)
              /\ (AccountSummary.hasInsufficientBalance summary = true
                  <-> AccountSummary.balance summary < required))
      (accountSummaries localeCompare orderType payments accounts)).
  2:{ split; [exact Hlines|]. split; [|split].
      3:{ destruct (shortfall_total
                      (accountSummaries localeCompare orderType payments accounts))
            with (acc := 0) as [total [Htotal [Hpos Hiff]]]; [|lra|].
          - eapply List.Forall_impl; [|exact Hlines].
            intros summary [_ [_ [required [short [_ [_ [Hs [Hv Hmark]]]]]]]].
            exists short. split; [exact Hs|].
            assert (Hmax : 0 <= short) by (rewrite Hv; apply Q.le_max_l).
            split; [exact Hmax|]. rewrite Hmark.
            destruct (Q.max_spec 0 (required - AccountSummary.balance summary))
              as [[Hlt Heq] | [Hge Heq]]; rewrite Heq in Hv; split; intros H; lra.
          - exists total. split; [exact Htotal|]. split; [exact Hpos|].
            rewrite Hiff. unfold hasAnyInsufficientBalance.
            split; [intros [H | H]; [lra | exact H] | intros H; right; exact H]. }
      - intros -> Haccounts Hex. apply List.Exists_exists in Hex.
        destruct Hex as [p [Hin [account [a [Haccount [Ha Hlt]]]]]].
        unfold Spec.paymentAccount, Spec.lastBinding in Haccount.
        rewrite (find_lastBinding _ accounts Haccounts None) in Haccount.
        destruct (List.find
                    (fun acc => String.eqb (Account.id acc) (OrderPayment.accountId p))
                    accounts) as [account'|] eqn:Efind; [|discriminate].
        injection Haccount as ->.
        destruct (Map_get (accountPayments payments) (OrderPayment.accountId p))
          as [total|] eqn:Eget; [|exfalso; apply (Hseen p Hin); exact Eget].
        destruct (Htotals _ _ Eget) as [required [-> Hrequired]].
        destruct (requiredOn_covers payments p a Hall Hin Ha) as [Hcover _].
        destruct (Hshort required (Account.balance account)) as [short [Hs [_ Hmark]]].
        unfold hasAnyInsufficientBalance. apply existsb_exists.
        exists (AccountSummary.mk account (Num required) (Account.balance account)
                  (Js.Math_max Js.zero
                     (Js.sub (Num required) (Num (Account.balance account))))
                  (Js.gt (Js.Math_max Js.zero
                            (Js.sub (Num required) (Num (Account.balance account))))
                     Js.zero)).
        split.
        + apply summaries_of_entries. split; [reflexivity|].
          exists (OrderPayment.accountId p), (Num required), account.
          split; [apply Map_get_entry; exact Eget|]. split; [exact Efind | reflexivity].
        + cbn [AccountSummary.hasInsufficientBalance]. rewrite Hs. apply Hmark. lra.
      - intros Htype. unfold accountSummaries.
        destruct orderType; try contradiction; reflexivity. }
  apply List.Forall_forall. intros summary Hin.
  apply summaries_of_entries in Hin.
  destruct Hin as [_ [accountId [totalRequired [account [Hentry [Hfind ->]]]]]].
  cbn [AccountSummary.account AccountSummary.balance AccountSummary.totalRequired
       AccountSummary.shortfall AccountSummary.hasInsufficientBalance].
  apply find_some in Hfind. destruct Hfind as [Hacc Hid]. apply String.eqb_eq in Hid.
  split; [exact Hacc|]. split; [reflexivity|].
  destruct (Htotals _ _ (Map_get_In _ _ _ Hnodup Hentry)) as [required [-> Hrequired]].
  destruct (Hshort required (Account.balance account)) as [short [Hs [Hsvalue Hmark]]].
  exists required, short. rewrite Hs, Hid.
  split; [reflexivity|]. split; [exact Hrequired|]. split; [reflexivity|].
  split; [exact Hsvalue | exact Hmark].
Qed.


End BalanceSummaryFacts.

(** An instance of [balance_summary_totals]: two payments of 60 on an
    account that holds 100 pass the validation one by one, and the
    summary asks 120 of the account. *)
Lemma balance_summary_totals_witness :
  let payments := [OrderPayment.mk "a1" (Num 60); OrderPayment.mk "a1" (Num 60)] in
  let accounts := [Account.mk "a1" "Cash" 100] in
  Forall Spec.properAmount payments
  /\ Forall
       (fun summary =>
          exists required : Q,
            BalanceSummary.AccountSummary.totalRequired summary = Num required
            /\ required
               == Spec.requiredOn
                    (Account.id (BalanceSummary.AccountSummary.account summary)) payments)
       (BalanceSummary.accountSummaries Spec.codeUnitCompare BUY payments accounts).
Proof.
  intros payments accounts.
  assert (H : Forall Spec.properAmount payments).
  { repeat constructor; exists 60; split; try reflexivity; discriminate. }
  split; [exact H|].
  destruct (balance_summary_totals Spec.codeUnitCompare BUY payments accounts H)
    as [Hall _].
  eapply List.Forall_impl; [|exact Hall].
  intros summary [_ [_ [required [short [Hr [Hv _]]]]]].
  exists required. split; assumption.
Defined.

(** ** The table of charges *)

Section ChargeTable.

Import CalculationSelector.

Lemma calculateGrandTotal_eqv (s d t : number) (charges charges' : list OrderCharge.t) :
  Spec.chargeAmount s d charges == Spec.chargeAmount s d charges' ->
  Js.eqv (Utils.calculateGrandTotal s d t charges) (Utils.calculateGrandTotal s d t charges').
Proof.
  intros Hsame. unfold Utils.calculateGrandTotal.
  destruct (calculateChargeAmount_sum s d charges) as [a [Ha Hsum]].
  destruct (calculateChargeAmount_sum s d charges') as [a' [Ha' Hsum']].
  rewrite Ha, Ha'.
  destruct (Js.add (Js.sub s d) t) as [|x]; [exact I|]. cbn [Js.add Js.lift2].
  destruct (Math_max_zero (x + a)) as [m [Hm [Hmax _]]].
  destruct (Math_max_zero (x + a')) as [m' [Hm' [Hmax' _]]].
  rewrite Hm, Hm'. cbn [Js.eqv]. rewrite Hmax, Hmax', Hsum, Hsum', Hsame. reflexivity.
Qed.

Lemma fold_amounts_map (update : OrderCharge.t -> OrderCharge.t)
    (charges : list OrderCharge.t) :
  (forall c, OrderCharge.isPaidByBusiness (update c) = OrderCharge.isPaidByBusiness c
             /\ OrderCharge.amount (update c) = OrderCharge.amount c) ->
  forall acc : number,
    fold_left (fun sum c => Js.add sum (OrderCharge.amount c))
      (List.filter (fun charge => negb (OrderCharge.isPaidByBusiness charge))
         (map update charges)) acc
    = fold_left (fun sum c => Js.add sum (OrderCharge.amount c))
        (List.filter (fun charge => negb (OrderCharge.isPaidByBusiness charge)) charges)
        acc.
Proof.
  intros Hkeep. induction charges as [|c charges IH]; intros acc; cbn [map List.filter];
    [reflexivity|].
  destruct (Hkeep c) as [Hpaid Hamount]. rewrite Hpaid.
  destruct (OrderCharge.isPaidByBusiness c); cbn [negb fold_left]; [apply IH|].
  rewrite Hamount. apply IH.
Qed.

(** X29: an edit in the table of charges reaches every charge that
    carries the identifier and no other; it keeps the order and the
    identifiers of the charges, sets the fields it is given and keeps
    the others, and made twice it is as made once.  An edit that gives
    neither an amount nor who pays, as typing the percentage of a
    percentage charge does, leaves the total of the calculation card
    as it was; an edit of the name alone leaves the grand total and
    the charges of the business as they were. *)
Theorem charge_change_frame (charges : list OrderCharge.t) (id : string)
    (updatedFields : ChargeUpdates.t) (subTotal discount tax : number) :
  let updated := handleChargeChange charges id updatedFields in
  map OrderCharge.id updated = map OrderCharge.id charges
  /\ Forall2
       (fun charge charge' =>
          if String.eqb (OrderCharge.id charge) id then
            OrderCharge.name charge'
            = default (OrderCharge.name charge) (ChargeUpdates.name updatedFields)
            /\ OrderCharge.amount charge'
               = default (OrderCharge.amount charge) (ChargeUpdates.amount updatedFields)
            /\ OrderCharge.type charge'
               = default (OrderCharge.type charge) (ChargeUpdates.type updatedFields)
            /\ OrderCharge.percentage charge'
               = default (OrderCharge.percentage charge)
                   (ChargeUpdates.percentage updatedFields)
            /\ OrderCharge.isPaidByBusiness charge'
               = default (OrderCharge.isPaidByBusiness charge)
                   (ChargeUpdates.isPaidByBusiness updatedFields)
          else charge' = charge)
       charges updated
  /\ handleChargeChange updated id updatedFields = updated
  /\ (ChargeUpdates.amount updatedFields = None ->
      ChargeUpdates.isPaidByBusiness updatedFields = None ->
      grandTotal subTotal discount tax updated = grandTotal subTotal discount tax charges)
  /\ (ChargeUpdates.amount updatedFields = None ->
      ChargeUpdates.type updatedFields = None ->
      ChargeUpdates.percentage updatedFields = None ->
      ChargeUpdates.isPaidByBusiness updatedFields = None ->
      Js.eqv (Utils.calculateGrandTotal subTotal discount tax updated)
        (Utils.calculateGrandTotal subTotal discount tax charges)
      /\ Js.eqv (Utils.calculateVendorCharges subTotal updated)
           (Utils.calculateVendorCharges subTotal charges)).
Proof.
  intros updated. unfold updated, handleChargeChange. clear updated.
  set (update := fun charge : OrderCharge.t =>
                   if String.eqb (OrderCharge.id charge) id then
                     OrderCharge.mk (OrderCharge.id charge)
                       (default (OrderCharge.name charge) (ChargeUpdates.name updatedFields))
                       (default (OrderCharge.amount charge)
                          (ChargeUpdates.amount updatedFields))
                       (default (OrderCharge.type charge) (ChargeUpdates.type updatedFields))
                       (default (OrderCharge.percentage charge)
                          (ChargeUpdates.percentage updatedFields))
                       (default (OrderCharge.isPaidByBusiness charge)
                          (ChargeUpdates.isPaidByBusiness updatedFields))
                   else charge).
  assert (Hid : forall c, OrderCharge.id (update c) = OrderCharge.id c).
  { intros c. unfold update. destruct (String.eqb (OrderCharge.id c) id); reflexivity. }
  split; [|split; [|split; [|split]]].
  - rewrite map_map. apply map_ext. exact Hid.
  - apply Forall2_map_same. apply List.Forall_forall. intros c _. unfold update.
    destruct (String.eqb (OrderCharge.id c) id); [repeat split | reflexivity].
  - rewrite map_map. apply map_ext. intros c. unfold update at 1. rewrite Hid.
    unfold update. destruct (String.eqb (OrderCharge.id c) id); [|reflexivity].
    destruct updatedFields as [[n|] [a|] [k|] [p|] [b|]]; reflexivity.
  - intros Hamount Hpaid. unfold grandTotal. f_equal. f_equal.
    apply fold_amounts_map. intros c. unfold update.
    destruct (String.eqb (OrderCharge.id c) id); [|split; reflexivity].
    rewrite Hamount, Hpaid. split; reflexivity.
  - intros Hamount Htype Hpercentage Hpaid.
    assert (Hkeep : forall c,
      OrderCharge.isPaidByBusiness (update c) = OrderCharge.isPaidByBusiness c
      /\ (forall s d, Spec.counterpartyTerm s d (update c) = Spec.counterpartyTerm s d c)
      /\ (forall s, Spec.businessTerm s (update c) = Spec.businessTerm s c)).
    { intros c. unfold update.
      destruct (String.eqb (OrderCharge.id c) id); [|repeat split; reflexivity].
      rewrite Hamount, Htype, Hpercentage, Hpaid. repeat split; reflexivity. }
    split.
    + apply calculateGrandTotal_eqv.
      unfold Spec.chargeAmount, Spec.absorbedByCounterparty.
      induction charges as [|c charges IH]; cbn [map List.filter]; [reflexivity|].
      destruct (Hkeep c) as [Hp [Hterm _]]. rewrite Hp.
      destruct (OrderCharge.isPaidByBusiness c); cbn [negb]; [exact IH|].
      cbn [map Spec.sumSafe fold_right]. unfold Spec.sumSafe in IH.
      rewrite IH, Hterm. reflexivity.
    + assert (Hvendor : Spec.vendorCharges subTotal (map update charges)
                         == Spec.vendorCharges subTotal charges).
      { unfold Spec.vendorCharges, Spec.absorbedByBusiness.
        induction charges as [|c charges IH]; cbn [map List.filter]; [reflexivity|].
        destruct (Hkeep c) as [Hp [_ Hterm]]. rewrite Hp.
        destruct (OrderCharge.isPaidByBusiness c); [|exact IH].
        cbn [map Spec.sumSafe fold_right]. unfold Spec.sumSafe in IH.
        rewrite IH, Hterm. reflexivity. }
      destruct (calculateVendorCharges_sum subTotal (map update charges))
        as [v' [Hv' Hsum']].
      destruct (calculateVendorCharges_sum subTotal charges) as [v [Hv Hsum]].
      rewrite Hv', Hv. cbn [Js.eqv]. rewrite Hsum', Hsum. exact Hvendor.
Qed.

End ChargeTable.

(** ** Totals of the earlier form *)

Section EarlierTotals.

Import BuyOrderForm.


End EarlierTotals.
